(** * Department Store e-commerce API: catalog, cart and checkout

    A shallow embedding of [src/main.py] and [src/schemas.py].

    - [Py]: the Python builtins the handlers rely on (binary64 floats,
      [round(x, 2)], [float * int], [sum], [str.lower], [in] on strings).
      A [str] is held as its UTF-8 bytes.
    - [ObjectId]: the document identifiers of the storage backend and their
      construction from text.
    - [CartItem], [Cart], [OrderItem], [Customer], [Order], [Product]: the
      models of [schemas.py].
    - [Database]: the document store, as lists of documents in storage order,
      with the calls the handlers make on it.
    - [Main]: the request handlers of [main.py].

    The theorems follow the definitions. *)

From Stdlib Require Import ZArith NArith List Bool String Ascii Lia.
From Stdlib Require Import PrimFloat SpecFloat FloatOps.
Import ListNotations.

(* ================================================================= *)
(** ** Exceptions and results *)

(** The exceptions that can travel through a handler.  [detail] is the
    payload of an [HTTPException]: either a literal text or [str(e)] of the
    exception that a broad [except Exception as e] clause caught. *)
Inductive exc : Type :=
| HTTPException (status_code : nat) (detail : detail)
| InvalidId (oid : string)        (* bson.errors.InvalidId *)
| OverflowError                   (* int too large to convert to float *)
| AttributeError                  (* None has no attribute 'lower' *)
| PyMongoError                    (* the storage backend failed *)
with detail : Type :=
| Text (s : string)
| StrOf (e : exc).

Inductive result (A : Type) : Type :=
| Return (a : A)
| Raise (e : exc).
Arguments Return {A} a.
Arguments Raise {A} e.

Definition rbind {A B} (r : result A) (k : A -> result B) : result B :=
  match r with
  | Return a => k a
  | Raise e => Raise e
  end.

(* ================================================================= *)
(** ** Python builtins *)

Module Py.

Local Open Scope Z_scope.

(** [round_half_even_div a d] is the integer nearest to [a / d], ties going
    to the even one ([d > 0]). *)
Definition round_half_even_div (a d : Z) : Z :=
  let q := a / d in
  let r := a mod d in
  match 2 * r ?= d with
  | Lt => q
  | Gt => q + 1
  | Eq => if Z.even q then q else q + 1
  end.

(** The number of hundredths nearest to the exact value [m * 2^e]. *)
Definition scaled_hundredths (m : positive) (e : Z) : Z :=
  match e with
  | Zneg p => round_half_even_div (Zpos m * 100) (Z.pow_pos 2 p)
  | _ => Zpos m * 100 * 2 ^ e
  end.

(** The binary64 number nearest to [n / 100], with sign [s]. *)
Definition hundredths_to_float (s : bool) (n : Z) : float :=
  match n with
  | Zpos _ =>
      let '(q, e, l) := SFdiv_core_binary prec emax n 0 100 0 in
      SF2Prim (binary_round_aux prec emax s q e l)
  | _ => SF2Prim (S754_zero s)
  end.

(** [round(x, 2)] on a float: the exact value of [x] is rounded half-even
    to two decimals and the decimal result is read back as the nearest
    float; infinities and NaN are returned as they are. *)
Definition round2 (x : float) : float :=
  match Prim2SF x with
  | S754_finite s m e => hundredths_to_float s (scaled_hundredths m e)
  | _ => x
  end.

(** [float(n)] for an [int]: nearest float, [OverflowError] beyond the
    binary64 range. *)
Definition float_of_int (n : Z) : result float :=
  match binary_normalize prec emax n 0 false with
  | S754_infinity _ => Raise OverflowError
  | sf => Return (SF2Prim sf)
  end.

(** [x * n] with [x] a float and [n] an int. *)
Definition float_mul_int (x : float) (n : Z) : result float :=
  rbind (float_of_int n) (fun y => Return (PrimFloat.mul x y)).

(** [sum] over a generator whose elements are computed on demand by [f]:
    accumulation from [0], left to right; the first element that raises
    ends the sum.  (The sum of no element is the integer [0], which equals
    the float [0.0] and is read here as that float.  From CPython 3.12 on,
    the float loop also carries a compensation term for the rounding
    errors; the statements below mention the sum as a whole only, and the
    sample carts add up exactly.) *)
Fixpoint sum_from {A} (f : A -> result float) (acc : float) (l : list A)
  : result float :=
  match l with
  | [] => Return acc
  | a :: l' => rbind (f a) (fun x => sum_from f (PrimFloat.add acc x) l')
  end.

Definition sum {A} (f : A -> result float) (l : list A) : result float :=
  sum_from f PrimFloat.zero l.

(** [str.lower] follows the case mapping of the Unicode character
    database, a table of the interpreter and no part of this repository.
    The handlers are read over any mapping [lower] of texts that leaves the
    empty text empty; nothing else is assumed of it. *)
Class Unicode := mkUnicode
  { lower : string -> string;
    lower_empty : lower EmptyString = EmptyString }.

(** The case mapping of ASCII text: [A] to [Z] go to [a] to [z], every
    other ASCII character stays.  It stands for [str.lower] in the worked
    examples, whose texts are all ASCII. *)
Definition lower_ascii (c : ascii) : ascii :=
  let n := N_of_ascii c in
  if (N.leb 65 n && N.leb n 90)%bool then ascii_of_N (n + 32) else c.

Fixpoint ascii_lower (s : string) : string :=
  match s with
  | EmptyString => EmptyString
  | String c s' => String (lower_ascii c) (ascii_lower s')
  end.

Definition ascii_text : Unicode := mkUnicode ascii_lower eq_refl.

Fixpoint startswith (s p : string) : bool :=
  match p, s with
  | EmptyString, _ => true
  | String a p', String b s' => (Ascii.eqb a b && startswith s' p')%bool
  | String _ _, EmptyString => false
  end.

(** [needle in hay] on strings.  A text occurs in another as a run of
    characters exactly when its UTF-8 bytes occur in the other's as a run of
    bytes. *)
Fixpoint contains (hay needle : string) : bool :=
  (startswith hay needle
   || match hay with
      | EmptyString => false
      | String _ hay' => contains hay' needle
      end)%bool.

(** Truth value of an [Optional[str]]: [None] and the empty string are
    false. *)
Definition truthy (o : option string) : bool :=
  match o with
  | Some (String _ _) => true
  | _ => false
  end.

End Py.

(* ================================================================= *)
(** ** Storage identifiers *)

Module ObjectId.

(** An ObjectId holds a byte string.  The identifiers that the backend
    hands out and stores hold twelve bytes, read here as a 96-bit value;
    their text form is 24 hexadecimal digits. *)
Definition t := N.

(** What [ObjectId(s)] holds for a [str]: the twelve bytes of an identifier,
    or fewer bytes when whitespace takes the place of digits in [s]. *)
Inductive key : Type :=
| Full (oid : t)
| Short (bytes : list N).

Definition hex_value (c : ascii) : option N :=
  let n := N_of_ascii c in
  if (N.leb 48 n && N.leb n 57)%bool then Some (n - 48)%N
  else if (N.leb 97 n && N.leb n 102)%bool then Some (n - 87)%N
  else if (N.leb 65 n && N.leb n 70)%bool then Some (n - 55)%N
  else None.

(** The number that a run of hexadecimal digits denotes. *)
Fixpoint hex_from (acc : N) (s : string) : option N :=
  match s with
  | EmptyString => Some acc
  | String c s' =>
      match hex_value c with
      | Some d => hex_from (16 * acc + d)%N s'
      | None => None
      end
  end.

(** ASCII whitespace: space, tab, line feed, vertical tab, form feed and
    carriage return. *)
Definition is_space (c : ascii) : bool :=
  let n := N_of_ascii c in
  (N.eqb n 32 || (N.leb 9 n && N.leb n 13))%bool.

(** [bytes.fromhex(s)]: whitespace before a byte is skipped, then two
    hexadecimal digits follow one another; any other character, a non-ASCII
    one too, or a digit alone is a [ValueError] ([None]). *)
Fixpoint fromhex (s : string) : option (list N) :=
  match s with
  | EmptyString => Some []
  | String c s' =>
      if is_space c then fromhex s'
      else
        match hex_value c, s' with
        | Some top, String c' s'' =>
            match hex_value c' with
            | Some bot =>
                match fromhex s'' with
                | Some bytes => Some ((16 * top + bot)%N :: bytes)
                | None => None
                end
            | None => None
            end
        | _, _ => None
        end
  end.

(** The value of a byte string, most significant byte first. *)
Fixpoint bytes_value (acc : N) (bytes : list N) : N :=
  match bytes with
  | [] => acc
  | b :: bytes' => bytes_value (256 * acc + b)%N bytes'
  end.

Definition of_bytes (bytes : list N) : key :=
  if Nat.eqb (List.length bytes) 12 then Full (bytes_value 0%N bytes)
  else Short bytes.

(** [ObjectId(s)] for a [str]: a text of 24 characters that
    [bytes.fromhex] accepts gives an ObjectId, every other text is an
    [InvalidId].  (A text with a non-ASCII character is rejected whatever
    its length.) *)
Definition parse (s : string) : result key :=
  if Nat.eqb (String.length s) 24 then
    match fromhex s with
    | Some bytes => Return (of_bytes bytes)
    | None => Raise (InvalidId s)
    end
  else Raise (InvalidId s).

Definition hex_digit (d : N) : ascii :=
  if N.ltb d 10 then ascii_of_N (48 + d) else ascii_of_N (87 + d).

Fixpoint hex_digits (k : nat) (v : N) (tail : string) : string :=
  match k with
  | O => tail
  | S k' => hex_digits k' (v / 16)%N (String (hex_digit (v mod 16)%N) tail)
  end.

(** [str(oid)]. *)
Definition str (v : t) : string := hex_digits 24 v EmptyString.

End ObjectId.

(* ================================================================= *)
(** ** schemas.py *)

(** Timestamps, in microseconds since the epoch. *)
Definition datetime := Z.

Module CartItem.
Record t := mk
  { product_id : string;
    title : string;
    price : float;
    quantity : Z;
    image : option string }.
End CartItem.

Module Cart.
Record t := mk
  { session_id : string;
    items : list CartItem.t;
    subtotal : float;
    updated_at : option datetime }.
End Cart.

Module OrderItem.
Record t := mk
  { product_id : string;
    title : string;
    price : float;
    quantity : Z;
    image : option string }.
End OrderItem.

Module Customer.
Record t := mk
  { name : string;
    email : string;
    phone : option string;
    address_line1 : string;
    address_line2 : option string;
    city : string;
    state : string;
    postal_code : string;
    country : string }.
End Customer.

Module Order.
Record t := mk
  { session_id : string;
    customer : Customer.t;
    items : list OrderItem.t;
    subtotal : float;
    tax : float;
    total : float;
    status : string;
    placed_at : option datetime }.
End Order.

(** A text field of a stored dictionary, as [dict.get] sees it: the key may
    be missing, or hold [None], or hold a string. *)
Inductive field : Type :=
| Absent
| Null
| Str (s : string).

Module Product.
(** A product document.  [title] and [description] are the two fields that
    [list_products] reads with [dict.get]. *)
Record t := mk
  { title : field;
    description : field;
    price : float;
    compare_at_price : option float;
    category_slug : string;
    brand : option string;
    sku : option string;
    images : list string;
    rating : float;
    stock : Z;
    attributes : list (string * string) }.
End Product.

(* ================================================================= *)
(** ** The document store *)

Module Database.

(** A document: its [_id] and the fields of its model.  Stored documents
    carry an ObjectId, serialized ones its text form. *)
Record Doc (I A : Type) := mkDoc { _id : I; body : A }.
Arguments mkDoc {I A} _ _.
Arguments _id {I A} _.
Arguments body {I A} _.

(** A collection lists its documents in storage order. *)
Definition Collection (A : Type) := list (Doc ObjectId.t A).

Record Store := mkStore
  { product : Collection Product.t;
    cart : Collection Cart.t;
    order : Collection Order.t;
    next_oid : ObjectId.t }.

(** The backend answers [budget] more calls and fails from then on;
    [None] is a backend that never fails. *)
Record Db := mkDb { store : Store; budget : option nat }.

(** Handlers run against the backend and either return or raise; the
    writes made before an exception stay. *)
Definition M (A : Type) := Db -> result A * Db.

Definition ret {A} (a : A) : M A := fun db => (Return a, db).

Definition raise {A} (e : exc) : M A := fun db => (Raise e, db).

Definition bind {A B} (m : M A) (k : A -> M B) : M B :=
  fun db =>
    match m db with
    | (Return a, db') => k a db'
    | (Raise e, db') => (Raise e, db')
    end.

Definition lift {A} (r : result A) : M A := fun db => (r, db).

(** One call to the backend. *)
Definition call {A} (op : Store -> A * Store) : M A :=
  fun db =>
    match budget db with
    | Some O => (Raise PyMongoError, db)
    | Some (S n) =>
        let (a, s) := op (store db) in (Return a, mkDb s (Some n))
    | None =>
        let (a, s) := op (store db) in (Return a, mkDb s None)
    end.

(** *** Operations on one collection *)

Definition find_one {A} (flt : Doc ObjectId.t A -> bool) (c : Collection A)
  : option (Doc ObjectId.t A) :=
  List.find flt c.

(** [update_one(flt, {"$set": fields})], [fields] holding every field of
    the model: the first match keeps its [_id] and takes the new fields. *)
Fixpoint update_one {A} (flt : Doc ObjectId.t A -> bool) (fields : A)
  (c : Collection A) : Collection A :=
  match c with
  | [] => []
  | d :: c' =>
      if flt d then mkDoc (_id d) fields :: c'
      else d :: update_one flt fields c'
  end.

Fixpoint delete_one {A} (flt : Doc ObjectId.t A -> bool) (c : Collection A)
  : Collection A :=
  match c with
  | [] => []
  | d :: c' => if flt d then c' else d :: delete_one flt c'
  end.

Definition insert_one {A} (oid : ObjectId.t) (fields : A) (c : Collection A)
  : Collection A :=
  c ++ [mkDoc oid fields].

(** *** Filters *)

Definition by_id {A} (oid : ObjectId.t) (d : Doc ObjectId.t A) : bool :=
  N.eqb (_id d) oid.

(** [{"_id": ObjectId(s)}]: a stored identifier equals an ObjectId of
    twelve bytes with the same value, and none that holds fewer bytes. *)
Definition by_key {A} (k : ObjectId.key) (d : Doc ObjectId.t A) : bool :=
  match k with
  | ObjectId.Full oid => by_id oid d
  | ObjectId.Short _ => false
  end.

Definition by_session_id (sid : string) (d : Doc ObjectId.t Cart.t) : bool :=
  String.eqb (Cart.session_id (body d)) sid.

(** The filter of [list_products]: [{}] or [{"category_slug": c}]. *)
Definition by_category_slug (filter_q : option string)
  (d : Doc ObjectId.t Product.t) : bool :=
  match filter_q with
  | None => true
  | Some c => String.eqb (Product.category_slug (body d)) c
  end.

(** *** Calls made by the handlers *)

Definition cart_find_one (sid : string) : M (option (Doc ObjectId.t Cart.t)) :=
  call (fun s => (find_one (by_session_id sid) (cart s), s)).

Definition cart_update_one (oid : ObjectId.t) (fields : Cart.t) : M unit :=
  call (fun s =>
          (tt, mkStore (product s) (update_one (by_id oid) fields (cart s))
                       (order s) (next_oid s))).

Definition cart_delete_one (sid : string) : M unit :=
  call (fun s =>
          (tt, mkStore (product s) (delete_one (by_session_id sid) (cart s))
                       (order s) (next_oid s))).

Definition product_find_one (k : ObjectId.key)
  : M (option (Doc ObjectId.t Product.t)) :=
  call (fun s => (find_one (by_key k) (product s), s)).

(** Modelled from the spec: [create_document] of [database.py], which is
    not among the sources.  The spec gives the storage interface as
    [insert(collection, document) -> id]: the document is added to the
    collection under a fresh identifier, and the text form of that
    identifier is returned. *)
Definition create_document_cart (fields : Cart.t) : M string :=
  call (fun s =>
          (ObjectId.str (next_oid s),
           mkStore (product s) (insert_one (next_oid s) fields (cart s))
                   (order s) (N.succ (next_oid s)))).

Definition create_document_order (fields : Order.t) : M string :=
  call (fun s =>
          (ObjectId.str (next_oid s),
           mkStore (product s) (cart s)
                   (insert_one (next_oid s) fields (order s))
                   (N.succ (next_oid s)))).

(** Modelled from the spec: [get_documents] of [database.py], which is not
    among the sources.  The spec gives it as
    [findMany(collection, filter) -> sequence]: the documents that match
    the filter, in storage order. *)
Definition get_documents_product (filter_q : option string)
  : M (Collection Product.t) :=
  call (fun s => (List.filter (by_category_slug filter_q) (product s), s)).

(** [doc["_id"] = str(doc["_id"])]. *)
Definition serialize {A} (d : Doc ObjectId.t A) : Doc string A :=
  mkDoc (ObjectId.str (_id d)) (body d).

End Database.

Declare Scope db_scope.
Delimit Scope db_scope with db.
Notation "x <- c1 ;; c2" := (Database.bind c1 (fun x => c2))
  (at level 100, c1 at next level, right associativity) : db_scope.
Notation "c1 ;; c2" := (Database.bind c1 (fun _ => c2))
  (at level 100, right associativity) : db_scope.

(* ================================================================= *)
(** ** main.py *)

Module Main.

Import Database.
Local Open Scope db_scope.

(** The flat tax rate [0.08], that is the binary64 number nearest to it. *)
Definition tax_rate : float := 0x1.47ae147ae147bp-4%float.

(** [except Exception as e: raise HTTPException(status_code=500,
    detail=str(e))]; every exception is an [Exception], an [HTTPException]
    raised inside the [try] block too. *)
Definition except_Exception {A} (m : M A) : M A :=
  fun db =>
    match m db with
    | (Raise e, db') => (Raise (HTTPException 500 (StrOf e)), db')
    | r => r
    end.

(** [except HTTPException: raise] before the broad clause, as in
    [checkout]. *)
Definition except_HTTPException_raise {A} (m : M A) : M A :=
  fun db =>
    match m db with
    | (Raise (HTTPException c d), db') => (Raise (HTTPException c d), db')
    | (Raise e, db') => (Raise (HTTPException 500 (StrOf e)), db')
    | r => r
    end.

(** *** Catalog *)

(** [p.get(key, "").lower()]. *)
Definition get_lower `{U : Py.Unicode} (f : field) : result string :=
  match f with
  | Absent => Return (Py.lower EmptyString)
  | Null => Raise AttributeError
  | Str s => Return (Py.lower s)
  end.

(** The condition of the search comprehension:
    [q_lower in p.get("title", "").lower() or
     q_lower in p.get("description", "").lower()]. *)
Definition search_hit `{U : Py.Unicode} (q_lower : string)
  (p : Doc ObjectId.t Product.t) : result bool :=
  rbind (get_lower (Product.title (body p))) (fun t =>
  if Py.contains t q_lower then Return true
  else rbind (get_lower (Product.description (body p))) (fun d =>
       Return (Py.contains d q_lower))).

(** [[p for p in products if cond(p)]] with a condition that may raise. *)
Fixpoint comprehension {A} (cond : A -> result bool) (l : list A)
  : result (list A) :=
  match l with
  | [] => Return []
  | a :: l' =>
      rbind (cond a) (fun keep =>
      rbind (comprehension cond l') (fun rest =>
      Return (if keep then a :: rest else rest)))
  end.

Definition list_products `{U : Py.Unicode} (category q : option string)
  : M (list (Doc string Product.t)) :=
  except_Exception
    (let filter_q := if Py.truthy category then category else None in
     products <- get_documents_product filter_q ;;
     products <- (if Py.truthy q then
                    match q with
                    | Some q' =>
                        lift (comprehension (search_hit (Py.lower q')) products)
                    | None => ret products
                    end
                  else ret products) ;;
     ret (List.map serialize products)).

Definition get_product (product_id : string) : M (Doc string Product.t) :=
  except_Exception
    (oid <- lift (ObjectId.parse product_id) ;;
     doc <- product_find_one oid ;;
     match doc with
     | None => raise (HTTPException 404 (Text "Product not found"))
     | Some d => ret (serialize d)
     end).

(** *** Cart *)

Module CartReply.
Record t := mk { status : string; subtotal : float }.
End CartReply.

(** [item.price * item.quantity]. *)
Definition line_total (item : CartItem.t) : result float :=
  Py.float_mul_int (CartItem.price item) (CartItem.quantity item).

(** [now] is the value of the handler's [datetime.now(timezone.utc)]. *)
Definition create_or_update_cart (now : datetime) (cart : Cart.t)
  : M CartReply.t :=
  except_Exception
    (subtotal <- lift (Py.sum line_total (Cart.items cart)) ;;
     let data :=
       Cart.mk (Cart.session_id cart) (Cart.items cart)
               (Py.round2 subtotal) (Some now) in
     existing <- cart_find_one (Cart.session_id cart) ;;
     match existing with
     | Some e => cart_update_one (_id e) data
     | None => _ <- create_document_cart data ;; ret tt
     end ;;
     ret (CartReply.mk "ok" (Cart.subtotal data))).

(** What [get_cart] returns: the stored document with its [_id] as text, or
    the dictionary [{session_id, items: [], subtotal: 0.0}]. *)
Inductive cart_json : Type :=
| StoredCart (d : Doc string Cart.t)
| NoCart (session_id : string) (items : list CartItem.t) (subtotal : float).

Definition get_cart (session_id : string) : M cart_json :=
  except_Exception
    (cart <- cart_find_one session_id ;;
     match cart with
     | None => ret (NoCart session_id [] PrimFloat.zero)
     | Some c => ret (StoredCart (serialize c))
     end).

(** *** Checkout *)

Module CheckoutPayload.
Record t := mk { session_id : string; customer : Customer.t }.
End CheckoutPayload.

Module CheckoutReply.
Record t := mk { status : string; order_id : string; total : float }.
End CheckoutReply.

(** [OrderItem(product_id=i["product_id"], title=i["title"],
    price=float(i["price"]), quantity=int(i["quantity"]),
    image=i.get("image"))]; the stored price is a float and the stored
    quantity an int, which [float] and [int] return as they are. *)
Definition order_item (i : CartItem.t) : OrderItem.t :=
  OrderItem.mk (CartItem.product_id i) (CartItem.title i) (CartItem.price i)
               (CartItem.quantity i) (CartItem.image i).

(** [now] is the value of the handler's [datetime.now(timezone.utc)]. *)
Definition checkout (now : datetime) (payload : CheckoutPayload.t)
  : M CheckoutReply.t :=
  except_HTTPException_raise
    (cart <- cart_find_one (CheckoutPayload.session_id payload) ;;
     match cart with
     | None => raise (HTTPException 400 (Text "Cart is empty"))
     | Some c =>
         match Cart.items (body c) with
         | [] => raise (HTTPException 400 (Text "Cart is empty"))
         | _ :: _ =>
             let items := List.map order_item (Cart.items (body c)) in
             let subtotal := Cart.subtotal (body c) in
             let tax := Py.round2 (PrimFloat.mul subtotal tax_rate) in
             let total := Py.round2 (PrimFloat.add subtotal tax) in
             let order :=
               Order.mk (CheckoutPayload.session_id payload)
                        (CheckoutPayload.customer payload)
                        items subtotal tax total "processing" (Some now) in
             order_id <- create_document_order order ;;
             cart_delete_one (CheckoutPayload.session_id payload) ;;
             ret (CheckoutReply.mk "ok" order_id total)
         end
     end).

End Main.

(* ================================================================= *)
(** ** Notions used in the statements *)

Import Database Main.

(** The backend answers at least [n] more calls. *)
Definition available (n : nat) (db : Db) : Prop :=
  match budget db with
  | None => True
  | Some k => n <= k
  end.

(** The budget left after one answered call. *)
Definition spend (b : option nat) : option nat :=
  match b with
  | Some (S n) => Some n
  | _ => b
  end.

(** The same store behind a backend that answers exactly [k] more calls. *)
Definition failing_after (k : nat) (db : Db) : Db := mkDb (store db) (Some k).

Definition sessions (c : Collection Cart.t) : list string :=
  List.map (fun d => Cart.session_id (body d)) c.

Definition ids {A} (c : Collection A) : list ObjectId.t :=
  List.map (fun d => _id d) c.

(** The cart collection of a store that the handlers have built: identifiers
    are unique and older than the next one, and there is one cart per
    session. *)
Record cart_wf (s : Store) : Prop := mk_cart_wf
  { wf_ids : NoDup (ids (cart s));
    wf_fresh : Forall (fun i => (i < next_oid s)%N) (ids (cart s));
    wf_sessions : NoDup (sessions (cart s)) }.

Definition empty_store : Store := mkStore [] [] [] 0%N.

Definition empty_db : Db := mkDb empty_store None.

(** A response with a 4xx status, and one with status 500. *)
Definition client_error {A} (r : result A) : Prop :=
  exists c d, r = Raise (HTTPException c d) /\ 400 <= c < 500.

Definition server_fault {A} (r : result A) : Prop :=
  exists d, r = Raise (HTTPException 500 d).

(** [ObjectId] text that is well formed: 24 hexadecimal digits. *)
Fixpoint all_hex (s : string) : bool :=
  match s with
  | EmptyString => true
  | String c s' =>
      match ObjectId.hex_value c with
      | Some _ => all_hex s'
      | None => false
      end
  end.

Definition well_formed (s : string) : bool :=
  (Nat.eqb (String.length s) 24 && all_hex s)%bool.

(** Pairs of hexadecimal digits, with ASCII whitespace allowed before each
    pair and at the end. *)
Inductive hex_pairs : string -> Prop :=
| hex_pairs_end : hex_pairs EmptyString
| hex_pairs_space (c : ascii) (s : string) :
    ObjectId.is_space c = true -> hex_pairs s -> hex_pairs (String c s)
| hex_pairs_pair (c c' : ascii) (s : string) :
    ObjectId.hex_value c <> None -> ObjectId.hex_value c' <> None ->
    hex_pairs s -> hex_pairs (String c (String c' s)).

(** The texts that the storage backend takes for an identifier: 24
    characters that are such pairs.  The well-formed ones are among them. *)
Definition convertible (s : string) : Prop :=
  String.length s = 24 /\ hex_pairs s.

(** Substring: some prefix, then the needle, then some suffix. *)
Definition substring (hay needle : string) : Prop :=
  exists pre post, hay = (pre ++ needle ++ post)%string.

(** Case-insensitive substring, as the specification words it: the one
    text, lower-cased, holds the other, lower-cased. *)
Definition icontains `{U : Py.Unicode} (hay needle : string) : Prop :=
  substring (Py.lower hay) (Py.lower needle).

(** The text of a field, a missing one read as empty. *)
Definition text (f : field) : string :=
  match f with
  | Str s => s
  | _ => EmptyString
  end.

Definition search_match `{U : Py.Unicode} (q : string) (p : Product.t)
  : Prop :=
  icontains (text (Product.title p)) q \/
  icontains (text (Product.description p)) q.

Definition search_matchb `{U : Py.Unicode} (q : string) (p : Product.t)
  : bool :=
  (Py.contains (Py.lower (text (Product.title p))) (Py.lower q)
   || Py.contains (Py.lower (text (Product.description p))) (Py.lower q))%bool.

(** Two cart documents that differ at most in [updated_at]. *)
Definition same_but_updated_at (d1 d2 : Doc ObjectId.t Cart.t) : Prop :=
  _id d2 = _id d1 /\
  Cart.session_id (body d2) = Cart.session_id (body d1) /\
  Cart.items (body d2) = Cart.items (body d1) /\
  Cart.subtotal (body d2) = Cart.subtotal (body d1).

(** An order item that copies a cart item field by field. *)
Definition copy_of (i : CartItem.t) (o : OrderItem.t) : Prop :=
  OrderItem.product_id o = CartItem.product_id i /\
  OrderItem.title o = CartItem.title i /\
  OrderItem.price o = CartItem.price i /\
  OrderItem.quantity o = CartItem.quantity i /\
  OrderItem.image o = CartItem.image i.

(** The fields that [create_or_update_cart] writes for a payload whose line
    totals sum to [s]. *)
Definition cart_data (now : datetime) (c : Cart.t) (s : float) : Cart.t :=
  Cart.mk (Cart.session_id c) (Cart.items c) (Py.round2 s) (Some now).

(** The order that [checkout] builds from a stored cart. *)
Definition order_of (now : datetime) (payload : CheckoutPayload.t) (c : Cart.t)
  : Order.t :=
  let subtotal := Cart.subtotal c in
  let tax := Py.round2 (PrimFloat.mul subtotal tax_rate) in
  Order.mk (CheckoutPayload.session_id payload)
           (CheckoutPayload.customer payload)
           (List.map order_item (Cart.items c))
           subtotal tax (Py.round2 (PrimFloat.add subtotal tax))
           "processing" (Some now).

(** The writes of the handlers, as functions on the store: the cart upsert,
    the order insert and the cart delete. *)
Definition put_cart (fields : Cart.t) (s : Store) : Store :=
  match find_one (by_session_id (Cart.session_id fields)) (cart s) with
  | Some e =>
      mkStore (product s) (update_one (by_id (_id e)) fields (cart s))
              (order s) (next_oid s)
  | None =>
      mkStore (product s) (insert_one (next_oid s) fields (cart s))
              (order s) (N.succ (next_oid s))
  end.

Definition add_order (fields : Order.t) (s : Store) : Store :=
  mkStore (product s) (cart s) (insert_one (next_oid s) fields (order s))
          (N.succ (next_oid s)).

Definition drop_cart (sid : string) (s : Store) : Store :=
  mkStore (product s) (delete_one (by_session_id sid) (cart s))
          (order s) (next_oid s).

(** The same backend with another product collection. *)
Definition with_products (ps : Collection Product.t) (db : Db) : Db :=
  mkDb (mkStore ps (cart (store db)) (order (store db)) (next_oid (store db)))
       (budget db).

(** The three amounts of an order. *)
Definition amounts (o : Doc ObjectId.t Order.t) : float * float * float :=
  (Order.subtotal (body o), Order.tax (body o), Order.total (body o)).

(** *** Sample data *)

Definition tea : CartItem.t := CartItem.mk "p-tea" "Tea" 10%float 2 None.
Definition cup : CartItem.t := CartItem.mk "p-cup" "Cup" 5%float 1 (Some "cup.png"%string).

(** A payload whose client-supplied subtotal and timestamp are off. *)
Definition sample_cart : Cart.t := Cart.mk "s1" [tea; cup] 999%float (Some 7%Z).

Definition ann : Customer.t :=
  Customer.mk "Ann" "ann@example.com" None "1 Main St" None
              "Springfield" "IL" "62701" "US".

Definition sample_payload : CheckoutPayload.t := CheckoutPayload.mk "s1" ann.

(** The backend after [sample_cart] was posted to an empty store. *)
Definition sample_db : Db := snd (create_or_update_cart 100%Z sample_cart empty_db).

Definition headphones : Product.t :=
  Product.mk (Str "Wireless Headphones")
             (Str "Noise-cancelling over-ear headphones")
             0x1.03fae147ae148p+7%float None "electronics" (Some "SoundMax"%string)
             (Some "HD-1001"%string) [] 4.5%float 25 [("color"%string, "black"%string)].

Definition lamp : Product.t :=
  Product.mk (Str "Desk Lamp") Null 19%float None "home-kitchen" None None []
             4.5%float 0 [].

Definition catalog_db : Db :=
  mkDb (mkStore [mkDoc 0%N headphones; mkDoc 1%N lamp] [] [] 2%N) None.

(* ================================================================= *)
(** ** The rest of main.py: seeding, categories, diagnostics *)

Module Category.
Record t := mk
  { name : string;
    slug : string;
    image : option string;
    description : option string;
    parent_id : option string }.
End Category.

(** [db["product"].count_documents({})]. *)
Definition product_count_documents : M nat :=
  call (fun s => (List.length (product s), s)).

(** Modelled from the spec: [create_document] of [database.py], on the
    product collection (see [Database.create_document_cart]). *)
Definition create_document_product (fields : Product.t) : M string :=
  call (fun s =>
          (ObjectId.str (next_oid s),
           mkStore (insert_one (next_oid s) fields (product s)) (cart s)
                   (order s) (N.succ (next_oid s)))).

Module Catalog.

(** The backend together with its [category] collection, which the cart and
    checkout handlers never touch. *)
Record World := mkWorld { category : Collection Category.t; backend : Db }.

Definition W (A : Type) := World -> result A * World.

Definition wret {A} (a : A) : W A := fun w => (Return a, w).

Definition wbind {A B} (m : W A) (k : A -> W B) : W B :=
  fun w =>
    match m w with
    | (Return a, w') => k a w'
    | (Raise e, w') => (Raise e, w')
    end.

(** A computation on the backend, run in the world: the categories stay. *)
Definition on_backend {A} (m : M A) : W A :=
  fun w => let (r, db') := m (backend w) in (r, mkWorld (category w) db').

(** One call to the backend that reads or writes the categories. *)
Definition wcall {A}
  (op : Collection Category.t -> Store -> A * Collection Category.t * Store)
  : W A :=
  fun w =>
    match call (fun s => let '(a, c, s') := op (category w) s in ((a, c), s'))
               (backend w) with
    | (Return (a, c), db') => (Return a, mkWorld c db')
    | (Raise e, db') => (Raise e, mkWorld (category w) db')
    end.

(** [db["category"].count_documents({})]. *)
Definition category_count_documents : W nat :=
  wcall (fun c s => (List.length c, c, s)).

(** Modelled from the spec: [create_document] of [database.py], on the
    category collection (see [Database.create_document_cart]). *)
Definition create_document_category (fields : Category.t) : W string :=
  wcall (fun c s =>
           (ObjectId.str (next_oid s),
            insert_one (next_oid s) fields c,
            mkStore (product s) (cart s) (order s) (N.succ (next_oid s)))).

(** Modelled from the spec: [get_documents("category", {})] of
    [database.py]: every category, in storage order. *)
Definition get_documents_category : W (Collection Category.t) :=
  wcall (fun c s => (c, c, s)).

(** [except Exception as e: raise HTTPException(status_code=500,
    detail=str(e))]. *)
Definition wexcept_Exception {A} (m : W A) : W A :=
  fun w =>
    match m w with
    | (Raise e, w') => (Raise (HTTPException 500 (StrOf e)), w')
    | r => r
    end.

(** [for a in l: body(a)]. *)
Fixpoint for_each {A B} (body : A -> W B) (l : list A) : W unit :=
  match l with
  | [] => wret tt
  | a :: l' => wbind (body a) (fun _ => for_each body l')
  end.

(** The dictionaries that [seed] inserts; a key that a dictionary does not
    have is [None], [Absent] or the empty list here. *)
Definition categories : list Category.t :=
  [ Category.mk "Electronics" "electronics"
      (Some "https://images.unsplash.com/photo-1518779578993-ec3579fee39f"%string)
      None None;
    Category.mk "Home & Kitchen" "home-kitchen"
      (Some "https://images.unsplash.com/photo-1495546968767-f0573cca821e"%string)
      None None;
    Category.mk "Beauty" "beauty"
      (Some "https://images.unsplash.com/photo-1512496015851-a90fb38ba796"%string)
      None None;
    Category.mk "Clothing" "clothing"
      (Some "https://images.unsplash.com/photo-1520975916090-3105956dac38"%string)
      None None ].

Definition sample : list Product.t :=
  [ Product.mk (Str "Wireless Headphones")
      (Str "Noise-cancelling over-ear headphones")
      0x1.03fae147ae148p+7%float (Some 0x1.67fae147ae148p+7%float)
      "electronics" (Some "SoundMax"%string) (Some "HD-1001"%string)
      ["https://images.unsplash.com/photo-1512314889357-e157c22f938d"%string]
      0x1.2666666666666p+2%float 25 [("color"%string, "black"%string)];
    Product.mk (Str "Stainless Cookware Set")
      (Str "10-piece pots and pans set")
      89%float None
      "home-kitchen" (Some "ChefPro"%string) (Some "CK-2002"%string)
      ["https://images.unsplash.com/photo-1514517220039-39c7b53c0b18"%string]
      0x1.199999999999ap+2%float 40 [("pieces"%string, "10"%string)];
    Product.mk (Str "Organic Face Serum")
      (Str "Vitamin C brightening serum")
      24.5%float None
      "beauty" (Some "GlowLab"%string) (Some "GL-3003"%string)
      ["https://images.unsplash.com/photo-1611930022073-b7a4ba5fcccd"%string]
      0x1.2cccccccccccdp+2%float 60 [("size"%string, "30ml"%string)] ].

Module SeedReply.
Record t := mk { status : string }.
End SeedReply.

Definition seed : W SeedReply.t :=
  wexcept_Exception
    (wbind category_count_documents (fun n =>
     wbind (if Nat.eqb n 0 then for_each create_document_category categories
            else wret tt) (fun _ =>
     wbind (on_backend product_count_documents) (fun m =>
     wbind (if Nat.eqb m 0
            then for_each (fun p => on_backend (create_document_product p))
                          sample
            else wret tt) (fun _ =>
     wret (SeedReply.mk "ok")))))).

Definition list_categories : W (list (Doc string Category.t)) :=
  wexcept_Exception
    (wbind get_documents_category (fun cats =>
     wret (List.map serialize cats))).

(** *** Requests, one after the other *)

Inductive request : Type :=
| Seed
| ListCategories
| ListProducts (category q : option string)
| GetProduct (product_id : string)
| PostCart (now : datetime) (cart : Cart.t)
| GetCart (session_id : string)
| PostCheckout (now : datetime) (payload : CheckoutPayload.t).

(** The world after a request has been handled. *)
Definition serve `{U : Py.Unicode} (r : request) : World -> World :=
  fun w =>
    match r with
    | Seed => snd (seed w)
    | ListCategories => snd (list_categories w)
    | ListProducts c q => snd (on_backend (list_products c q) w)
    | GetProduct i => snd (on_backend (get_product i) w)
    | PostCart now c => snd (on_backend (create_or_update_cart now c) w)
    | GetCart sid => snd (on_backend (get_cart sid) w)
    | PostCheckout now p => snd (on_backend (checkout now p) w)
    end.

(** The same world behind a backend with budget [b]. *)
Definition with_budget (b : option nat) (w : World) : World :=
  mkWorld (category w) (mkDb (store (backend w)) b).

(** A history: each request comes with the number of calls that the backend
    answers while it is handled ([None]: all of them). *)
Definition serve_all `{U : Py.Unicode} (h : list (option nat * request))
  (w : World) : World :=
  List.fold_left (fun w br => serve (snd br) (with_budget (fst br) w)) h w.

Definition empty_world : World := mkWorld [] empty_db.

End Catalog.

(** *** Diagnostics *)

Module Diagnostics.

(** What [test_database] sees of the global [db] when it is not [None]: its
    [name] attribute, and what [db.list_collection_names()] does, which is to
    return the names or to raise an exception whose text is given. *)
Record Handle := mkHandle
  { name : option string;
    list_collection_names : string + list string }.

Record Response := mkResponse
  { backend : string;
    database : string;
    database_url : option string;
    database_name : option string;
    connection_status : string;
    collections : list string }.

(** A byte that continues a character of UTF-8 text: [10xxxxxx]. *)
Definition is_continuation (c : ascii) : bool :=
  let n := N_of_ascii c in (N.leb 128 n && N.ltb n 192)%bool.

(** [s[:k]]: the first [k] characters of [s], each with the bytes that
    continue it. *)
Fixpoint str_slice (k : nat) (s : string) : string :=
  match s with
  | EmptyString => EmptyString
  | String c s' =>
      if is_continuation c then String c (str_slice k s')
      else
        match k with
        | O => EmptyString
        | S k' => String c (str_slice k' s')
        end
  end.

(** [DATABASE_URL] is the value of [os.getenv("DATABASE_URL")].  Neither
    [os.getenv] nor [getattr] with a default raises, so the outer [except]
    clause has nothing to catch. *)
Definition test_database (db : option Handle) (DATABASE_URL : option string)
  : Response :=
  match db with
  | Some h =>
      let database_url :=
        if Py.truthy DATABASE_URL then "✅ Set"%string else "❌ Not Set"%string in
      let database_name :=
        if Py.truthy (name h) then
          match name h with Some n => n | None => "unknown"%string end
        else "unknown"%string in
      match list_collection_names h with
      | inr names =>
          mkResponse "✅ Running" "✅ Connected & Working"
                     (Some database_url) (Some database_name) "Connected"
                     (List.firstn 10 names)
      | inl e =>
          mkResponse "✅ Running"
                     ("⚠️  Connected but Error: " ++ str_slice 50 e)%string
                     (Some database_url) (Some database_name) "Connected" []
      end
  | None =>
      mkResponse "✅ Running" "⚠️  Available but not initialized"
                 None None "Not Connected" []
  end.

End Diagnostics.

(** *** More notions for the statements *)

(** [len(s)]: the number of characters of a text. *)
Fixpoint len (s : string) : nat :=
  match s with
  | EmptyString => 0
  | String c s' =>
      if Diagnostics.is_continuation c then len s' else S (len s')
  end.

(** [item.price * item.quantity] on an order item. *)
Definition order_line_total (i : OrderItem.t) : result float :=
  Py.float_mul_int (OrderItem.price i) (OrderItem.quantity i).

(** A cart whose subtotal is the rounded sum of its line totals. *)
Definition cart_consistent (d : Doc ObjectId.t Cart.t) : Prop :=
  exists s, Py.sum line_total (Cart.items (body d)) = Return s /\
            Cart.subtotal (body d) = Py.round2 s.

(** An order with items, whose subtotal is the rounded sum of its own line
    totals and whose tax and total follow from the subtotal. *)
Definition order_consistent (d : Doc ObjectId.t Order.t) : Prop :=
  let o := body d in
  Order.items o <> [] /\
  (exists s, Py.sum order_line_total (Order.items o) = Return s /\
             Order.subtotal o = Py.round2 s) /\
  Order.tax o = Py.round2 (PrimFloat.mul (Order.subtotal o) tax_rate) /\
  Order.total o = Py.round2 (PrimFloat.add (Order.subtotal o) (Order.tax o)) /\
  Order.status o = "processing"%string.

(** An answer that is a value or a 500. *)
Definition value_or_500 {A} (r : result A) : Prop :=
  (exists a, r = Return a) \/ server_fault r.

(** The answers of [checkout]: a value, the 400 for an empty cart, or a
    500. *)
Definition checkout_answer (r : result CheckoutReply.t) : Prop :=
  value_or_500 r \/ r = Raise (HTTPException 400 (Text "Cart is empty")).

(** A product on which the search for [q] raises: its title is [None], or
    its title does not hold [q] and its description is [None]. *)
Definition unsearchable `{U : Py.Unicode} (q : string) (p : Product.t)
  : Prop :=
  Product.title p = Null \/
  (Py.contains (Py.lower (text (Product.title p))) (Py.lower q) = false /\
   Product.description p = Null).

(** Documents inserted one after the other, the first under [oid]. *)
Fixpoint insert_many {A} (oid : ObjectId.t) (l : list A) (c : Collection A)
  : Collection A :=
  match l with
  | [] => c
  | a :: l' => insert_many (N.succ oid) l' (insert_one oid a c)
  end.

(** The budget left after [k] answered calls. *)
Fixpoint spend_many (k : nat) (b : option nat) : option nat :=
  match k with
  | O => b
  | S k' => spend_many k' (spend b)
  end.

(** The world after a [seed] whose calls the backend has all answered. *)
Definition seeded (w : Catalog.World) : Catalog.World :=
  let s := store (Catalog.backend w) in
  let b := budget (Catalog.backend w) in
  let w1 :=
    match Catalog.category w with
    | [] =>
        Catalog.mkWorld
          (insert_many (next_oid s) Catalog.categories [])
          (mkDb (mkStore (product s) (cart s) (order s) (next_oid s + 4)%N)
                (spend_many 5 b))
    | _ :: _ => Catalog.mkWorld (Catalog.category w) (mkDb s (spend b))
    end in
  let s1 := store (Catalog.backend w1) in
  let b1 := budget (Catalog.backend w1) in
  match product s1 with
  | [] =>
      Catalog.mkWorld
        (Catalog.category w1)
        (mkDb (mkStore (insert_many (next_oid s1) Catalog.sample [])
                       (cart s1) (order s1) (next_oid s1 + 3)%N)
              (spend_many 4 b1))
  | _ :: _ => Catalog.mkWorld (Catalog.category w1) (mkDb s1 (spend b1))
  end.

(** What a history keeps of the store. *)
Record store_sound (s : Store) : Prop := mk_store_sound
  { sound_carts : cart_wf s;
    sound_subtotals : Forall cart_consistent (cart s);
    sound_orders : Forall order_consistent (order s);
    sound_products : NoDup (ids (product s));
    sound_products_fresh :
      Forall (fun i => (i < next_oid s)%N) (ids (product s));
    sound_order_ids :
      NoDup (ids (order s)) /\
      Forall (fun i => (i < next_oid s)%N) (ids (order s)) }.

(** A computation that keeps a property of the world, however it ends. *)
Definition keeps {A} (P : Catalog.World -> Prop) (m : Catalog.W A) : Prop :=
  forall w, P w -> P (snd (m w)).

(** Side conditions on longer budgets. *)
Ltac long_budget_cases db :=
  unfold available, spend in *; cbn [budget] in *;
  destruct (budget db) as [[|[|[|[|[|[|[|[|?]]]]]]]]|]; cbn [budget] in *;
  try lia; try exact I.

(** A catalog that holds seed data only: the first categories and the first
    products of [seed], in its order. *)
Definition seed_data_only (w : Catalog.World) : Prop :=
  (exists k, List.map body (Catalog.category w)
             = List.firstn k Catalog.categories) /\
  (exists j, List.map body (product (store (Catalog.backend w)))
             = List.firstn j Catalog.sample).

(** The second half of [seed], from the count of the products on. *)
Definition seed_products_part : Catalog.W Catalog.SeedReply.t :=
  Catalog.wbind (Catalog.on_backend product_count_documents) (fun m =>
  Catalog.wbind
    (if Nat.eqb m 0
     then Catalog.for_each
            (fun p => Catalog.on_backend (create_document_product p))
            Catalog.sample
     else Catalog.wret tt) (fun _ =>
  Catalog.wret (Catalog.SeedReply.mk "ok"))).

(** *** Proof tools *)

Arguments Py.round2 : simpl never.
Arguments Py.sum : simpl never.
Arguments ObjectId.str : simpl never.
Arguments ObjectId.parse : simpl never.

(** Side conditions on the budget, by cases on what is left of it. *)
Ltac budget_cases db :=
  unfold available, spend in *; cbn [budget] in *;
  destruct (budget db) as [[|[|[|[|?]]]]|]; cbn [budget] in *;
  try lia; try exact I.

(* ================================================================= *)
(** ** The backend and its calls *)

Lemma available_le (n m : nat) (db : Db) :
  m <= n -> available n db -> available m db.
Proof.
  unfold available. destruct (budget db); [lia | trivial].
Qed.

Lemma available_spend (n : nat) (s : Store) (db : Db) :
  available (S n) db -> available n (mkDb s (spend (budget db))).
Proof.
  unfold available; simpl. destruct (budget db) as [[|k]|]; simpl; lia.
Qed.

Lemma call_available {A} (op : Store -> A * Store) (db : Db) :
  available 1 db ->
  call op db =
  (Return (fst (op (store db))), mkDb (snd (op (store db))) (spend (budget db))).
Proof.
  unfold call, available. destruct (budget db) as [[|k]|]; simpl;
    destruct (op (store db)); simpl; intros; reflexivity || lia.
Qed.

Lemma call_exhausted {A} (op : Store -> A * Store) (db : Db) :
  budget db = Some 0 -> call op db = (Raise PyMongoError, db).
Proof.
  unfold call. intros ->. reflexivity.
Qed.

(** A call changes the store only through its operation, whatever the
    budget. *)
Lemma call_store {A} (op : Store -> A * Store) (db : Db) :
  store (snd (call op db)) = store db \/
  store (snd (call op db)) = snd (op (store db)).
Proof.
  unfold call. destruct (budget db) as [[|k]|]; simpl;
    destruct (op (store db)); simpl; auto.
Qed.

Lemma bind_return {A B} (m : M A) (k : A -> M B) (db db' : Db) (a : A) :
  m db = (Return a, db') -> bind m k db = k a db'.
Proof.
  unfold bind. intros ->. reflexivity.
Qed.

Lemma bind_raise {A B} (m : M A) (k : A -> M B) (db db' : Db) (e : exc) :
  m db = (Raise e, db') -> bind m k db = (Raise e, db').
Proof.
  unfold bind. intros ->. reflexivity.
Qed.

(* ================================================================= *)
(** ** Collections *)

Lemma by_id_true {A} (oid : ObjectId.t) (d : Doc ObjectId.t A) :
  by_id oid d = true <-> _id d = oid.
Proof. unfold by_id. apply N.eqb_eq. Qed.

Lemma by_session_id_true (sid : string) (d : Doc ObjectId.t Cart.t) :
  by_session_id sid d = true <-> Cart.session_id (body d) = sid.
Proof. unfold by_session_id. apply String.eqb_eq. Qed.

Lemma find_one_none_sessions (sid : string) (c : Collection Cart.t) :
  find_one (by_session_id sid) c = None <-> ~ In sid (sessions c).
Proof.
  unfold find_one. induction c as [|d c IH]; simpl.
  - tauto.
  - destruct (by_session_id sid d) eqn:E.
    + apply by_session_id_true in E. split; [discriminate | tauto].
    + assert (Cart.session_id (body d) <> sid)
        by (intro H; apply by_session_id_true in H; congruence).
      tauto.
Qed.

Lemma ids_update_one {A} flt (fields : A) (c : Collection A) :
  ids (update_one flt fields c) = ids c.
Proof.
  induction c as [|d c IH]; simpl; [reflexivity|].
  destruct (flt d); simpl; congruence.
Qed.

Lemma length_update_one {A} flt (fields : A) (c : Collection A) :
  List.length (update_one flt fields c) = List.length c.
Proof.
  induction c as [|d c IH]; simpl; [reflexivity|].
  destruct (flt d); simpl; congruence.
Qed.

(** After an update through the [_id] of the first cart of a session, that
    session's first cart is the updated document. *)
Lemma find_one_update_one (sid : string) (c : Collection Cart.t)
  (e : Doc ObjectId.t Cart.t) (fields : Cart.t) :
  find_one (by_session_id sid) c = Some e ->
  Cart.session_id fields = sid ->
  find_one (by_session_id sid) (update_one (by_id (_id e)) fields c)
  = Some (mkDoc (_id e) fields).
Proof.
  unfold find_one. intros Hfind Hsid.
  assert (Hnew : forall i, by_session_id sid (mkDoc i fields) = true)
    by (intro i; apply by_session_id_true; exact Hsid).
  induction c as [|d c IH]; simpl in *; [discriminate|].
  destruct (by_session_id sid d) eqn:Ed.
  - injection Hfind as ->.
    assert (by_id (_id e) e = true) as -> by (apply by_id_true; reflexivity).
    simpl. rewrite Hnew. reflexivity.
  - destruct (by_id (_id e) d) eqn:Ei; simpl.
    + rewrite Hnew. apply by_id_true in Ei. rewrite Ei. reflexivity.
    + rewrite Ed. auto.
Qed.

Lemma update_one_twice {A} (oid : ObjectId.t) (f1 f2 : A) (c : Collection A) :
  update_one (by_id oid) f2 (update_one (by_id oid) f1 c)
  = update_one (by_id oid) f2 c.
Proof.
  induction c as [|d c IH]; simpl; [reflexivity|].
  destruct (by_id oid d) eqn:E; simpl.
  - unfold by_id in *. simpl. rewrite E. reflexivity.
  - rewrite E, IH. reflexivity.
Qed.

Lemma find_one_insert_one (sid : string) (c : Collection Cart.t)
  (oid : ObjectId.t) (fields : Cart.t) :
  find_one (by_session_id sid) c = None ->
  Cart.session_id fields = sid ->
  find_one (by_session_id sid) (insert_one oid fields c)
  = Some (mkDoc oid fields).
Proof.
  unfold find_one, insert_one. intros Hnone Hsid.
  induction c as [|d c IH]; simpl in *.
  - assert (by_session_id sid (mkDoc oid fields) = true) as ->
      by (apply by_session_id_true; exact Hsid).
    reflexivity.
  - destruct (by_session_id sid d); [discriminate | auto].
Qed.

Lemma update_one_insert_one {A} (oid : ObjectId.t) (f1 f2 : A)
  (c : Collection A) :
  ~ In oid (ids c) ->
  update_one (by_id oid) f2 (insert_one oid f1 c) = insert_one oid f2 c.
Proof.
  unfold insert_one. induction c as [|d c IH]; simpl; intros Hnotin.
  - assert (by_id oid (mkDoc oid f1) = true) as ->
      by (apply by_id_true; reflexivity).
    reflexivity.
  - destruct (by_id oid d) eqn:E.
    + apply by_id_true in E. tauto.
    + rewrite IH by tauto. reflexivity.
Qed.

Lemma fresh_not_in (oid : ObjectId.t) (l : list ObjectId.t) :
  Forall (fun i => (i < oid)%N) l -> ~ In oid l.
Proof.
  intros Hall Hin. rewrite Forall_forall in Hall.
  exact (N.lt_irrefl _ (Hall _ Hin)).
Qed.

Lemma sessions_delete_one_incl (sid : string) (c : Collection Cart.t) (x : string) :
  In x (sessions (delete_one (by_session_id sid) c)) -> In x (sessions c).
Proof.
  induction c as [|d c IH]; simpl; [tauto|].
  destruct (by_session_id sid d); simpl; tauto.
Qed.

(** With one cart per session, deleting a session's cart leaves none. *)
Lemma find_one_delete_one (sid : string) (c : Collection Cart.t) :
  NoDup (sessions c) ->
  find_one (by_session_id sid) (delete_one (by_session_id sid) c) = None.
Proof.
  intros Hnd. apply find_one_none_sessions.
  induction c as [|d c IH]; simpl in *; [tauto|].
  inversion Hnd as [|? ? Hnotin Hnd']; subst.
  destruct (by_session_id sid d) eqn:E; simpl.
  - apply by_session_id_true in E. congruence.
  - intros [H | H]; [|exact (IH Hnd' H)].
    apply by_session_id_true in H. congruence.
Qed.

(* ================================================================= *)
(** ** Identifiers and their text *)

Lemma hex_value_hex_digit (d : N) :
  (d < 16)%N -> ObjectId.hex_value (ObjectId.hex_digit d) = Some d.
Proof.
  intros H. destruct d as [|p]; [reflexivity|].
  do 4 (destruct p as [p|p|]; try reflexivity); exfalso; lia.
Qed.

Lemma length_hex_digits (k : nat) :
  forall v tail,
    String.length (ObjectId.hex_digits k v tail) = k + String.length tail.
Proof.
  induction k as [|k IH]; intros v tail; simpl; [reflexivity|].
  rewrite IH. simpl. lia.
Qed.

Lemma hex_from_hex_digits (k : nat) :
  forall v tail acc,
    ObjectId.hex_from acc (ObjectId.hex_digits k v tail)
    = ObjectId.hex_from (acc * 16 ^ N.of_nat k + v mod 16 ^ N.of_nat k)%N tail.
Proof.
  induction k as [|k IH]; intros v tail acc.
  - simpl. rewrite N.mod_1_r, N.mul_1_r, N.add_0_r. reflexivity.
  - cbn [ObjectId.hex_digits]. rewrite IH. cbn [ObjectId.hex_from].
    rewrite hex_value_hex_digit by (apply N.mod_upper_bound; discriminate).
    f_equal. rewrite Nat2N.inj_succ, N.pow_succ_r'.
    rewrite (N.Div0.mod_mul_r v 16 (16 ^ N.of_nat k)). lia.
Qed.

Lemma all_hex_hex_digits (k : nat) :
  forall v tail,
    all_hex tail = true -> all_hex (ObjectId.hex_digits k v tail) = true.
Proof.
  induction k as [|k IH]; intros v tail Htail; [exact Htail|].
  cbn [ObjectId.hex_digits]. apply IH. cbn [all_hex].
  rewrite hex_value_hex_digit by (apply N.mod_upper_bound; discriminate).
  exact Htail.
Qed.

Lemma hex_value_not_space (c : ascii) (d : N) :
  ObjectId.hex_value c = Some d -> ObjectId.is_space c = false.
Proof.
  revert d. destruct c as [[|] [|] [|] [|] [|] [|] [|] [|]]; intros d;
    vm_compute; congruence.
Qed.

(** On digits alone, [bytes.fromhex] gives one byte for every two of them,
    and the bytes denote the number that the digits denote. *)
Lemma fromhex_digits (n : nat) :
  forall s,
    String.length s = 2 * n -> all_hex s = true ->
    exists bytes,
      ObjectId.fromhex s = Some bytes /\ List.length bytes = n /\
      forall acc,
        ObjectId.hex_from acc s = Some (ObjectId.bytes_value acc bytes).
Proof.
  induction n as [|n IH]; intros s Hlen Hhex.
  - destruct s; [|discriminate Hlen].
    exists []. split; [reflexivity|]. split; reflexivity.
  - destruct s as [|c [|c' s]]; try (simpl in Hlen; lia).
    cbn [all_hex] in Hhex.
    destruct (ObjectId.hex_value c) as [top|] eqn:Etop; [|discriminate].
    destruct (ObjectId.hex_value c') as [bot|] eqn:Ebot; [|discriminate].
    destruct (IH s) as (bytes & Hf & Hl & Hv);
      [simpl in Hlen; lia | exact Hhex |].
    exists ((16 * top + bot)%N :: bytes). split; [|split].
    + cbn [ObjectId.fromhex].
      rewrite (hex_value_not_space c top Etop), Etop, Ebot, Hf. reflexivity.
    + simpl. rewrite Hl. reflexivity.
    + intros acc. cbn [ObjectId.hex_from ObjectId.bytes_value].
      rewrite Etop, Ebot, Hv. do 2 f_equal. lia.
Qed.

(** What [bytes.fromhex] accepts holds at least two characters for every
    byte, and exactly two only when every character is a digit. *)
Lemma fromhex_length (n : nat) :
  forall s bytes,
    String.length s <= n -> ObjectId.fromhex s = Some bytes ->
    2 * List.length bytes <= String.length s /\
    (2 * List.length bytes = String.length s -> all_hex s = true).
Proof.
  induction n as [|n IH]; intros s bytes Hlen Hf.
  - destruct s; [|simpl in Hlen; lia].
    injection Hf as <-. split; [simpl; lia | reflexivity].
  - destruct s as [|c s]; [injection Hf as <-; split; [simpl; lia | reflexivity]|].
    cbn [ObjectId.fromhex] in Hf.
    destruct (ObjectId.is_space c) eqn:Esp.
    + destruct (IH s bytes) as [Hle _]; [simpl in Hlen; lia | exact Hf |].
      simpl String.length. split; lia.
    + destruct (ObjectId.hex_value c) as [top|] eqn:Etop; [|discriminate].
      destruct s as [|c' s]; [discriminate|].
      destruct (ObjectId.hex_value c') as [bot|] eqn:Ebot; [|discriminate].
      destruct (ObjectId.fromhex s) as [bytes'|] eqn:Ef; [|discriminate].
      injection Hf as <-.
      destruct (IH s bytes') as [Hle Hall];
        [simpl in Hlen; lia | exact Ef |].
      simpl String.length. simpl List.length. split; [lia|].
      intros Heq. cbn [all_hex]. rewrite Etop, Ebot. apply Hall. lia.
Qed.

(** The text of a 96-bit identifier reads back as that identifier. *)
Lemma parse_str (v : ObjectId.t) :
  (v < 2 ^ 96)%N ->
  ObjectId.parse (ObjectId.str v) = Return (ObjectId.Full v).
Proof.
  intros Hv. unfold ObjectId.parse, ObjectId.str.
  destruct (fromhex_digits 12 (ObjectId.hex_digits 24 v EmptyString))
    as (bytes & Hf & Hl & Hval).
  - rewrite length_hex_digits. reflexivity.
  - apply all_hex_hex_digits. reflexivity.
  - rewrite length_hex_digits. simpl String.length.
    cbn [Nat.add Nat.eqb]. rewrite Hf. unfold ObjectId.of_bytes.
    rewrite Hl. cbn [Nat.eqb].
    specialize (Hval 0%N). rewrite hex_from_hex_digits in Hval.
    cbn [ObjectId.hex_from] in Hval.
    change (16 ^ N.of_nat 24)%N with (2 ^ 96)%N in Hval.
    rewrite N.mod_small in Hval by exact Hv.
    injection Hval as <-. reflexivity.
Qed.

(** [ObjectId(s)] holds twelve bytes only for a text of 24 digits. *)
Lemma parse_full_well_formed (s : string) (oid : ObjectId.t) :
  ObjectId.parse s = Return (ObjectId.Full oid) -> well_formed s = true.
Proof.
  unfold ObjectId.parse, well_formed.
  destruct (Nat.eqb (String.length s) 24) eqn:Elen; [|discriminate].
  apply Nat.eqb_eq in Elen.
  destruct (ObjectId.fromhex s) as [bytes|] eqn:Ef; [|discriminate].
  unfold ObjectId.of_bytes.
  destruct (Nat.eqb (List.length bytes) 12) eqn:El; [|discriminate].
  apply Nat.eqb_eq in El. intros _.
  destruct (fromhex_length (String.length s) s bytes (le_n _) Ef) as [_ Hall].
  simpl. apply Hall. lia.
Qed.

(** A text of 24 digits is an identifier of twelve bytes. *)
Lemma parse_well_formed (s : string) :
  well_formed s = true -> exists oid, ObjectId.parse s = Return (ObjectId.Full oid).
Proof.
  unfold well_formed, ObjectId.parse. rewrite andb_true_iff.
  intros [Elen Hhex]. rewrite Elen. apply Nat.eqb_eq in Elen.
  destruct (fromhex_digits 12 s Elen Hhex) as (bytes & -> & Hl & _).
  unfold ObjectId.of_bytes. rewrite Hl. eexists. reflexivity.
Qed.

(** What is no text of 24 digits is rejected, or read as fewer than twelve
    bytes. *)
Lemma parse_ill_formed (s : string) :
  well_formed s = false ->
  ObjectId.parse s = Raise (InvalidId s) \/
  exists bytes, ObjectId.parse s = Return (ObjectId.Short bytes).
Proof.
  intros Hbad. destruct (ObjectId.parse s) as [[oid|bytes]|e] eqn:E.
  - apply parse_full_well_formed in E. congruence.
  - right. exists bytes. reflexivity.
  - left. unfold ObjectId.parse in E.
    destruct (Nat.eqb (String.length s) 24);
      [destruct (ObjectId.fromhex s)|]; congruence.
Qed.

(** [bytes.fromhex] accepts exactly the pairs of digits with whitespace
    between them. *)
Lemma fromhex_hex_pairs (n : nat) :
  forall s bytes,
    String.length s <= n -> ObjectId.fromhex s = Some bytes -> hex_pairs s.
Proof.
  induction n as [|n IH]; intros s bytes Hlen Hf.
  - destruct s; [constructor | simpl in Hlen; lia].
  - destruct s as [|c s]; [constructor|].
    cbn [ObjectId.fromhex] in Hf.
    destruct (ObjectId.is_space c) eqn:Esp.
    + apply hex_pairs_space; [exact Esp|].
      apply (IH s bytes); [simpl in Hlen; lia | exact Hf].
    + destruct (ObjectId.hex_value c) as [top|] eqn:Etop; [|discriminate].
      destruct s as [|c' s]; [discriminate|].
      destruct (ObjectId.hex_value c') as [bot|] eqn:Ebot; [|discriminate].
      destruct (ObjectId.fromhex s) as [bytes'|] eqn:Ef; [|discriminate].
      apply hex_pairs_pair; [congruence | congruence |].
      apply (IH s bytes'); [simpl in Hlen; lia | exact Ef].
Qed.

Lemma hex_pairs_fromhex (s : string) :
  hex_pairs s -> exists bytes, ObjectId.fromhex s = Some bytes.
Proof.
  induction 1 as [|c s Hsp _ [bytes IH]|c c' s Hc Hc' _ [bytes IH]].
  - exists []. reflexivity.
  - exists bytes. cbn [ObjectId.fromhex]. rewrite Hsp. exact IH.
  - destruct (ObjectId.hex_value c) as [top|] eqn:Etop; [|congruence].
    destruct (ObjectId.hex_value c') as [bot|] eqn:Ebot; [|congruence].
    exists ((16 * top + bot)%N :: bytes). cbn [ObjectId.fromhex].
    rewrite (hex_value_not_space c top Etop), Etop, Ebot, IH. reflexivity.
Qed.


Lemma parse_convertible (s : string) :
  convertible s -> exists k, ObjectId.parse s = Return k.
Proof.
  intros [Hlen Hp]. unfold ObjectId.parse.
  apply Nat.eqb_eq in Hlen. rewrite Hlen.
  destruct (hex_pairs_fromhex s Hp) as [bytes ->]. eexists. reflexivity.
Qed.

Lemma well_formed_convertible (s : string) :
  well_formed s = true -> convertible s.
Proof.
  intros H. destruct (parse_well_formed s H) as [oid E].
  unfold well_formed in H. apply andb_true_iff in H. destruct H as [Hlen _].
  apply Nat.eqb_eq in Hlen. split; [exact Hlen|].
  unfold ObjectId.parse in E. rewrite Hlen in E. cbn [Nat.eqb] in E.
  destruct (ObjectId.fromhex s) as [bytes|] eqn:Ef; [|discriminate].
  exact (fromhex_hex_pairs (String.length s) s bytes (le_n _) Ef).
Qed.

(* ================================================================= *)
(** ** The handlers, call by call *)

Lemma cart_find_one_available (sid : string) (db : Db) :
  available 1 db ->
  cart_find_one sid db =
  (Return (find_one (by_session_id sid) (cart (store db))),
   mkDb (store db) (spend (budget db))).
Proof.
  intros H. unfold cart_find_one. rewrite call_available by exact H.
  reflexivity.
Qed.

Lemma create_or_update_cart_overflow (now : datetime) (c : Cart.t) (db : Db)
  (e : exc) :
  Py.sum line_total (Cart.items c) = Raise e ->
  create_or_update_cart now c db = (Raise (HTTPException 500 (StrOf e)), db).
Proof.
  intros Hsum. unfold create_or_update_cart, except_Exception, bind, lift.
  rewrite Hsum. reflexivity.
Qed.

Lemma create_or_update_cart_returns (now : datetime) (c : Cart.t) (db : Db)
  (s : float) :
  available 2 db ->
  Py.sum line_total (Cart.items c) = Return s ->
  create_or_update_cart now c db =
  (Return (CartReply.mk "ok" (Py.round2 s)),
   mkDb (put_cart (cart_data now c s) (store db)) (spend (spend (budget db)))).
Proof.
  intros Hav Hsum.
  unfold create_or_update_cart, except_Exception, bind, lift.
  rewrite Hsum.
  rewrite cart_find_one_available by (eapply available_le; [|exact Hav]; lia).
  unfold put_cart, cart_data; simpl Cart.session_id.
  destruct (find_one (by_session_id (Cart.session_id c)) (cart (store db)))
    as [e|].
  - unfold cart_update_one. rewrite call_available by (apply available_spend, Hav).
    reflexivity.
  - unfold create_document_cart.
    rewrite call_available by (apply available_spend, Hav).
    reflexivity.
Qed.

(** Whatever the backend does, the handler either leaves the store as it was
    or makes its one write. *)
Lemma create_or_update_cart_store (now : datetime) (c : Cart.t) (db : Db) :
  store (snd (create_or_update_cart now c db)) = store db \/
  exists s, Py.sum line_total (Cart.items c) = Return s /\
            store (snd (create_or_update_cart now c db))
            = put_cart (cart_data now c s) (store db).
Proof.
  destruct (Py.sum line_total (Cart.items c)) as [s|e] eqn:Hsum.
  2:{ rewrite (create_or_update_cart_overflow now c db e Hsum). left. reflexivity. }
  destruct db as [st [[|[|k]]|]].
  - left. unfold create_or_update_cart, except_Exception, bind, lift.
    rewrite Hsum. reflexivity.
  - left. unfold create_or_update_cart, except_Exception, bind, lift.
    rewrite Hsum. simpl.
    destruct (find_one (by_session_id (Cart.session_id c)) (cart st));
      reflexivity.
  - right. exists s. split; [reflexivity|].
    rewrite (create_or_update_cart_returns now c (mkDb st (Some (S (S k)))) s);
      [reflexivity | unfold available; simpl; lia | exact Hsum].
  - right. exists s. split; [reflexivity|].
    rewrite (create_or_update_cart_returns now c (mkDb st None) s);
      [reflexivity | exact I | exact Hsum].
Qed.

Lemma get_cart_available (sid : string) (db : Db) :
  available 1 db ->
  get_cart sid db =
  (Return (match find_one (by_session_id sid) (cart (store db)) with
           | None => NoCart sid [] PrimFloat.zero
           | Some c => StoredCart (serialize c)
           end),
   mkDb (store db) (spend (budget db))).
Proof.
  intros H. unfold get_cart, except_Exception, bind.
  rewrite cart_find_one_available by exact H.
  destruct (find_one (by_session_id sid) (cart (store db))); reflexivity.
Qed.

Lemma checkout_empty (now : datetime) (payload : CheckoutPayload.t) (db : Db) :
  available 1 db ->
  match find_one (by_session_id (CheckoutPayload.session_id payload))
                 (cart (store db)) with
  | None => True
  | Some c => Cart.items (body c) = []
  end ->
  checkout now payload db =
  (Raise (HTTPException 400 (Text "Cart is empty")),
   mkDb (store db) (spend (budget db))).
Proof.
  intros Hav Hempty. unfold checkout, except_HTTPException_raise, bind.
  rewrite cart_find_one_available by exact Hav.
  destruct (find_one _ (cart (store db))) as [c|]; [|reflexivity].
  rewrite Hempty. reflexivity.
Qed.

Lemma checkout_returns (now : datetime) (payload : CheckoutPayload.t) (db : Db)
  (c : Doc ObjectId.t Cart.t) :
  available 3 db ->
  find_one (by_session_id (CheckoutPayload.session_id payload))
           (cart (store db)) = Some c ->
  Cart.items (body c) <> [] ->
  checkout now payload db =
  (Return (CheckoutReply.mk "ok" (ObjectId.str (next_oid (store db)))
                            (Order.total (order_of now payload (body c)))),
   mkDb (drop_cart (CheckoutPayload.session_id payload)
                   (add_order (order_of now payload (body c)) (store db)))
        (spend (spend (spend (budget db))))).
Proof.
  intros Hav Hfind Hitems. unfold checkout, except_HTTPException_raise, bind.
  rewrite cart_find_one_available by (eapply available_le; [|exact Hav]; lia).
  rewrite Hfind.
  destruct (Cart.items (body c)) as [|i l] eqn:Ei; [congruence|].
  unfold create_document_order.
  rewrite call_available
    by (apply available_spend; eapply available_le; [|exact Hav]; lia).
  cbn [fst snd].
  unfold cart_delete_one.
  rewrite call_available by (do 2 apply available_spend; exact Hav).
  unfold order_of, drop_cart, add_order. rewrite Ei. reflexivity.
Qed.

(** A checkout that returns had a cart with items and a backend that
    answered its three calls. *)
Lemma checkout_return_inv (now : datetime) (payload : CheckoutPayload.t)
  (db db' : Db) (reply : CheckoutReply.t) :
  checkout now payload db = (Return reply, db') ->
  exists c,
    available 3 db /\
    find_one (by_session_id (CheckoutPayload.session_id payload))
             (cart (store db)) = Some c /\
    Cart.items (body c) <> [].
Proof.
  destruct db as [st b]. unfold checkout, except_HTTPException_raise, bind,
    cart_find_one, create_document_order, cart_delete_one, call, available.
  cbn [budget store].
  destruct b as [[|[|[|k]]]|]; cbn [fst snd];
    destruct (find_one _ (cart st)) as [c|]; try discriminate;
    destruct (Cart.items (body c)) eqn:Ei; try discriminate;
    intros _; exists c; (split; [lia || exact I|]); split;
    reflexivity || congruence.
Qed.

(* ================================================================= *)
(** ** The cart collection stays well formed *)

Lemma in_map_delete_one {A B} (f : Doc ObjectId.t A -> B) flt
  (c : Collection A) (x : B) :
  In x (List.map f (delete_one flt c)) -> In x (List.map f c).
Proof.
  induction c as [|d c IH]; simpl; [tauto|].
  destruct (flt d); simpl; tauto.
Qed.

Lemma NoDup_map_delete_one {A B} (f : Doc ObjectId.t A -> B) flt
  (c : Collection A) :
  NoDup (List.map f c) -> NoDup (List.map f (delete_one flt c)).
Proof.
  induction c as [|d c IH]; simpl; intros Hnd; [exact Hnd|].
  inversion Hnd as [|? ? Hnotin Hnd']; subst.
  destruct (flt d); simpl; [exact Hnd'|].
  constructor; [|auto].
  intros Hin. apply Hnotin. eapply in_map_delete_one. exact Hin.
Qed.

Lemma find_one_in {A} flt (c : Collection A) (e : Doc ObjectId.t A) :
  find_one flt c = Some e -> In e c /\ flt e = true.
Proof. unfold find_one. apply List.find_some. Qed.

(** With unique identifiers, the update through the [_id] of a session's
    cart rewrites that very cart, so the sessions stay as they were. *)
Lemma sessions_update_one (sid : string) (c : Collection Cart.t)
  (e : Doc ObjectId.t Cart.t) (fields : Cart.t) :
  NoDup (ids c) ->
  find_one (by_session_id sid) c = Some e ->
  Cart.session_id fields = sid ->
  sessions (update_one (by_id (_id e)) fields c) = sessions c.
Proof.
  intros Hnd Hfind Hsid.
  induction c as [|d c IH]; simpl in *; [reflexivity|].
  inversion Hnd as [|? ? Hnotin Hnd']; subst.
  unfold find_one in Hfind; simpl in Hfind.
  destruct (by_session_id (Cart.session_id fields) d) eqn:Ed.
  - injection Hfind as ->.
    assert (by_id (_id e) e = true) as -> by (apply by_id_true; reflexivity).
    simpl. apply by_session_id_true in Ed. congruence.
  - destruct (by_id (_id e) d) eqn:Ei.
    + exfalso. apply Hnotin. apply by_id_true in Ei. rewrite Ei.
      apply find_one_in in Hfind. destruct Hfind as [Hin _].
      unfold ids. apply (in_map (fun d => _id d)). exact Hin.
    + simpl. f_equal. apply IH; assumption.
Qed.

Lemma NoDup_snoc {A} (l : list A) (a : A) :
  NoDup l -> ~ In a l -> NoDup (l ++ [a]).
Proof.
  induction 1 as [|x l Hx Hnd IH]; simpl; intros Ha.
  - constructor; [tauto | constructor].
  - constructor.
    + rewrite in_app_iff. simpl. intros [H | [H | []]]; [tauto|].
      subst. tauto.
    + apply IH. tauto.
Qed.

Lemma cart_wf_empty : cart_wf empty_store.
Proof. split; simpl; constructor. Qed.

Lemma Forall_lt_succ (n : N) (l : list ObjectId.t) :
  Forall (fun i => (i < n)%N) l -> Forall (fun i => (i < N.succ n)%N) l.
Proof.
  apply Forall_impl. intros i Hi. apply N.lt_lt_succ_r. exact Hi.
Qed.

Lemma cart_wf_put_cart (fields : Cart.t) (s : Store) :
  cart_wf s -> cart_wf (put_cart fields s).
Proof.
  intros [Hids Hfresh Hsess]. unfold put_cart.
  destruct (find_one (by_session_id (Cart.session_id fields)) (cart s))
    as [e|] eqn:Hfind.
  - split; simpl.
    + rewrite ids_update_one. exact Hids.
    + rewrite ids_update_one. exact Hfresh.
    + rewrite (sessions_update_one (Cart.session_id fields)); auto.
  - split; simpl; unfold insert_one, ids, sessions in *; rewrite !map_app; simpl.
    + apply NoDup_snoc; [exact Hids | apply fresh_not_in; exact Hfresh].
    + apply Forall_app. split.
      * apply Forall_lt_succ. exact Hfresh.
      * constructor; [apply N.lt_succ_diag_r | constructor].
    + apply NoDup_snoc; [exact Hsess|].
      apply find_one_none_sessions. exact Hfind.
Qed.

Lemma cart_wf_add_order (fields : Order.t) (s : Store) :
  cart_wf s -> cart_wf (add_order fields s).
Proof.
  intros [Hids Hfresh Hsess]. split; simpl; auto using Forall_lt_succ.
Qed.

Lemma cart_wf_drop_cart (sid : string) (s : Store) :
  cart_wf s -> cart_wf (drop_cart sid s).
Proof.
  intros [Hids Hfresh Hsess]. split; simpl.
  - apply NoDup_map_delete_one. exact Hids.
  - rewrite Forall_forall in *. intros i Hi. apply Hfresh.
    eapply in_map_delete_one. exact Hi.
  - apply NoDup_map_delete_one. exact Hsess.
Qed.

(** Whatever the backend does, [checkout] leaves the store as it was, or
    with the order added, or with the order added and the cart deleted. *)
Lemma checkout_store (now : datetime) (payload : CheckoutPayload.t) (db : Db) :
  store (snd (checkout now payload db)) = store db \/
  exists c,
    find_one (by_session_id (CheckoutPayload.session_id payload))
             (cart (store db)) = Some c /\
    Cart.items (body c) <> [] /\
    (store (snd (checkout now payload db))
     = add_order (order_of now payload (body c)) (store db) \/
     store (snd (checkout now payload db))
     = drop_cart (CheckoutPayload.session_id payload)
                 (add_order (order_of now payload (body c)) (store db))).
Proof.
  destruct db as [st b]. unfold checkout, except_HTTPException_raise, bind,
    cart_find_one, create_document_order, cart_delete_one, call.
  cbn [budget store].
  destruct b as [[|[|[|k]]]|]; cbn [fst snd]; auto;
    (destruct (find_one _ (cart st)) as [c|] eqn:Hfind; [|auto]);
    (destruct (Cart.items (body c)) eqn:Ei; [auto|]); cbn [fst snd store]; auto;
    right; exists c; (split; [reflexivity|]); (split; [congruence|]);
    unfold order_of, add_order, drop_cart; rewrite Ei; auto.
Qed.

Theorem create_or_update_cart_wf (now : datetime) (c : Cart.t) (db : Db) :
  cart_wf (store db) ->
  cart_wf (store (snd (create_or_update_cart now c db))).
Proof.
  intros Hwf. destruct (create_or_update_cart_store now c db) as [-> | (s & _ & ->)].
  - exact Hwf.
  - apply cart_wf_put_cart. exact Hwf.
Qed.

Theorem checkout_wf (now : datetime) (payload : CheckoutPayload.t) (db : Db) :
  cart_wf (store db) ->
  cart_wf (store (snd (checkout now payload db))).
Proof.
  intros Hwf.
  destruct (checkout_store now payload db) as [-> | (c & _ & _ & [-> | ->])].
  - exact Hwf.
  - apply cart_wf_add_order. exact Hwf.
  - apply cart_wf_drop_cart, cart_wf_add_order. exact Hwf.
Qed.

(* ================================================================= *)
(** ** Checkout *)

(** C2.  A checkout for a session that has no stored cart, or whose stored
    cart has no items, writes nothing: the store is left exactly as it was
    (no order, the cart document untouched); and once the backend has
    answered the lookup, the call fails with the 400 response
    "Cart is empty", a client error. *)
Theorem checkout_empty_cart_rejected
  (now : datetime) (payload : CheckoutPayload.t) (db : Db) :
  match find_one (by_session_id (CheckoutPayload.session_id payload))
                 (cart (store db)) with
  | None => True
  | Some c => Cart.items (body c) = []
  end ->
  let '(r, db') := checkout now payload db in
  store db' = store db /\
  (available 1 db ->
   r = Raise (HTTPException 400 (Text "Cart is empty")) /\ client_error r).
Proof.
  intros Hempty.
  destruct (budget db) as [[|k]|] eqn:Hb.
  - unfold checkout, except_HTTPException_raise, bind, cart_find_one.
    rewrite call_exhausted by exact Hb.
    split; [reflexivity|]. unfold available. rewrite Hb. lia.
  - rewrite checkout_empty; [|unfold available; rewrite Hb; lia|exact Hempty].
    split; [reflexivity|]. intros _. split; [reflexivity|].
    exists 400, (Text "Cart is empty"). split; [reflexivity | lia].
  - rewrite checkout_empty; [|unfold available; rewrite Hb; exact I|exact Hempty].
    split; [reflexivity|]. intros _. split; [reflexivity|].
    exists 400, (Text "Cart is empty"). split; [reflexivity | lia].
Qed.

(** The session [s2] has no cart in [sample_db], and a cart posted without
    items is empty: both checkouts are turned down and write nothing. *)
Lemma checkout_empty_cart_rejected_witness :
  (let '(r, db') := checkout 200%Z (CheckoutPayload.mk "s2" ann) sample_db in
   store db' = store sample_db /\
   r = Raise (HTTPException 400 (Text "Cart is empty"))) /\
  (let db0 := snd (create_or_update_cart 100%Z (Cart.mk "s1" [] 0%float None)
                                         empty_db) in
   let '(r, db') := checkout 200%Z sample_payload db0 in
   store db' = store db0 /\
   r = Raise (HTTPException 400 (Text "Cart is empty"))).
Proof.
  split.
  - pose proof (checkout_empty_cart_rejected 200%Z (CheckoutPayload.mk "s2" ann)
                  sample_db) as H.
    destruct (checkout 200%Z (CheckoutPayload.mk "s2" ann) sample_db) as [r db'].
    destruct (H I) as [Hs Hr]. split; [exact Hs|]. apply Hr. exact I.
  - cbv zeta.
    pose proof (checkout_empty_cart_rejected 200%Z sample_payload
                  (snd (create_or_update_cart 100%Z (Cart.mk "s1" [] 0%float None)
                                              empty_db))) as H.
    destruct (checkout 200%Z sample_payload _) as [r db'].
    destruct (H eq_refl) as [Hs Hr]. split; [exact Hs|]. apply Hr. exact I.
Defined.

(** C1.  A checkout for a session whose stored cart has at least one item
    returns, and adds one order whose subtotal is the cart's stored subtotal,
    whose tax is [round(subtotal * 0.08, 2)] and whose total is
    [round(subtotal + tax, 2)]; a [get_cart] for the session then returns the
    dictionary [{session_id, items: [], subtotal: 0.0}].  In particular the
    cart with the items [{price: 10.00, quantity: 2}] and
    [{price: 5.00, quantity: 1}] is stored with subtotal 25.00 and checks out
    with tax 2.00 and total 27.00. *)
Theorem checkout_amounts_and_cart_cleared :
  (forall (now : datetime) (payload : CheckoutPayload.t) (db : Db)
          (c : Doc ObjectId.t Cart.t),
      cart_wf (store db) ->
      available 4 db ->
      find_one (by_session_id (CheckoutPayload.session_id payload))
               (cart (store db)) = Some c ->
      Cart.items (body c) <> [] ->
      let '(r, db1) := checkout now payload db in
      let subtotal := Cart.subtotal (body c) in
      let tax := Py.round2 (PrimFloat.mul subtotal tax_rate) in
      let total := Py.round2 (PrimFloat.add subtotal tax) in
      (exists o, order (store db1) = order (store db) ++ [o] /\
                 amounts o = (subtotal, tax, total) /\
                 r = Return (CheckoutReply.mk "ok" (ObjectId.str (_id o)) total)) /\
      fst (get_cart (CheckoutPayload.session_id payload) db1)
      = Return (NoCart (CheckoutPayload.session_id payload) [] 0%float)) /\
  (let '(r1, db1) := create_or_update_cart 100%Z sample_cart empty_db in
   let '(r2, db2) := checkout 200%Z sample_payload db1 in
   r1 = Return (CartReply.mk "ok" 25%float) /\
   List.map amounts (order (store db2)) = [(25%float, 2%float, 27%float)] /\
   r2 = Return (CheckoutReply.mk "ok" (ObjectId.str 1%N) 27%float)).
Proof.
  split.
  - intros now payload db c Hwf Hav Hfind Hitems.
    rewrite (checkout_returns now payload db c);
      [|eapply available_le; [|exact Hav]; lia | exact Hfind | exact Hitems].
    cbv zeta. split.
    + eexists. split; [reflexivity|]. split; reflexivity.
    + rewrite get_cart_available by budget_cases db.
      cbn [fst store drop_cart add_order cart].
      rewrite find_one_delete_one by (apply wf_sessions; exact Hwf).
      reflexivity.
  - vm_compute. repeat split; reflexivity.
Qed.

(** [sample_db] is such a backend: its session [s1] has a cart with two
    items. *)
Lemma checkout_amounts_and_cart_cleared_witness :
  cart_wf (store sample_db) /\
  available 4 sample_db /\
  (let '(r, db1) := checkout 200%Z sample_payload sample_db in
   (exists o, order (store db1) = order (store sample_db) ++ [o] /\
              amounts o = (25%float, 2%float, 27%float) /\
              r = Return (CheckoutReply.mk "ok" (ObjectId.str (_id o))
                                           27%float)) /\
   fst (get_cart "s1" db1) = Return (NoCart "s1" [] 0%float)).
Proof.
  assert (Hwf : cart_wf (store sample_db))
    by (apply create_or_update_cart_wf, cart_wf_empty).
  split; [exact Hwf|]. split; [exact I|].
  exact (proj1 checkout_amounts_and_cart_cleared 200%Z sample_payload sample_db
           (mkDoc 0%N (Cart.mk "s1" [tea; cup] 25%float (Some 100%Z)))
           Hwf I eq_refl ltac:(discriminate)).
Defined.

(* ================================================================= *)
(** ** Cart *)

(** After the upsert, the session's cart is the document just written. *)
Lemma find_one_put_cart (fields : Cart.t) (s : Store) :
  find_one (by_session_id (Cart.session_id fields)) (cart (put_cart fields s))
  = Some (mkDoc
            match find_one (by_session_id (Cart.session_id fields)) (cart s) with
            | Some e => _id e
            | None => next_oid s
            end fields).
Proof.
  unfold put_cart.
  destruct (find_one (by_session_id (Cart.session_id fields)) (cart s))
    as [e|] eqn:Hfind; cbn [cart].
  - apply find_one_update_one; [exact Hfind | reflexivity].
  - apply find_one_insert_one; [exact Hfind | reflexivity].
Qed.

(** C4.  Whatever the payload, and whatever subtotal and timestamp the
    client put in it, [create_or_update_cart] answers with
    [round(sum(item.price * item.quantity), 2)] over the submitted items and
    stores that same subtotal, with the submitted items, in the session's
    cart document, which is what [get_cart] then returns.  The one payload
    for which the sum has no value (an integer quantity beyond the float
    range) is turned down with nothing written. *)
Theorem create_or_update_cart_subtotal
  (now : datetime) (c : Cart.t) (db : Db) :
  available 3 db ->
  let '(r, db1) := create_or_update_cart now c db in
  match Py.sum line_total (Cart.items c) with
  | Return s =>
      r = Return (CartReply.mk "ok" (Py.round2 s)) /\
      exists d,
        fst (get_cart (Cart.session_id c) db1) = Return (StoredCart d) /\
        Cart.subtotal (body d) = Py.round2 s /\
        Cart.items (body d) = Cart.items c
  | Raise e => r = Raise (HTTPException 500 (StrOf e)) /\ db1 = db
  end /\
  forall (subtotal' : float) (updated_at' : option datetime),
    create_or_update_cart now
      (Cart.mk (Cart.session_id c) (Cart.items c) subtotal' updated_at') db
    = (r, db1).
Proof.
  intros Hav.
  destruct (Py.sum line_total (Cart.items c)) as [s|e] eqn:Hsum.
  - rewrite (create_or_update_cart_returns now c db s)
      by (exact Hsum || budget_cases db).
    split.
    + split; [reflexivity|].
      rewrite get_cart_available by budget_cases db.
      cbn [fst store].
      pose proof (find_one_put_cart (cart_data now c s) (store db)) as Hput.
      cbn [cart_data Cart.session_id] in Hput. rewrite Hput.
      eexists. split; [reflexivity|]. split; reflexivity.
    + intros subtotal' updated_at'.
      assert (Hav2 : available 2 db) by (eapply available_le; [|exact Hav]; lia).
      exact (create_or_update_cart_returns now
               (Cart.mk (Cart.session_id c) (Cart.items c) subtotal' updated_at')
               db s Hav2 Hsum).
  - rewrite (create_or_update_cart_overflow now c db e Hsum).
    split; [split; reflexivity|].
    intros subtotal' updated_at'.
    exact (create_or_update_cart_overflow now
             (Cart.mk (Cart.session_id c) (Cart.items c) subtotal' updated_at')
             db e Hsum).
Qed.

(** The payload of [sample_cart], with subtotal 999 and a timestamp of the
    client's, is answered and stored with subtotal 25. *)
Lemma create_or_update_cart_subtotal_witness :
  available 3 empty_db /\
  (let '(r, db1) := create_or_update_cart 100%Z sample_cart empty_db in
   r = Return (CartReply.mk "ok" 25%float) /\
   exists d,
     fst (get_cart "s1" db1) = Return (StoredCart d) /\
     Cart.subtotal (body d) = 25%float /\
     Cart.items (body d) = [tea; cup]).
Proof.
  split; [exact I|].
  exact (proj1 (create_or_update_cart_subtotal 100%Z sample_cart empty_db I)).
Defined.

Lemma Forall2_same {A} (R : A -> A -> Prop) (l : list A) :
  (forall a, R a a) -> Forall2 R l l.
Proof.
  intros Hrefl. induction l; constructor; auto.
Qed.

(** An update leaves every document with another [_id] as it was. *)
Lemma update_one_frame {A} (oid : ObjectId.t) (fields : A) (c : Collection A) :
  Forall2 (fun d d' => _id d <> oid -> d' = d)
          c (update_one (by_id oid) fields c).
Proof.
  induction c as [|d c IH]; simpl; [constructor|].
  destruct (by_id oid d) eqn:E.
  - constructor.
    + apply by_id_true in E. tauto.
    + apply Forall2_same. reflexivity.
  - constructor; [reflexivity | exact IH].
Qed.

(** C7.  When the session already has a stored cart, [create_or_update_cart]
    rewrites that document in place: [get_cart] then returns the document
    with the same [_id] whose items are exactly the submitted ones (however
    few), with the recomputed subtotal and the new timestamp; the cart
    collection keeps its identifiers and length, every document with another
    [_id] is as before, and nothing is inserted anywhere. *)
Theorem create_or_update_cart_replaces
  (now : datetime) (c : Cart.t) (db : Db) (e : Doc ObjectId.t Cart.t)
  (s : float) :
  available 3 db ->
  find_one (by_session_id (Cart.session_id c)) (cart (store db)) = Some e ->
  Py.sum line_total (Cart.items c) = Return s ->
  let '(r, db1) := create_or_update_cart now c db in
  r = Return (CartReply.mk "ok" (Py.round2 s)) /\
  fst (get_cart (Cart.session_id c) db1)
  = Return (StoredCart
              (mkDoc (ObjectId.str (_id e))
                     (Cart.mk (Cart.session_id c) (Cart.items c)
                              (Py.round2 s) (Some now)))) /\
  ids (cart (store db1)) = ids (cart (store db)) /\
  List.length (cart (store db1)) = List.length (cart (store db)) /\
  Forall2 (fun d d' => _id d <> _id e -> d' = d)
          (cart (store db)) (cart (store db1)) /\
  product (store db1) = product (store db) /\
  order (store db1) = order (store db) /\
  next_oid (store db1) = next_oid (store db).
Proof.
  intros Hav Hfind Hsum.
  rewrite (create_or_update_cart_returns now c db s)
    by (exact Hsum || budget_cases db).
  split; [reflexivity|]. split.
  - rewrite get_cart_available by budget_cases db.
    cbn [fst store].
    pose proof (find_one_put_cart (cart_data now c s) (store db)) as Hput.
    cbn [cart_data Cart.session_id] in Hput. rewrite Hput, Hfind.
    reflexivity.
  - cbn [store]. unfold put_cart. cbn [cart_data Cart.session_id].
    rewrite Hfind. cbn [cart product order next_oid].
    rewrite ids_update_one, length_update_one.
    repeat split. apply update_one_frame.
Qed.

(** In [sample_db] the session [s1] holds two items; posting one item for it
    leaves one document, with that one item. *)
Lemma create_or_update_cart_replaces_witness :
  available 3 sample_db /\
  (let '(r, db1) :=
     create_or_update_cart 300%Z (Cart.mk "s1" [cup] 0%float None) sample_db in
   r = Return (CartReply.mk "ok" 5%float) /\
   fst (get_cart "s1" db1)
   = Return (StoredCart
               (mkDoc (ObjectId.str 0%N)
                      (Cart.mk "s1" [cup] 5%float (Some 300%Z)))) /\
   List.length (cart (store db1)) = 1).
Proof.
  split; [exact I|].
  pose proof (create_or_update_cart_replaces 300%Z
                (Cart.mk "s1" [cup] 0%float None) sample_db
                (mkDoc 0%N (Cart.mk "s1" [tea; cup] 25%float (Some 100%Z)))
                5%float I eq_refl eq_refl) as H.
  destruct (create_or_update_cart 300%Z _ sample_db) as [r db1].
  destruct H as (Hr & Hget & _ & Hlen & _).
  split; [exact Hr|]. split; [exact Hget | exact Hlen].
Defined.

Lemma put_cart_twice (f1 f2 : Cart.t) (s : Store) :
  cart_wf s ->
  Cart.session_id f2 = Cart.session_id f1 ->
  put_cart f2 (put_cart f1 s) = put_cart f2 s.
Proof.
  intros Hwf Hsid. unfold put_cart at 1.
  rewrite Hsid, find_one_put_cart. cbn [_id].
  unfold put_cart. rewrite Hsid.
  destruct (find_one (by_session_id (Cart.session_id f1)) (cart s)) as [e|];
    cbn [product cart order next_oid].
  - rewrite update_one_twice. reflexivity.
  - rewrite update_one_insert_one
      by (apply fresh_not_in, wf_fresh; exact Hwf).
    reflexivity.
Qed.

Lemma Forall2_update_one {A} (R : Doc ObjectId.t A -> Doc ObjectId.t A -> Prop)
  flt (f1 f2 : A) (c : Collection A) :
  (forall d, R d d) ->
  (forall i, R (mkDoc i f1) (mkDoc i f2)) ->
  Forall2 R (update_one flt f1 c) (update_one flt f2 c).
Proof.
  intros Hrefl Hnew. induction c as [|d c IH]; simpl; [constructor|].
  destruct (flt d); constructor; auto using Forall2_same.
Qed.

Lemma same_but_updated_at_put_cart (now1 now2 : datetime) (c : Cart.t)
  (s : float) (st : Store) :
  Forall2 same_but_updated_at
          (cart (put_cart (cart_data now1 c s) st))
          (cart (put_cart (cart_data now2 c s) st)).
Proof.
  assert (Hrefl : forall d, same_but_updated_at d d)
    by (intro d; repeat split).
  unfold put_cart. cbn [cart_data Cart.session_id].
  destruct (find_one (by_session_id (Cart.session_id c)) (cart st)) as [e|];
    cbn [cart].
  - apply Forall2_update_one; [exact Hrefl|]. intro i. repeat split.
  - unfold insert_one. apply Forall2_app; [apply Forall2_same, Hrefl|].
    constructor; [repeat split | constructor].
Qed.

(** C8.  Posting the same cart twice leaves what posting it once leaves: the
    store after the second call is the one that a single call at the later
    time produces, the two calls answer alike, and between the first and the
    second call the cart documents keep their [_id], session, items and
    subtotal, so that only [updated_at] can differ; products, orders and the
    identifier supply do not move. *)
Theorem create_or_update_cart_idempotent
  (now1 now2 : datetime) (c : Cart.t) (db : Db) :
  cart_wf (store db) ->
  available 4 db ->
  let '(r1, db1) := create_or_update_cart now1 c db in
  let '(r2, db2) := create_or_update_cart now2 c db1 in
  store db2 = store (snd (create_or_update_cart now2 c db)) /\
  r2 = r1 /\
  Forall2 same_but_updated_at (cart (store db1)) (cart (store db2)) /\
  product (store db2) = product (store db1) /\
  order (store db2) = order (store db1) /\
  next_oid (store db2) = next_oid (store db1).
Proof.
  intros Hwf Hav.
  destruct (Py.sum line_total (Cart.items c)) as [s|e] eqn:Hsum.
  - rewrite (create_or_update_cart_returns now1 c db s)
      by (exact Hsum || budget_cases db).
    rewrite (create_or_update_cart_returns now2 c _ s)
      by (exact Hsum || budget_cases db).
    rewrite (create_or_update_cart_returns now2 c db s)
      by (exact Hsum || budget_cases db).
    cbn [store snd].
    rewrite put_cart_twice by (exact Hwf || reflexivity).
    split; [reflexivity|]. split; [reflexivity|]. split.
    + apply same_but_updated_at_put_cart.
    + unfold put_cart. cbn [cart_data Cart.session_id].
      destruct (find_one (by_session_id (Cart.session_id c)) (cart (store db)));
        repeat split.
  - rewrite !(create_or_update_cart_overflow _ c db e Hsum).
    cbn [store snd]. repeat split.
    apply Forall2_same. intro d. repeat split.
Qed.

(** Posting [sample_cart] twice to an empty store, at times 100 and 500,
    leaves the one cart that posting it at time 500 leaves. *)
Lemma create_or_update_cart_idempotent_witness :
  cart_wf (store empty_db) /\
  available 4 empty_db /\
  (let '(r1, db1) := create_or_update_cart 100%Z sample_cart empty_db in
   let '(r2, db2) := create_or_update_cart 500%Z sample_cart db1 in
   store db2 = store (snd (create_or_update_cart 500%Z sample_cart empty_db)) /\
   r2 = r1 /\
   List.map (fun d => Cart.updated_at (body d)) (cart (store db1))
   = [Some 100%Z] /\
   List.map (fun d => Cart.updated_at (body d)) (cart (store db2))
   = [Some 500%Z]).
Proof.
  split; [exact cart_wf_empty|]. split; [exact I|].
  pose proof (create_or_update_cart_idempotent 100%Z 500%Z sample_cart empty_db
                cart_wf_empty I) as H.
  destruct (create_or_update_cart 100%Z sample_cart empty_db) as [r1 db1] eqn:E1.
  destruct (create_or_update_cart 500%Z sample_cart db1) as [r2 db2] eqn:E2.
  destruct H as (Hs & Hr & _).
  split; [exact Hs|]. split; [exact Hr|].
  vm_compute in E1. injection E1 as <- <-.
  vm_compute in E2. injection E2 as <- <-.
  split; reflexivity.
Defined.

(* ================================================================= *)
(** ** Checkout: order of the writes, copied items, reply *)

(** C5.  [checkout] inserts the order before it deletes the cart.  With a
    backend that fails before the insert has gone through (at the lookup or
    at the insert itself) the store is left as it was; with one that fails
    between the two writes the order is there and the cart collection is
    untouched; and in every execution, whatever the backend does, either the
    cart collection is as before or the new order has been added. *)
Theorem checkout_order_before_cart_delete
  (now : datetime) (payload : CheckoutPayload.t) (db : Db) :
  let sid := CheckoutPayload.session_id payload in
  store (snd (checkout now payload (failing_after 0 db))) = store db /\
  store (snd (checkout now payload (failing_after 1 db))) = store db /\
  cart (store (snd (checkout now payload (failing_after 2 db))))
  = cart (store db) /\
  (forall c,
      find_one (by_session_id sid) (cart (store db)) = Some c ->
      Cart.items (body c) <> [] ->
      checkout now payload (failing_after 2 db)
      = (Raise (HTTPException 500 (StrOf PyMongoError)),
         mkDb (add_order (order_of now payload (body c)) (store db)) (Some 0))) /\
  (cart (store (snd (checkout now payload db))) = cart (store db) \/
   exists c,
     find_one (by_session_id sid) (cart (store db)) = Some c /\
     order (store (snd (checkout now payload db)))
     = order (store db)
       ++ [mkDoc (next_oid (store db)) (order_of now payload (body c))]).
Proof.
  cbv zeta. split; [|split; [|split; [|split]]].
  - reflexivity.
  - unfold failing_after, checkout, except_HTTPException_raise, bind,
      cart_find_one, create_document_order, call. cbn [budget store fst snd].
    destruct (find_one _ (cart (store db))) as [c|]; [|reflexivity].
    destruct (Cart.items (body c)); reflexivity.
  - unfold failing_after, checkout, except_HTTPException_raise, bind,
      cart_find_one, create_document_order, cart_delete_one, call.
    cbn [budget store fst snd].
    destruct (find_one _ (cart (store db))) as [c|]; [|reflexivity].
    destruct (Cart.items (body c)); reflexivity.
  - intros c Hfind Hitems.
    unfold failing_after, checkout, except_HTTPException_raise, bind,
      cart_find_one, create_document_order, cart_delete_one, call.
    cbn [budget store fst snd]. rewrite Hfind.
    unfold order_of, add_order.
    destruct (Cart.items (body c)); [congruence | reflexivity].
  - destruct (checkout_store now payload db) as [-> | (c & Hfind & _ & [-> | ->])].
    + left. reflexivity.
    + right. exists c. split; [exact Hfind | reflexivity].
    + right. exists c. split; [exact Hfind | reflexivity].
Qed.

(** On [sample_db]: a backend that fails after two calls has the order and
    still has the cart. *)
Lemma checkout_order_before_cart_delete_witness :
  let '(r, db') := checkout 200%Z sample_payload (failing_after 2 sample_db) in
  r = Raise (HTTPException 500 (StrOf PyMongoError)) /\
  cart (store db') = cart (store sample_db) /\
  List.map amounts (order (store db')) = [(25%float, 2%float, 27%float)].
Proof.
  pose proof (checkout_order_before_cart_delete 200%Z sample_payload sample_db)
    as (_ & _ & _ & H & _).
  rewrite (H (mkDoc 0%N (Cart.mk "s1" [tea; cup] 25%float (Some 100%Z)))
             eq_refl ltac:(discriminate)).
  repeat split.
Defined.

Lemma Forall2_copy_of (l : list CartItem.t) :
  Forall2 copy_of l (List.map order_item l).
Proof.
  induction l as [|i l IH]; simpl; constructor; [|exact IH].
  repeat split.
Qed.

(** C6.  In a checkout that returns, the items of the order added are the
    stored cart's items, in the same order, each one copied field by field:
    [product_id], [title], [price], [quantity] and [image].  The product
    collection is not read: with any other product collection, emptied or
    changed, the same call returns the same reply and makes the same
    writes. *)
Theorem checkout_items_copied
  (now : datetime) (payload : CheckoutPayload.t) (db db' : Db)
  (reply : CheckoutReply.t) :
  checkout now payload db = (Return reply, db') ->
  exists c o,
    find_one (by_session_id (CheckoutPayload.session_id payload))
             (cart (store db)) = Some c /\
    order (store db') = order (store db) ++ [o] /\
    Forall2 copy_of (Cart.items (body c)) (Order.items (body o)) /\
    forall ps : Collection Product.t,
      checkout now payload (with_products ps db)
      = (Return reply, with_products ps db').
Proof.
  intros Hret.
  destruct (checkout_return_inv now payload db db' reply Hret)
    as (c & Hav & Hfind & Hitems).
  rewrite (checkout_returns now payload db c Hav Hfind Hitems) in Hret.
  injection Hret as <- <-.
  exists c. eexists. split; [exact Hfind|]. split; [reflexivity|]. split.
  - apply Forall2_copy_of.
  - intros ps.
    exact (checkout_returns now payload (with_products ps db) c Hav Hfind Hitems).
Qed.

(** The checkout of [sample_db] returns; its order holds the copies of the
    two stored items, also when the product collection holds something
    else. *)
Lemma checkout_items_copied_witness :
  exists reply db',
    checkout 200%Z sample_payload sample_db = (Return reply, db') /\
    List.map (fun o => Order.items (body o)) (order (store db'))
    = [[OrderItem.mk "p-tea" "Tea" 10%float 2 None;
        OrderItem.mk "p-cup" "Cup" 5%float 1 (Some "cup.png"%string)]] /\
    checkout 200%Z sample_payload
             (with_products [mkDoc 9%N lamp] sample_db)
    = (Return reply, with_products [mkDoc 9%N lamp] db').
Proof.
  destruct (checkout 200%Z sample_payload sample_db) as [r db'] eqn:E.
  assert (Hr : exists reply, r = Return reply)
    by (vm_compute in E; injection E as <- _; eexists; reflexivity).
  destruct Hr as [reply ->].
  exists reply, db'. split; [reflexivity|].
  destruct (checkout_items_copied 200%Z sample_payload sample_db db' reply E)
    as (c & o & _ & _ & _ & Hps).
  split; [|apply Hps].
  vm_compute in E. injection E as _ <-. reflexivity.
Defined.

(** C10.  In a checkout that returns, the reply agrees with what was
    stored: one order was added, the reply's [total] is that order's [total]
    and the reply's [order_id] is the text of the [_id] under which the order
    was inserted, which reads back as that [_id]. *)
Theorem checkout_reply_matches_order
  (now : datetime) (payload : CheckoutPayload.t) (db db' : Db)
  (reply : CheckoutReply.t) :
  checkout now payload db = (Return reply, db') ->
  exists o,
    order (store db') = order (store db) ++ [o] /\
    CheckoutReply.total reply = Order.total (body o) /\
    CheckoutReply.order_id reply = ObjectId.str (_id o) /\
    ((_id o < 2 ^ 96)%N ->
     ObjectId.parse (CheckoutReply.order_id reply)
     = Return (ObjectId.Full (_id o))) /\
    CheckoutReply.status reply = "ok"%string.
Proof.
  intros Hret.
  destruct (checkout_return_inv now payload db db' reply Hret)
    as (c & Hav & Hfind & Hitems).
  rewrite (checkout_returns now payload db c Hav Hfind Hitems) in Hret.
  injection Hret as <- <-.
  eexists. split; [reflexivity|]. split; [reflexivity|].
  split; [reflexivity|]. split; [|reflexivity].
  cbn [_id CheckoutReply.order_id]. apply parse_str.
Qed.

(** The checkout of [sample_db] returns total 27 and the identifier of the
    order it stored. *)
Lemma checkout_reply_matches_order_witness :
  exists db' o,
    checkout 200%Z sample_payload sample_db
    = (Return (CheckoutReply.mk "ok" "000000000000000000000001" 27%float), db') /\
    order (store db') = [o] /\
    Order.total (body o) = 27%float /\
    ObjectId.str (_id o) = "000000000000000000000001"%string.
Proof.
  destruct (checkout 200%Z sample_payload sample_db) as [r db'] eqn:E.
  assert (Hr : r = Return (CheckoutReply.mk "ok" "000000000000000000000001"
                                            27%float))
    by (vm_compute in E; injection E as <- _; reflexivity).
  subst r.
  destruct (checkout_reply_matches_order 200%Z sample_payload sample_db db' _ E)
    as (o & Ho & Ht & Hid & _ & _).
  exists db', o. split; [reflexivity|]. split; [exact Ho|].
  split; [symmetry; exact Ht | symmetry; exact Hid].
Defined.

(* ================================================================= *)
(** ** Catalog: get_product *)

Lemma find_one_short {A} (bytes : list N) (c : Collection A) :
  find_one (by_key (ObjectId.Short bytes)) c = None.
Proof. induction c as [|d c IH]; [reflexivity | exact IH]. Qed.

(** What [get_product] does with a text that is no identifier of twelve
    bytes: the conversion rejects it, or the backend fails, or the backend
    finds no product and the 404 is caught by the handler's own clause. *)
Lemma get_product_ill_formed (product_id : string) (db : Db) :
  well_formed product_id = false ->
  exists e db',
    get_product product_id db = (Raise (HTTPException 500 (StrOf e)), db') /\
    store db' = store db /\
    (e = InvalidId product_id \/ e = PyMongoError \/
     e = HTTPException 404 (Text "Product not found")) /\
    (ObjectId.parse product_id = Raise (InvalidId product_id) ->
     e = InvalidId product_id /\ db' = db).
Proof.
  intros Hbad. unfold get_product, except_Exception, bind, lift.
  destruct (parse_ill_formed product_id Hbad) as [E | [bytes E]]; rewrite E.
  - exists (InvalidId product_id), db. split; [reflexivity|].
    split; [reflexivity|]. split; [left; reflexivity|].
    intros _. split; reflexivity.
  - unfold product_find_one, call.
    destruct db as [s [[|k]|]]; cbn [budget store]; rewrite ?find_one_short.
    + exists PyMongoError. eexists. split; [reflexivity|].
      split; [reflexivity|]. split; [right; left; reflexivity|]. discriminate.
    + exists (HTTPException 404 (Text "Product not found")). eexists.
      split; [reflexivity|]. split; [reflexivity|].
      split; [right; right; reflexivity|]. discriminate.
    + exists (HTTPException 404 (Text "Product not found")). eexists.
      split; [reflexivity|]. split; [reflexivity|].
      split; [right; right; reflexivity|]. discriminate.
Qed.




(** A text of 24 characters in which whitespace takes the place of digits is
    convertible, and is an identifier that no product has. *)
Example get_product_whitespace_example :
  well_formed "00 11 22 33 44 55 66 77 " = false /\
  ObjectId.parse "00 11 22 33 44 55 66 77 "
  = Return (ObjectId.Short [0; 17; 34; 51; 68; 85; 102; 119]%N) /\
  fst (get_product "00 11 22 33 44 55 66 77 " catalog_db)
  = Raise (HTTPException 500
             (StrOf (HTTPException 404 (Text "Product not found")))).
Proof. split; [|split]; reflexivity. Qed.

(** The 404 that [get_product] raises for an identifier that no product has
    is raised inside the handler's own [try] block: the broad
    [except Exception] clause catches it and the response is a 500 whose
    detail is the text of the 404. *)
Theorem get_product_not_found_reraised
  (product_id : string) (k : ObjectId.key) (db : Db) :
  available 1 db ->
  ObjectId.parse product_id = Return k ->
  find_one (by_key k) (product (store db)) = None ->
  fst (get_product product_id db)
  = Raise (HTTPException 500
             (StrOf (HTTPException 404 (Text "Product not found")))).
Proof.
  intros Hav Hparse Hnone.
  unfold get_product, except_Exception, bind, lift, product_find_one.
  rewrite Hparse, call_available by exact Hav.
  cbn [fst]. rewrite Hnone. reflexivity.
Qed.

Example get_product_not_found_example :
  well_formed "0123456789abcdef01234567" = true /\
  fst (get_product "0123456789abcdef01234567" catalog_db)
  = Raise (HTTPException 500
             (StrOf (HTTPException 404 (Text "Product not found")))).
Proof. split; reflexivity. Qed.

(** A product that is there is returned with its [_id] as text. *)
Theorem get_product_found
  (product_id : string) (k : ObjectId.key) (db : Db)
  (d : Doc ObjectId.t Product.t) :
  available 1 db ->
  ObjectId.parse product_id = Return k ->
  find_one (by_key k) (product (store db)) = Some d ->
  fst (get_product product_id db) = Return (serialize d).
Proof.
  intros Hav Hparse Hsome.
  unfold get_product, except_Exception, bind, lift, product_find_one.
  rewrite Hparse, call_available by exact Hav.
  cbn [fst]. rewrite Hsome. reflexivity.
Qed.

(* ================================================================= *)
(** ** Catalog: list_products *)

Lemma startswith_spec (s p : string) :
  Py.startswith s p = true <-> exists post, s = (p ++ post)%string.
Proof.
  revert s. induction p as [|a p IH]; intros s.
  - split; [intros _; exists s; reflexivity | intros _].
    destruct s; reflexivity.
  - destruct s as [|b s]; simpl.
    + split; [discriminate | intros [post H]; discriminate].
    + rewrite andb_true_iff, Ascii.eqb_eq, IH. split.
      * intros [-> [post ->]]. exists post. reflexivity.
      * intros [post H]. injection H as -> ->. split; [reflexivity|].
        exists post. reflexivity.
Qed.

(** [needle in hay] holds exactly when [hay] is some prefix, then [needle],
    then some suffix. *)
Lemma contains_spec (hay needle : string) :
  Py.contains hay needle = true <-> substring hay needle.
Proof.
  unfold substring. induction hay as [|c hay IH].
  - cbn [Py.contains]. rewrite orb_false_r, startswith_spec. split.
    + intros [post H]. exists EmptyString, post. exact H.
    + intros (pre & post & H). destruct pre; simpl in H.
      * exists post. exact H.
      * discriminate.
  - cbn [Py.contains]. rewrite orb_true_iff, startswith_spec, IH. split.
    + intros [[post H] | (pre & post & H)].
      * exists EmptyString, post. exact H.
      * exists (String c pre), post. simpl. rewrite H. reflexivity.
    + intros (pre & post & H). destruct pre as [|c' pre]; simpl in H.
      * left. exists post. exact H.
      * right. injection H as _ H. exists pre, post. exact H.
Qed.

Lemma search_matchb_spec `{U : Py.Unicode} (q : string) (p : Product.t) :
  search_matchb q p = true <-> search_match q p.
Proof.
  unfold search_matchb, search_match, icontains.
  rewrite orb_true_iff, !contains_spec. reflexivity.
Qed.

Lemma contains_empty (hay : string) : Py.contains hay EmptyString = true.
Proof. destruct hay; reflexivity. Qed.

Lemma get_lower_text `{U : Py.Unicode} (f : field) :
  f <> Null -> get_lower f = Return (Py.lower (text f)).
Proof. destruct f; simpl; congruence. Qed.

Lemma search_hit_total `{U : Py.Unicode}
  (q : string) (p : Doc ObjectId.t Product.t) :
  Product.title (body p) <> Null ->
  Product.description (body p) <> Null ->
  search_hit (Py.lower q) p = Return (search_matchb q (body p)).
Proof.
  intros Ht Hd. unfold search_hit, search_matchb.
  rewrite (get_lower_text _ Ht). cbn [rbind].
  destruct (Py.contains (Py.lower (text (Product.title (body p)))) (Py.lower q)).
  - reflexivity.
  - rewrite (get_lower_text _ Hd). reflexivity.
Qed.

(** A comprehension whose condition never raises is a filter. *)
Lemma comprehension_filter {A} (cond : A -> result bool) (f : A -> bool)
  (l : list A) :
  Forall (fun a => cond a = Return (f a)) l ->
  comprehension cond l = Return (List.filter f l).
Proof.
  induction 1 as [|a l Ha _ IH]; simpl; [reflexivity|].
  rewrite Ha, IH. simpl. destruct (f a); reflexivity.
Qed.

(** C9, as the code has it.  With a category argument that is not the empty
    string, [list_products] returns, in storage order, exactly the products
    whose [category_slug] is that argument; with a query as well, those of
    them whose title or description (a missing one read as empty) contains
    the query as a case-insensitive substring: the lower-cased text holds
    the lower-cased query, whatever the case mapping of [str.lower] is.  The
    answer is a list, the empty one when nothing matches.  The statement is
    for catalogs in which the products of the category hold no [None] as
    title or description when a search is made. *)
Theorem list_products_filters `{U : Py.Unicode}
  (category : string) (q : option string) (db : Db) :
  category <> EmptyString ->
  available 1 db ->
  (Py.truthy q = true ->
   Forall (fun p => Product.title (body p) <> Null /\
                    Product.description (body p) <> Null)
          (List.filter (by_category_slug (Some category))
                       (product (store db)))) ->
  let hits :=
    List.filter (fun p => match q with
                          | Some q' => search_matchb q' (body p)
                          | None => true
                          end)
                (List.filter (by_category_slug (Some category))
                             (product (store db))) in
  list_products (Some category) q db
  = (Return (List.map serialize hits), mkDb (store db) (spend (budget db))) /\
  (forall p,
      In p hits <->
      In p (product (store db)) /\
      Product.category_slug (body p) = category /\
      (forall q', q = Some q' -> search_match q' (body p))) /\
  (hits = [] -> fst (list_products (Some category) q db) = Return []).
Proof.
  intros Hcat Hav Htexts hits.
  assert (Hrun : list_products (Some category) q db
                 = (Return (List.map serialize hits),
                    mkDb (store db) (spend (budget db)))).
  { unfold list_products, except_Exception, bind, get_documents_product.
    assert (Py.truthy (Some category) = true) as ->
      by (destruct category; [congruence | reflexivity]).
    rewrite call_available by exact Hav. cbn [fst snd].
    destruct q as [q'|]; cbn [Py.truthy].
    - destruct q' as [|a q'].
      + unfold ret. subst hits. f_equal. f_equal. f_equal.
        symmetry. apply forallb_filter_id. apply forallb_forall.
        intros p _. unfold search_matchb. rewrite Py.lower_empty.
        rewrite !contains_empty. reflexivity.
      + unfold lift.
        rewrite (comprehension_filter _
                   (fun p => search_matchb (String a q') (body p))).
        * reflexivity.
        * specialize (Htexts eq_refl). revert Htexts. apply Forall_impl.
          intros p [Ht Hd]. apply search_hit_total; assumption.
    - unfold ret. subst hits. f_equal. f_equal. f_equal.
      symmetry. apply forallb_filter_id. apply forallb_forall. reflexivity. }
  split; [exact Hrun|]. split.
  - intros p. subst hits. rewrite !filter_In. unfold by_category_slug.
    rewrite String.eqb_eq. split.
    + intros [[Hin Hslug] Hq]. split; [exact Hin|]. split; [exact Hslug|].
      intros q' ->. apply search_matchb_spec. exact Hq.
    + intros (Hin & Hslug & Hq). split; [split; assumption|].
      destruct q as [q'|]; [|reflexivity].
      apply search_matchb_spec. apply Hq. reflexivity.
  - intros Hnone. rewrite Hrun, Hnone. reflexivity.
Qed.

(** In [catalog_db], the category "electronics" with the query "WIRELESS"
    gives the headphones, and with the query "lamp" gives the empty list. *)
Lemma list_products_filters_witness :
  fst (list_products (U := Py.ascii_text)
        (Some "electronics"%string) (Some "WIRELESS"%string)
                     catalog_db)
  = Return [mkDoc (ObjectId.str 0%N) headphones] /\
  fst (list_products (U := Py.ascii_text)
        (Some "electronics"%string) (Some "lamp"%string)
                     catalog_db)
  = Return [].
Proof.
  assert (Hcat : "electronics"%string <> EmptyString) by discriminate.
  assert (Htexts :
            Forall (fun p : Doc ObjectId.t Product.t =>
                      Product.title (body p) <> Null /\
                      Product.description (body p) <> Null)
                   (List.filter (by_category_slug (Some "electronics"%string))
                                (product (store catalog_db)))).
  { vm_compute. constructor; [split; discriminate | constructor]. }
  split.
  - destruct (list_products_filters (U := Py.ascii_text) "electronics"
                (Some "WIRELESS"%string) catalog_db Hcat I (fun _ => Htexts))
      as [Hrun _].
    rewrite Hrun. reflexivity.
  - destruct (list_products_filters (U := Py.ascii_text) "electronics"
                (Some "lamp"%string) catalog_db Hcat I (fun _ => Htexts))
      as (_ & _ & Hnone).
    apply Hnone. reflexivity.
Defined.

(** C9 as stated fails for the empty string as category: [catalog_db] has
    no product whose [category_slug] is the empty string, and both of its
    products are returned. *)
Lemma list_products_empty_category_lists_all :
  List.filter (by_category_slug (Some EmptyString))
              (product (store catalog_db)) = [] /\
  fst (list_products (U := Py.ascii_text) (Some EmptyString) None catalog_db)
  = Return [mkDoc (ObjectId.str 0%N) headphones;
            mkDoc (ObjectId.str 1%N) lamp] /\
  fst (list_products (U := Py.ascii_text) (Some EmptyString) None catalog_db)
  <> Return (List.map serialize
               (List.filter (by_category_slug (Some EmptyString))
                            (product (store catalog_db)))).
Proof.
  split; [reflexivity|]. split; [reflexivity|].
  vm_compute. discriminate.
Qed.

(** A search that meets a product whose description is [None], and whose
    title does not hold the query, ends in a 500. *)
Example list_products_null_description :
  fst (list_products (U := Py.ascii_text)
        None (Some "wireless"%string) catalog_db)
  = Raise (HTTPException 500 (StrOf AttributeError)).
Proof. reflexivity. Qed.

(* ================================================================= *)
(** ** What the handlers answer, and what they leave alone *)

Lemma except_Exception_value_or_500 {A} (m : M A) (db : Db) :
  value_or_500 (fst (except_Exception m db)).
Proof.
  unfold except_Exception, value_or_500, server_fault.
  destruct (m db) as [[a|e] db']; simpl; eauto.
Qed.

Lemma value_or_500_not_client_error {A} (r : result A) :
  value_or_500 r -> ~ client_error r.
Proof.
  intros [[a ->] | [d ->]] (c & d' & Heq & Hc); [discriminate|].
  injection Heq as <- _. lia.
Qed.

(** X1.  The catalog and cart handlers answer with a value or with status
    500 and nothing else: none of them ever answers with a 4xx status, so
    [get_product] never answers 404, whatever the identifier and the
    store. *)
Theorem only_checkout_answers_4xx `{U : Py.Unicode} :
  (forall category q db, value_or_500 (fst (list_products category q db))) /\
  (forall product_id db,
      value_or_500 (fst (get_product product_id db)) /\
      ~ client_error (fst (get_product product_id db))) /\
  (forall now c db, value_or_500 (fst (create_or_update_cart now c db))) /\
  (forall sid db, value_or_500 (fst (get_cart sid db))).
Proof.
  split; [|split; [|split]]; intros.
  - apply except_Exception_value_or_500.
  - split; [|apply value_or_500_not_client_error];
      apply except_Exception_value_or_500.
  - apply except_Exception_value_or_500.
  - apply except_Exception_value_or_500.
Qed.

(** X2.  [checkout] answers with a value, with the 400 "Cart is empty", or
    with a 500; its one client error is the empty cart. *)
Theorem checkout_answers (now : datetime) (payload : CheckoutPayload.t)
  (db : Db) :
  checkout_answer (fst (checkout now payload db)).
Proof.
  destruct db as [st b].
  unfold checkout, except_HTTPException_raise, bind, cart_find_one,
    create_document_order, cart_delete_one, call, checkout_answer,
    value_or_500, server_fault.
  cbn [budget store].
  destruct b as [[|[|[|k]]]|]; cbn [fst snd]; eauto;
    (destruct (find_one _ (cart st)) as [c|]; [|cbn; eauto]);
    (destruct (Cart.items (body c)); cbn; eauto).
Qed.

Lemma call_cases {A} (op : Store -> A * Store) (db : Db) :
  call op db = (Raise PyMongoError, db) \/
  call op db = (Return (fst (op (store db))),
                mkDb (snd (op (store db))) (spend (budget db))).
Proof.
  unfold call. destruct (budget db) as [[|k]|] eqn:Hb.
  - left. reflexivity.
  - right. destruct (op (store db)). reflexivity.
  - right. destruct (op (store db)). reflexivity.
Qed.

Lemma call_read_only {A} (f : Store -> A) (db : Db) :
  store (snd (call (fun s => (f s, s)) db)) = store db.
Proof.
  unfold call. destruct (budget db) as [[|k]|]; reflexivity.
Qed.

Lemma get_cart_store (sid : string) (db : Db) :
  store (snd (get_cart sid db)) = store db.
Proof.
  unfold get_cart, except_Exception, bind, cart_find_one.
  pose proof (call_read_only (fun s => find_one (by_session_id sid) (cart s)) db)
    as H.
  destruct (call _ db) as [[[c|]|e] db']; exact H.
Qed.

Lemma list_products_store `{U : Py.Unicode}
  (category q : option string) (db : Db) :
  store (snd (list_products category q db)) = store db.
Proof.
  unfold list_products, except_Exception, bind, get_documents_product.
  cbv zeta.
  pose proof (call_read_only
                (fun s => List.filter
                            (by_category_slug
                               (if Py.truthy category then category else None))
                            (product s)) db) as H.
  destruct (call _ db) as [[ps|e] db']; [|exact H].
  cbn [fst snd] in *. unfold lift, ret.
  destruct (Py.truthy q); [destruct q as [q'|]|]; try exact H.
  destruct (comprehension _ ps); exact H.
Qed.

Lemma get_product_store (product_id : string) (db : Db) :
  store (snd (get_product product_id db)) = store db.
Proof.
  unfold get_product, except_Exception, bind, lift, product_find_one.
  destruct (ObjectId.parse product_id) as [oid|e]; [|reflexivity].
  pose proof (call_read_only (fun s => find_one (by_key oid) (product s)) db)
    as H.
  destruct (call _ db) as [[[d|]|e] db']; exact H.
Qed.

(** X3.  The three read handlers write nothing: after [get_cart],
    [list_products] or [get_product] the store is what it was, whatever
    their arguments, their answer and the state of the backend. *)
Theorem read_handlers_leave_store `{U : Py.Unicode} :
  (forall sid db, store (snd (get_cart sid db)) = store db) /\
  (forall category q db, store (snd (list_products category q db)) = store db) /\
  (forall product_id db, store (snd (get_product product_id db)) = store db).
Proof.
  split; [exact get_cart_store|].
  split; [exact list_products_store | exact get_product_store].
Qed.

(* ================================================================= *)
(** ** Other sessions *)

Lemma by_session_id_other (sid sid' : string) (d : Doc ObjectId.t Cart.t) :
  sid' <> sid -> by_session_id sid d = true -> by_session_id sid' d = false.
Proof.
  intros Hne Hd. apply by_session_id_true in Hd.
  destruct (by_session_id sid' d) eqn:E; [|reflexivity].
  apply by_session_id_true in E. congruence.
Qed.

Lemma find_one_other_delete_one (sid sid' : string) (c : Collection Cart.t) :
  sid' <> sid ->
  find_one (by_session_id sid') (delete_one (by_session_id sid) c)
  = find_one (by_session_id sid') c.
Proof.
  intros Hne. unfold find_one. induction c as [|d c IH]; simpl; [reflexivity|].
  destruct (by_session_id sid d) eqn:Ed; simpl.
  - rewrite (by_session_id_other sid sid' d Hne Ed). reflexivity.
  - destruct (by_session_id sid' d); [reflexivity | exact IH].
Qed.

Lemma find_one_other_insert_one (sid' : string) (c : Collection Cart.t)
  (oid : ObjectId.t) (fields : Cart.t) :
  sid' <> Cart.session_id fields ->
  find_one (by_session_id sid') (insert_one oid fields c)
  = find_one (by_session_id sid') c.
Proof.
  intros Hne. unfold find_one, insert_one.
  induction c as [|d c IH]; simpl.
  - rewrite (by_session_id_other (Cart.session_id fields) sid' (mkDoc oid fields) Hne);
      [reflexivity | apply by_session_id_true; reflexivity].
  - destruct (by_session_id sid' d); [reflexivity | exact IH].
Qed.

Lemma find_one_other_update_one (sid' : string) (c : Collection Cart.t)
  (e : Doc ObjectId.t Cart.t) (fields : Cart.t) :
  NoDup (ids c) ->
  find_one (by_session_id (Cart.session_id fields)) c = Some e ->
  sid' <> Cart.session_id fields ->
  find_one (by_session_id sid') (update_one (by_id (_id e)) fields c)
  = find_one (by_session_id sid') c.
Proof.
  intros Hnd Hfind Hne. unfold find_one in *.
  induction c as [|d c IH]; simpl in *; [reflexivity|].
  inversion Hnd as [|? ? Hnotin Hnd']; subst.
  destruct (by_session_id (Cart.session_id fields) d) eqn:Ed.
  - injection Hfind as ->.
    assert (by_id (_id e) e = true) as -> by (apply by_id_true; reflexivity).
    simpl. rewrite (by_session_id_other _ sid' e Hne Ed).
    rewrite (by_session_id_other (Cart.session_id fields) sid'
               (mkDoc (_id e) fields) Hne);
      [reflexivity | apply by_session_id_true; reflexivity].
  - destruct (by_id (_id e) d) eqn:Ei.
    + exfalso. apply Hnotin. apply by_id_true in Ei. rewrite Ei.
      apply (find_one_in _ c e) in Hfind. destruct Hfind as [Hin _].
      unfold ids. apply (in_map (fun d => _id d)). exact Hin.
    + simpl. destruct (by_session_id sid' d); [reflexivity|].
      apply IH; assumption.
Qed.

(** X4.  A checkout touches no other session and no product: whatever the
    backend does, the cart of every other session is found as before, the
    products are as before, and the order collection is the old one with at
    most one order added at its end. *)
Theorem checkout_frame (now : datetime) (payload : CheckoutPayload.t)
  (db : Db) (sid' : string) :
  sid' <> CheckoutPayload.session_id payload ->
  let db' := snd (checkout now payload db) in
  find_one (by_session_id sid') (cart (store db'))
  = find_one (by_session_id sid') (cart (store db)) /\
  product (store db') = product (store db) /\
  exists l, order (store db') = order (store db) ++ l /\ List.length l <= 1.
Proof.
  intros Hne db'. subst db'.
  destruct (checkout_store now payload db)
    as [-> | (c & _ & _ & [-> | ->])]; cbn [add_order drop_cart cart product order].
  - repeat split. exists []. rewrite app_nil_r. split; [reflexivity | simpl; lia].
  - split; [reflexivity|]. split; [reflexivity|].
    eexists. split; [reflexivity | simpl; lia].
  - split; [apply find_one_other_delete_one; exact Hne|].
    split; [reflexivity|]. eexists. split; [reflexivity | simpl; lia].
Qed.

(** In [sample_db] grown by a cart for [s2], the checkout of [s1] leaves the
    cart of [s2] where it was. *)
Lemma checkout_frame_witness :
  let db := snd (create_or_update_cart 150%Z (Cart.mk "s2" [cup] 0%float None)
                                       sample_db) in
  let db' := snd (checkout 200%Z sample_payload db) in
  find_one (by_session_id "s2") (cart (store db'))
  = Some (mkDoc 1%N (Cart.mk "s2" [cup] 5%float (Some 150%Z))) /\
  find_one (by_session_id "s1") (cart (store db')) = None.
Proof.
  cbv zeta. split; [|reflexivity].
  rewrite (proj1 (checkout_frame 200%Z sample_payload
                    (snd (create_or_update_cart 150%Z
                            (Cart.mk "s2" [cup] 0%float None) sample_db))
                    "s2" ltac:(discriminate))).
  reflexivity.
Defined.

(** X5.  Posting a cart touches no other session, no product and no order:
    in a well-formed store, whatever the backend does, the cart of every
    other session is found as before. *)
Theorem create_or_update_cart_frame (now : datetime) (c : Cart.t) (db : Db)
  (sid' : string) :
  cart_wf (store db) ->
  sid' <> Cart.session_id c ->
  let db' := snd (create_or_update_cart now c db) in
  find_one (by_session_id sid') (cart (store db'))
  = find_one (by_session_id sid') (cart (store db)) /\
  product (store db') = product (store db) /\
  order (store db') = order (store db).
Proof.
  intros Hwf Hne db'. subst db'.
  destruct (create_or_update_cart_store now c db) as [-> | (s & _ & ->)];
    [repeat split|].
  unfold put_cart. cbn [cart_data Cart.session_id].
  destruct (find_one (by_session_id (Cart.session_id c)) (cart (store db)))
    as [e|] eqn:Hfind; cbn [cart product order].
  - split; [|split; reflexivity].
    apply find_one_other_update_one;
      [apply wf_ids; exact Hwf | exact Hfind | exact Hne].
  - split; [|split; reflexivity].
    apply find_one_other_insert_one. exact Hne.
Qed.

Lemma create_or_update_cart_frame_witness :
  cart_wf (store sample_db) /\
  (let db' := snd (create_or_update_cart 150%Z (Cart.mk "s2" [cup] 0%float None)
                                         sample_db) in
   find_one (by_session_id "s1") (cart (store db'))
   = Some (mkDoc 0%N (Cart.mk "s1" [tea; cup] 25%float (Some 100%Z))) /\
   List.length (cart (store db')) = 2).
Proof.
  assert (Hwf : cart_wf (store sample_db))
    by (apply create_or_update_cart_wf, cart_wf_empty).
  split; [exact Hwf|]. cbv zeta. split; [|reflexivity].
  rewrite (proj1 (create_or_update_cart_frame 150%Z
                    (Cart.mk "s2" [cup] 0%float None) sample_db "s1" Hwf
                    ltac:(discriminate))).
  reflexivity.
Defined.

(* ================================================================= *)
(** ** Posting and checking out, one after the other *)

Lemma checkout_empty_store (now : datetime) (payload : CheckoutPayload.t)
  (db : Db) :
  match find_one (by_session_id (CheckoutPayload.session_id payload))
                 (cart (store db)) with
  | None => True
  | Some c => Cart.items (body c) = []
  end ->
  store (snd (checkout now payload db)) = store db.
Proof.
  intros Hempty. destruct (budget db) as [[|k]|] eqn:Hb.
  - unfold checkout, except_HTTPException_raise, bind, cart_find_one.
    rewrite call_exhausted by exact Hb. reflexivity.
  - rewrite checkout_empty; [reflexivity | | exact Hempty].
    unfold available. rewrite Hb. lia.
  - rewrite checkout_empty; [reflexivity | | exact Hempty].
    unfold available. rewrite Hb. exact I.
Qed.

(** X6.  After a checkout that returned, a second checkout for the same
    session finds no cart: it writes nothing, so no second order is made,
    and it answers 400 "Cart is empty" when the backend answers its
    lookup. *)
Theorem checkout_again_rejected
  (now now' : datetime) (payload : CheckoutPayload.t) (customer' : Customer.t)
  (db db1 : Db) (reply : CheckoutReply.t) (b' : option nat) :
  cart_wf (store db) ->
  checkout now payload db = (Return reply, db1) ->
  let again :=
    checkout now' (CheckoutPayload.mk (CheckoutPayload.session_id payload)
                                      customer')
             (mkDb (store db1) b') in
  store (snd again) = store db1 /\
  (b' <> Some 0 ->
   fst again = Raise (HTTPException 400 (Text "Cart is empty"))).
Proof.
  intros Hwf Hret again. subst again.
  destruct (checkout_return_inv now payload db db1 reply Hret)
    as (c & Hav & Hfind & Hitems).
  rewrite (checkout_returns now payload db c Hav Hfind Hitems) in Hret.
  injection Hret as _ <-. cbn [store].
  set (st1 := drop_cart _ _).
  assert (Hnone : find_one (by_session_id (CheckoutPayload.session_id payload))
                           (cart st1) = None).
  { subst st1. cbn [drop_cart add_order cart].
    apply find_one_delete_one, wf_sessions. exact Hwf. }
  split.
  - rewrite checkout_empty_store; [reflexivity|].
    cbn [store CheckoutPayload.session_id]. rewrite Hnone. exact I.
  - intros Hb. rewrite checkout_empty; [reflexivity | |].
    + unfold available. cbn [budget]. destruct b' as [[|k]|]; [congruence | lia | exact I].
    + cbn [store CheckoutPayload.session_id]. rewrite Hnone. exact I.
Qed.

(** The checkout of [sample_db], done twice, makes one order. *)
Lemma checkout_again_rejected_witness :
  cart_wf (store sample_db) /\
  exists reply db1,
    checkout 200%Z sample_payload sample_db = (Return reply, db1) /\
    (let again := checkout 300%Z sample_payload (mkDb (store db1) None) in
     fst again = Raise (HTTPException 400 (Text "Cart is empty")) /\
     List.length (order (store (snd again))) = 1).
Proof.
  assert (Hwf : cart_wf (store sample_db))
    by (apply create_or_update_cart_wf, cart_wf_empty).
  split; [exact Hwf|].
  destruct (checkout 200%Z sample_payload sample_db) as [r db1] eqn:E.
  assert (Hr : exists reply, r = Return reply)
    by (vm_compute in E; injection E as <- _; eexists; reflexivity).
  destruct Hr as [reply ->]. exists reply, db1. split; [reflexivity|].
  destruct (checkout_again_rejected 200%Z 300%Z sample_payload ann sample_db
              db1 reply None Hwf E) as [Hs Hr].
  cbv zeta. split; [apply Hr; discriminate|].
  change (CheckoutPayload.mk (CheckoutPayload.session_id sample_payload) ann)
    with sample_payload in Hs.
  rewrite Hs. vm_compute in E. injection E as _ <-. reflexivity.
Defined.

Lemma order_put_cart (fields : Cart.t) (s : Store) :
  order (put_cart fields s) = order s.
Proof.
  unfold put_cart. destruct (find_one _ (cart s)); reflexivity.
Qed.

(** X7.  Posting a cart with items and then checking it out gives an order
    for exactly what was posted: its items are the posted items copied in
    order, its subtotal is the rounded sum of the posted line totals, the
    reply carries the order's identifier and total, and the session has no
    cart left. *)
Theorem post_then_checkout
  (now1 now2 : datetime) (c : Cart.t) (customer : Customer.t) (db : Db)
  (s : float) :
  cart_wf (store db) ->
  available 6 db ->
  Cart.items c <> [] ->
  Py.sum line_total (Cart.items c) = Return s ->
  let db1 := snd (create_or_update_cart now1 c db) in
  let '(r, db2) :=
    checkout now2 (CheckoutPayload.mk (Cart.session_id c) customer) db1 in
  (exists o,
      order (store db2) = order (store db) ++ [o] /\
      Order.items (body o) = List.map order_item (Cart.items c) /\
      Order.subtotal (body o) = Py.round2 s /\
      Order.customer (body o) = customer /\
      r = Return (CheckoutReply.mk "ok" (ObjectId.str (_id o))
                                   (Order.total (body o)))) /\
  fst (get_cart (Cart.session_id c) db2)
  = Return (NoCart (Cart.session_id c) [] 0%float).
Proof.
  intros Hwf Hav Hitems Hsum.
  rewrite (create_or_update_cart_returns now1 c db s)
    by (exact Hsum || budget_cases db).
  cbn [snd].
  pose proof (find_one_put_cart (cart_data now1 c s) (store db)) as Hput.
  cbn [cart_data Cart.session_id] in Hput.
  erewrite checkout_returns;
    [ | budget_cases db
      | cbn [store CheckoutPayload.session_id]; exact Hput
      | cbn [body Cart.items]; exact Hitems ].
  split.
  - cbn [store drop_cart add_order order insert_one].
    rewrite order_put_cart.
    eexists. split; [reflexivity|]. cbn [body _id order_of].
    split; [reflexivity|]. split; [reflexivity|].
    split; reflexivity.
  - rewrite get_cart_available by long_budget_cases db.
    cbn [fst store drop_cart add_order cart CheckoutPayload.session_id].
    rewrite find_one_delete_one; [reflexivity|].
    apply wf_sessions. apply (cart_wf_put_cart (cart_data now1 c s)). exact Hwf.
Qed.

Lemma post_then_checkout_witness :
  cart_wf (store empty_db) /\ available 6 empty_db /\
  (let db1 := snd (create_or_update_cart 100%Z sample_cart empty_db) in
   let '(r, db2) := checkout 200%Z sample_payload db1 in
   List.map (fun o => Order.items (body o)) (order (store db2))
   = [[order_item tea; order_item cup]] /\
   r = Return (CheckoutReply.mk "ok" (ObjectId.str 1%N) 27%float)).
Proof.
  split; [exact cart_wf_empty|]. split; [exact I|].
  pose proof (post_then_checkout 100%Z 200%Z sample_cart ann empty_db 25%float
                cart_wf_empty I ltac:(discriminate) eq_refl) as H.
  cbv zeta in *.
  change (CheckoutPayload.mk (Cart.session_id sample_cart) ann)
    with sample_payload in H.
  destruct (checkout 200%Z sample_payload _) as [r db2] eqn:E.
  destruct H as [(o & Ho & Hi & _ & _ & Hr) _].
  vm_compute in E. injection E as <- <-.
  split; reflexivity.
Defined.

(** X8.  Posting a cart without items stores it: the session then has a
    cart document with no items and subtotal 0.0, which [get_cart] returns
    as a stored cart (with its [_id] and timestamp), not as the dictionary
    for a missing cart; and a checkout for it is turned down with 400 and
    leaves that document where it is. *)
Theorem post_empty_cart
  (now now' : datetime) (sid : string) (subtotal : float)
  (updated_at : option datetime) (customer : Customer.t) (db : Db) :
  available 4 db ->
  let '(r, db1) :=
    create_or_update_cart now (Cart.mk sid [] subtotal updated_at) db in
  r = Return (CartReply.mk "ok" 0%float) /\
  (exists i,
      fst (get_cart sid db1)
      = Return (StoredCart (mkDoc i (Cart.mk sid [] 0%float (Some now))))) /\
  (let '(r2, db2) := checkout now' (CheckoutPayload.mk sid customer) db1 in
   r2 = Raise (HTTPException 400 (Text "Cart is empty")) /\
   store db2 = store db1).
Proof.
  intros Hav.
  rewrite (create_or_update_cart_returns now _ db 0%float)
    by (reflexivity || budget_cases db).
  pose proof (find_one_put_cart
                (cart_data now (Cart.mk sid [] subtotal updated_at) 0%float)
                (store db)) as Hput.
  cbn [cart_data Cart.session_id Cart.items] in Hput.
  change (Py.round2 0%float) with 0%float in *.
  split; [reflexivity|]. split.
  - rewrite get_cart_available by budget_cases db.
    cbn [fst store]. rewrite Hput. eexists. reflexivity.
  - rewrite checkout_empty; [split; reflexivity | budget_cases db|].
    cbn [store CheckoutPayload.session_id]. rewrite Hput. reflexivity.
Qed.

Lemma post_empty_cart_witness :
  available 4 sample_db /\
  (let '(r, db1) :=
     create_or_update_cart 300%Z (Cart.mk "s1" [] 0%float None) sample_db in
   r = Return (CartReply.mk "ok" 0%float) /\
   fst (get_cart "s1" db1)
   = Return (StoredCart (mkDoc (ObjectId.str 0%N)
                               (Cart.mk "s1" [] 0%float (Some 300%Z)))) /\
   fst (checkout 400%Z sample_payload db1)
   = Raise (HTTPException 400 (Text "Cart is empty"))).
Proof.
  split; [exact I|].
  pose proof (post_empty_cart 300%Z 400%Z "s1" 0%float None ann sample_db I)
    as H.
  destruct (create_or_update_cart 300%Z _ sample_db) as [r db1] eqn:E.
  destruct H as (Hr & _ & H2).
  change (CheckoutPayload.mk "s1" ann) with sample_payload in H2.
  destruct (checkout 400%Z sample_payload db1) as [r2 db2].
  split; [exact Hr|]. split; [|exact (proj1 H2)].
  vm_compute in E. injection E as _ <-. reflexivity.
Defined.

(* ================================================================= *)
(** ** Catalog: listing, fetching, searching *)

Lemma comprehension_incl {A} (cond : A -> result bool) (l l' : list A) :
  comprehension cond l = Return l' -> forall a, In a l' -> In a l.
Proof.
  revert l'. induction l as [|x l IH]; simpl; intros l' H a Ha.
  - injection H as <-. exact Ha.
  - destruct (cond x) as [keep|e]; [|discriminate]. simpl in H.
    destruct (comprehension cond l) as [rest|e]; [|discriminate]. simpl in H.
    injection H as <-. destruct keep.
    + destruct Ha as [<- | Ha]; [left; reflexivity | right; eauto].
    + right. eauto.
Qed.

Lemma list_products_returns_stored `{U : Py.Unicode}
  (category q : option string) (db : Db)
  (l : list (Doc string Product.t)) :
  fst (list_products category q db) = Return l ->
  forall d, In d l ->
            exists p, In p (product (store db)) /\ d = serialize p.
Proof.
  unfold list_products, except_Exception, bind, get_documents_product.
  cbv zeta.
  set (flt := by_category_slug (if Py.truthy category then category else None)).
  assert (Hsub : forall ps,
             (forall p, In p ps -> In p (List.filter flt (product (store db)))) ->
             forall d, In d (List.map serialize ps) ->
                       exists p, In p (product (store db)) /\ d = serialize p).
  { intros ps Hps d Hd. apply in_map_iff in Hd. destruct Hd as (p & <- & Hp).
    exists p. split; [|reflexivity]. apply Hps in Hp.
    apply filter_In in Hp. tauto. }
  destruct (call_cases (fun s => (List.filter flt (product s), s)) db)
    as [-> | ->]; cbn [fst snd]; [discriminate|].
  unfold lift, ret.
  destruct (Py.truthy q); [destruct q as [q'|]|].
  - destruct (comprehension _ _) as [ps|e] eqn:Hc; cbn [fst]; [|discriminate].
    intros H. injection H as <-. apply Hsub.
    exact (comprehension_incl _ _ ps Hc).
  - cbn [fst]. intros H. injection H as <-. apply Hsub. auto.
  - cbn [fst]. intros H. injection H as <-. apply Hsub. auto.
Qed.

Lemma find_one_by_id_in {A} (c : Collection A) (p : Doc ObjectId.t A) :
  NoDup (ids c) -> In p c -> find_one (by_id (_id p)) c = Some p.
Proof.
  unfold find_one. induction c as [|d c IH]; simpl; intros Hnd Hin; [tauto|].
  inversion Hnd as [|? ? Hnotin Hnd']; subst.
  destruct Hin as [-> | Hin].
  - assert (by_id (_id p) p = true) as -> by (apply by_id_true; reflexivity).
    reflexivity.
  - destruct (by_id (_id p) d) eqn:E; [|auto].
    exfalso. apply Hnotin. apply by_id_true in E. rewrite E.
    unfold ids. apply (in_map (fun d => _id d)). exact Hin.
Qed.

(** X9.  Every product that [list_products] lists can be fetched: when the
    stored products have distinct 96-bit identifiers, [get_product] called
    with the [_id] text of a listed product returns that same document. *)
Theorem listed_product_can_be_fetched `{U : Py.Unicode}
  (category q : option string) (db : Db) (l : list (Doc string Product.t))
  (d : Doc string Product.t) :
  NoDup (ids (product (store db))) ->
  Forall (fun i => (i < 2 ^ 96)%N) (ids (product (store db))) ->
  available 1 db ->
  fst (list_products category q db) = Return l ->
  In d l ->
  fst (get_product (_id d) db) = Return d.
Proof.
  intros Hnd Hbits Hav Hlist Hin.
  destruct (list_products_returns_stored category q db l Hlist d Hin)
    as (p & Hp & ->).
  cbn [serialize _id].
  apply (get_product_found (ObjectId.str (_id p)) (ObjectId.Full (_id p))
           db p Hav).
  - apply parse_str. rewrite Forall_forall in Hbits. apply Hbits.
    unfold ids. apply (in_map (fun d => _id d)). exact Hp.
  - cbn [by_key]. apply find_one_by_id_in; assumption.
Qed.

Lemma listed_product_can_be_fetched_witness :
  fst (list_products (U := Py.ascii_text)
        (Some "electronics"%string) None catalog_db)
  = Return [mkDoc (ObjectId.str 0%N) headphones] /\
  fst (get_product (ObjectId.str 0%N) catalog_db)
  = Return (mkDoc (ObjectId.str 0%N) headphones).
Proof.
  split; [reflexivity|].
  apply (listed_product_can_be_fetched (U := Py.ascii_text)
           (Some "electronics"%string) None
           catalog_db [mkDoc (ObjectId.str 0%N) headphones]
           (mkDoc (ObjectId.str 0%N) headphones)).
  - unfold catalog_db. cbn [ids product store List.map _id].
    repeat constructor; simpl; intuition discriminate.
  - unfold catalog_db. cbn [ids product store List.map _id].
    repeat constructor.
  - exact I.
  - reflexivity.
  - left. reflexivity.
Defined.

Lemma search_hit_cases `{U : Py.Unicode}
  (q : string) (p : Doc ObjectId.t Product.t) :
  (unsearchable q (body p) /\ search_hit (Py.lower q) p = Raise AttributeError) \/
  (~ unsearchable q (body p) /\
   search_hit (Py.lower q) p = Return (search_matchb q (body p))).
Proof.
  unfold unsearchable, search_hit, search_matchb.
  destruct (Product.title (body p)) as [| |t] eqn:Et; cbn [get_lower rbind text].
  - destruct (Py.contains (Py.lower EmptyString) (Py.lower q)) eqn:Ec.
    + right. split; [|reflexivity]. intros [H | [H _]]; congruence.
    + destruct (Product.description (body p)) as [| |dsc] eqn:Ed;
        cbn [get_lower rbind text].
      * right. split; [|reflexivity]. intros [H | [_ H]]; congruence.
      * left. split; [right; split; reflexivity | reflexivity].
      * right. split; [|reflexivity]. intros [H | [_ H]]; congruence.
  - left. split; [left; reflexivity | reflexivity].
  - destruct (Py.contains (Py.lower t) (Py.lower q)) eqn:Ec.
    + right. split; [|reflexivity]. intros [H | [H _]]; congruence.
    + destruct (Product.description (body p)) as [| |dsc] eqn:Ed;
        cbn [get_lower rbind text].
      * right. split; [|reflexivity]. intros [H | [_ H]]; congruence.
      * left. split; [right; split; reflexivity | reflexivity].
      * right. split; [|reflexivity]. intros [H | [_ H]]; congruence.
Qed.

Lemma comprehension_search `{U : Py.Unicode}
  (q : string) (ps : Collection Product.t) :
  (Exists (fun p => unsearchable q (body p)) ps /\
   comprehension (search_hit (Py.lower q)) ps = Raise AttributeError) \/
  (~ Exists (fun p => unsearchable q (body p)) ps /\
   comprehension (search_hit (Py.lower q)) ps
   = Return (List.filter (fun p => search_matchb q (body p)) ps)).
Proof.
  induction ps as [|p ps IH]; simpl.
  - right. split; [|reflexivity]. intros H. inversion H.
  - destruct (search_hit_cases q p) as [[Hu ->] | [Hu ->]]; cbn [rbind].
    + left. split; [left; exact Hu | reflexivity].
    + destruct IH as [[Hex ->] | [Hex ->]]; cbn [rbind].
      * left. split; [right; exact Hex | reflexivity].
      * right. split.
        -- intros H. inversion H; subst; tauto.
        -- destruct (search_matchb q (body p)); reflexivity.
Qed.

(** X10.  When a search is made and the backend answers, [list_products]
    fails exactly when one of the products of the category has [None] as
    title, or has [None] as description and a title that, lower-cased, does
    not hold the lower-cased query; it then answers 500 with the text of the
    [AttributeError].  Otherwise it returns the products that match.  This
    holds whatever the case mapping of [str.lower] is. *)
Theorem list_products_search_fails `{U : Py.Unicode}
  (category : option string) (q : string) (db : Db) :
  q <> EmptyString ->
  available 1 db ->
  let ps := List.filter
              (by_category_slug (if Py.truthy category then category else None))
              (product (store db)) in
  (Exists (fun p => unsearchable q (body p)) ps /\
   fst (list_products category (Some q) db)
   = Raise (HTTPException 500 (StrOf AttributeError))) \/
  (~ Exists (fun p => unsearchable q (body p)) ps /\
   fst (list_products category (Some q) db)
   = Return (List.map serialize
               (List.filter (fun p => search_matchb q (body p)) ps))).
Proof.
  intros Hq Hav ps.
  unfold list_products, except_Exception, bind, get_documents_product.
  cbv zeta. rewrite call_available by exact Hav. cbn [fst snd].
  assert (Py.truthy (Some q) = true) as ->
    by (destruct q; [congruence | reflexivity]).
  unfold lift. fold ps.
  destruct (comprehension_search q ps) as [[Hex ->] | [Hex ->]].
  - left. split; [exact Hex | reflexivity].
  - right. split; [exact Hex | reflexivity].
Qed.

(** In [catalog_db] the lamp has no description: the search for "wireless"
    over all products fails on it, the search for "lamp" finds it by its
    title. *)
Lemma list_products_search_fails_witness :
  fst (list_products (U := Py.ascii_text)
        None (Some "wireless"%string) catalog_db)
  = Raise (HTTPException 500 (StrOf AttributeError)) /\
  fst (list_products (U := Py.ascii_text) None (Some "lamp"%string) catalog_db)
  = Return [mkDoc (ObjectId.str 1%N) lamp].
Proof.
  split.
  - destruct (list_products_search_fails (U := Py.ascii_text)
                None "wireless" catalog_db
                ltac:(discriminate) I) as [[_ H] | [Hno _]]; [exact H|].
    exfalso. apply Hno. right. left. right. split; reflexivity.
  - destruct (list_products_search_fails (U := Py.ascii_text)
                None "lamp" catalog_db
                ltac:(discriminate) I) as [[Hex _] | [_ H]]; [|exact H].
    exfalso. inversion Hex as [? ? Hu | ? ? Hex']; subst.
    + destruct Hu as [Hu | [_ Hu]]; discriminate.
    + inversion Hex' as [? ? Hu | ? ? Hex'']; subst.
      * destruct Hu as [Hu | [Hu _]]; discriminate.
      * inversion Hex''.
Defined.

(* ================================================================= *)
(** ** The world: calls, loops and what they keep *)

Import Catalog.

Lemma wcall_cases {A}
  (op : Collection Category.t -> Store -> A * Collection Category.t * Store)
  (w : World) :
  wcall op w = (Raise PyMongoError, w) \/
  wcall op w
  = (Return (fst (fst (op (category w) (store (backend w))))),
     mkWorld (snd (fst (op (category w) (store (backend w)))))
             (mkDb (snd (op (category w) (store (backend w))))
                   (spend (budget (backend w))))).
Proof.
  unfold wcall.
  match goal with
  | |- context [call ?f (backend w)] =>
      destruct (call_cases f (backend w)) as [-> | ->]
  end.
  - left. destruct w. reflexivity.
  - right. destruct (op (category w) (store (backend w))) as [[a c] s].
    reflexivity.
Qed.

Lemma keeps_wret {A} (P : World -> Prop) (a : A) : keeps P (wret a).
Proof. intros w H. exact H. Qed.

Lemma keeps_wbind {A B} (P : World -> Prop) (m : W A) (k : A -> W B) :
  keeps P m -> (forall a, keeps P (k a)) -> keeps P (wbind m k).
Proof.
  intros Hm Hk w H. unfold wbind. specialize (Hm w H).
  destruct (m w) as [[a|e] w']; [apply Hk|]; exact Hm.
Qed.

Lemma keeps_wexcept_Exception {A} (P : World -> Prop) (m : W A) :
  keeps P m -> keeps P (wexcept_Exception m).
Proof.
  intros Hm w H. unfold wexcept_Exception. specialize (Hm w H).
  destruct (m w) as [[a|e] w']; exact Hm.
Qed.

Lemma keeps_for_each {A B} (P : World -> Prop) (body : A -> W B) (l : list A) :
  (forall a, keeps P (body a)) -> keeps P (for_each body l).
Proof.
  intros Hbody. induction l as [|a l IH]; simpl.
  - apply keeps_wret.
  - apply keeps_wbind; [apply Hbody | intros _; exact IH].
Qed.

Lemma keeps_wcall {A} (P : World -> Prop)
  (op : Collection Category.t -> Store -> A * Collection Category.t * Store) :
  (forall w, P w ->
             P (mkWorld (snd (fst (op (category w) (store (backend w)))))
                        (mkDb (snd (op (category w) (store (backend w))))
                              (spend (budget (backend w)))))) ->
  keeps P (wcall op).
Proof.
  intros Hop w H. destruct (wcall_cases op w) as [-> | ->]; [exact H|].
  apply Hop. exact H.
Qed.

Lemma keeps_on_backend {A} (P : World -> Prop) (m : M A) :
  (forall c db, P (mkWorld c db) -> P (mkWorld c (snd (m db)))) ->
  keeps P (on_backend m).
Proof.
  intros Hm [c db] H. unfold on_backend. cbn [backend category].
  specialize (Hm c db H). destruct (m db) as [r db']. exact Hm.
Qed.

Lemma keeps_call {A} (P : World -> Prop) (op : Store -> A * Store) :
  (forall c db, P (mkWorld c db) ->
                P (mkWorld c (mkDb (snd (op (store db))) (spend (budget db))))) ->
  keeps P (on_backend (call op)).
Proof.
  intros Hop. apply keeps_on_backend. intros c db H.
  destruct (call_cases op db) as [-> | ->]; [exact H | apply Hop; exact H].
Qed.

(** [seed] never writes a cart or an order. *)
Lemma seed_keeps_carts_orders (cs : Collection Cart.t) (os : Collection Order.t) :
  keeps (fun w => cart (store (backend w)) = cs /\
                  order (store (backend w)) = os) seed.
Proof.
  unfold seed. apply keeps_wexcept_Exception.
  apply keeps_wbind; [apply keeps_wcall; auto|]. intros n.
  apply keeps_wbind.
  { destruct (Nat.eqb n 0); [|apply keeps_wret].
    apply keeps_for_each. intros a. apply keeps_wcall. auto. }
  intros _. apply keeps_wbind; [apply keeps_call; auto|]. intros m.
  apply keeps_wbind; [|intros _; apply keeps_wret].
  destruct (Nat.eqb m 0); [|apply keeps_wret].
  apply keeps_for_each. intros a. apply keeps_call. auto.
Qed.

Lemma length_not_nil {A} (l : list A) : l <> [] -> Nat.eqb (List.length l) 0 = false.
Proof. destruct l; [congruence | reflexivity]. Qed.

(** X11.  [seed] fills a collection only when it finds it empty: whatever
    the backend does, a category collection that holds a document is left as
    it is, and so is a product collection that holds a document; in
    particular categories left incomplete by a seed that failed half way are
    not completed by a later seed.  Carts and orders are never touched. *)
Theorem seed_fills_only_empty (w : World) :
  (category w <> [] -> category (snd (seed w)) = category w) /\
  (product (store (backend w)) <> [] ->
   product (store (backend (snd (seed w)))) = product (store (backend w))) /\
  cart (store (backend (snd (seed w)))) = cart (store (backend w)) /\
  order (store (backend (snd (seed w)))) = order (store (backend w)).
Proof.
  split; [|split].
  - intros Hne.
    set (P := fun w' : World => category w' = category w).
    assert (HP : keeps P seed); [|exact (HP w eq_refl)].
    unfold seed. apply keeps_wexcept_Exception.
    unfold wbind at 1. intros w0 H0.
    destruct (wcall_cases (fun c s => (List.length c, c, s)) w0) as [E | E];
      unfold category_count_documents; rewrite E; [exact H0|].
    cbn [fst snd]. unfold P in H0. rewrite H0, (length_not_nil _ Hne).
    match goal with |- P (snd (?m ?w1)) => assert (Hm : keeps P m) end.
    { apply keeps_wbind; [apply keeps_wret|]. intros _.
      apply keeps_wbind; [apply keeps_on_backend; auto|]. intros m.
      apply keeps_wbind; [|intros _; apply keeps_wret].
      destruct (Nat.eqb m 0); [|apply keeps_wret].
      apply keeps_for_each. intros a. apply keeps_on_backend. auto. }
    apply Hm. unfold P. cbn [category]. reflexivity.
  - intros Hne.
    set (P := fun w' : World =>
                product (store (backend w')) = product (store (backend w))).
    assert (HP : keeps P seed); [|exact (HP w eq_refl)].
    unfold seed. apply keeps_wexcept_Exception.
    apply keeps_wbind; [apply keeps_wcall; auto|]. intros n.
    apply keeps_wbind.
    { destruct (Nat.eqb n 0); [|apply keeps_wret].
      apply keeps_for_each. intros a. apply keeps_wcall. auto. }
    intros _ w0 H0. unfold wbind at 1, on_backend at 1, product_count_documents.
    destruct (call_cases (fun s => (List.length (product s), s)) (backend w0))
      as [E | E]; rewrite E; [exact H0|].
    cbn [fst snd]. unfold P in H0. rewrite H0, (length_not_nil _ Hne).
    exact H0.
  - exact (seed_keeps_carts_orders _ _ w (conj eq_refl eq_refl)).
Qed.

Lemma seed_fills_only_empty_witness :
  let w1 := snd (seed (with_budget (Some 3) empty_world)) in
  List.map (fun d => Category.slug (body d)) (category w1)
  = ["electronics"; "home-kitchen"]%string /\
  (let '(r, w2) := seed (with_budget None w1) in
   r = Return (SeedReply.mk "ok") /\
   category w2 = category w1 /\
   List.length (product (store (backend w2))) = 3).
Proof.
  cbv zeta. split; [reflexivity|].
  pose proof (proj1 (seed_fills_only_empty
                       (with_budget None
                          (snd (seed (with_budget (Some 3) empty_world))))))
    as H.
  destruct (seed (with_budget None _)) as [r w2] eqn:E.
  split; [|split].
  - vm_compute in E. injection E as <- _. reflexivity.
  - apply H. discriminate.
  - vm_compute in E. injection E as _ <-. reflexivity.
Defined.

(* ================================================================= *)
(** ** Seeding with a backend that answers *)

Lemma wcall_available {A}
  (op : Collection Category.t -> Store -> A * Collection Category.t * Store)
  (w : World) :
  available 1 (backend w) ->
  wcall op w
  = (Return (fst (fst (op (category w) (store (backend w))))),
     mkWorld (snd (fst (op (category w) (store (backend w)))))
             (mkDb (snd (op (category w) (store (backend w))))
                   (spend (budget (backend w))))).
Proof.
  intros Hav. unfold wcall. rewrite call_available by exact Hav.
  destruct (op (category w) (store (backend w))) as [[a c] s]. reflexivity.
Qed.

Lemma on_backend_call_available {A} (op : Store -> A * Store) (w : World) :
  available 1 (backend w) ->
  on_backend (call op) w
  = (Return (fst (op (store (backend w)))),
     mkWorld (category w)
             (mkDb (snd (op (store (backend w)))) (spend (budget (backend w))))).
Proof.
  intros Hav. unfold on_backend. rewrite call_available by exact Hav.
  reflexivity.
Qed.

Lemma N_succ_add_of_nat (n : N) (k : nat) :
  (N.succ n + N.of_nat k = n + N.of_nat (S k))%N.
Proof. lia. Qed.

Lemma for_each_create_document_category (l : list Category.t) :
  forall c s b,
    available (List.length l) (mkDb s b) ->
    for_each create_document_category l (mkWorld c (mkDb s b))
    = (Return tt,
       mkWorld (insert_many (next_oid s) l c)
               (mkDb (mkStore (product s) (cart s) (order s)
                              (next_oid s + N.of_nat (List.length l))%N)
                     (spend_many (List.length l) b))).
Proof.
  induction l as [|a l IH]; intros c s b Hav.
  - cbn [for_each List.length spend_many insert_many N.of_nat].
    rewrite N.add_0_r. destruct s. reflexivity.
  - cbn [for_each List.length spend_many insert_many].
    unfold wbind, create_document_category.
    rewrite wcall_available
      by (eapply available_le; [|exact Hav]; cbn [List.length]; lia).
    cbn [fst snd category backend store budget].
    rewrite IH by (apply (available_spend (List.length l) _ (mkDb s b)); exact Hav).
    cbn [next_oid product cart order]. rewrite N_succ_add_of_nat. reflexivity.
Qed.

Lemma for_each_create_document_product (l : list Product.t) :
  forall c s b,
    available (List.length l) (mkDb s b) ->
    for_each (fun p => on_backend (create_document_product p)) l
             (mkWorld c (mkDb s b))
    = (Return tt,
       mkWorld c
               (mkDb (mkStore (insert_many (next_oid s) l (product s))
                              (cart s) (order s)
                              (next_oid s + N.of_nat (List.length l))%N)
                     (spend_many (List.length l) b))).
Proof.
  induction l as [|a l IH]; intros c s b Hav.
  - cbn [for_each List.length spend_many insert_many N.of_nat].
    rewrite N.add_0_r. destruct s. reflexivity.
  - cbn [for_each List.length spend_many insert_many].
    unfold wbind, create_document_product.
    rewrite on_backend_call_available
      by (eapply available_le; [|exact Hav]; cbn [List.length]; lia).
    cbn [fst snd category backend store budget].
    rewrite IH by (apply (available_spend (List.length l) _ (mkDb s b)); exact Hav).
    cbn [next_oid product cart order]. rewrite N_succ_add_of_nat. reflexivity.
Qed.

Lemma seed_returns (w : World) :
  available 9 (backend w) ->
  seed w = (Return (SeedReply.mk "ok"), seeded w).
Proof.
  destruct w as [c [s b]]. intros Hav. cbn [backend] in Hav.
  unfold seed, wexcept_Exception, wbind at 1, category_count_documents.
  rewrite wcall_available by (eapply available_le; [|exact Hav]; lia).
  cbn [fst snd category backend store budget].
  unfold seeded. cbn [category backend store budget].
  assert (Hcat :
    (if Nat.eqb (List.length c) 0
     then for_each create_document_category categories else wret tt)
      (mkWorld c (mkDb s (spend b)))
    = (Return tt,
       match c with
       | [] =>
           mkWorld (insert_many (next_oid s) categories [])
                   (mkDb (mkStore (product s) (cart s) (order s)
                                  (next_oid s + 4)%N) (spend_many 5 b))
       | _ :: _ => mkWorld c (mkDb s (spend b))
       end)).
  { destruct c as [|d c]; cbn [List.length Nat.eqb]; [|reflexivity].
    rewrite for_each_create_document_category; [reflexivity|].
    unfold available in *. cbn [budget List.length categories] in *.
    destruct b as [[|k]|]; cbn [spend]; lia || exact I. }
  unfold wbind at 1. rewrite Hcat. clear Hcat.
  set (w1 := match c with [] => _ | _ :: _ => _ end).
  assert (Hav1 : available 4 (backend w1)).
  { subst w1. unfold available in *. cbn [budget] in *.
    destruct c; cbn [backend budget spend_many];
      destruct b as [[|[|[|[|[|[|k]]]]]]|]; cbn [spend]; lia || exact I. }
  destruct w1 as [c1 [s1 b1]]. cbn [backend category store budget] in *.
  unfold wbind at 1, product_count_documents.
  rewrite on_backend_call_available
    by (eapply available_le; [|exact Hav1]; lia).
  cbn [fst snd category backend store budget].
  destruct (product s1) as [|p ps] eqn:Hp; cbn [List.length Nat.eqb].
  - unfold wbind. rewrite for_each_create_document_product.
    + rewrite Hp. reflexivity.
    + unfold available in *. cbn [budget List.length sample] in *.
      destruct b1 as [[|k]|]; cbn [spend]; lia || exact I.
  - reflexivity.
Qed.

Lemma insert_many_not_nil {A} (l : list A) :
  forall oid c, (l <> [] \/ c <> []) -> insert_many oid l c <> [].
Proof.
  induction l as [|a l IH]; intros oid c H; cbn [insert_many].
  - destruct H; [congruence | assumption].
  - apply IH. right. unfold insert_one. destruct c; discriminate.
Qed.

Lemma seed_nonempty_returns (w : World) :
  category w <> [] ->
  product (store (backend w)) <> [] ->
  available 2 (backend w) ->
  seed w
  = (Return (SeedReply.mk "ok"),
     mkWorld (category w)
             (mkDb (store (backend w)) (spend (spend (budget (backend w)))))).
Proof.
  destruct w as [c [s b]]. cbn [category backend store budget].
  intros Hc Hp Hav.
  unfold seed, wexcept_Exception, wbind at 1, category_count_documents.
  rewrite wcall_available by (eapply available_le; [|exact Hav]; lia).
  cbn [fst snd category backend store budget].
  rewrite (length_not_nil _ Hc). unfold wbind at 1, wret at 1.
  unfold wbind at 1, product_count_documents.
  rewrite on_backend_call_available
    by (apply (available_spend 1 s (mkDb s b)); exact Hav).
  cbn [fst snd category backend store budget].
  rewrite (length_not_nil _ Hp). reflexivity.
Qed.

(** X12.  [seed] is idempotent: with a backend that answers, a first seed
    returns "ok" and leaves both collections non-empty, and a second seed
    returns "ok" as well and changes neither the categories nor the store. *)
Theorem seed_idempotent (w : World) :
  available 11 (backend w) ->
  let '(r1, w1) := seed w in
  let '(r2, w2) := seed w1 in
  r1 = Return (SeedReply.mk "ok") /\
  r2 = Return (SeedReply.mk "ok") /\
  category w1 <> [] /\
  product (store (backend w1)) <> [] /\
  category w2 = category w1 /\
  store (backend w2) = store (backend w1).
Proof.
  intros Hav.
  rewrite seed_returns by (eapply available_le; [|exact Hav]; lia).
  assert (Hc : category (seeded w) <> []).
  { destruct w as [c [s b]]. unfold seeded. cbn [category backend store].
    destruct c as [|d c]; cbn [backend store product category];
      destruct (product s); cbn [category]; try discriminate;
      apply insert_many_not_nil; left; discriminate. }
  assert (Hp : product (store (backend (seeded w))) <> []).
  { destruct w as [c [s b]]. unfold seeded. cbn [category backend store].
    destruct c as [|d c]; cbn [backend store product category];
      destruct (product s) eqn:Ep; cbn [backend store product];
      try discriminate; try (rewrite Ep; discriminate);
      apply insert_many_not_nil; left; discriminate. }
  assert (Hav1 : available 2 (backend (seeded w))).
  { destruct w as [c [s b]]. cbn [backend] in Hav.
    unfold seeded, available in *.
    cbn [backend store category budget] in *.
    destruct c; cbn [backend store category budget product];
      destruct (product s); cbn [backend budget spend_many];
      destruct b as [[|[|[|[|[|[|[|[|[|[|[|k]]]]]]]]]]]|]; cbn [spend];
      lia || exact I. }
  rewrite (seed_nonempty_returns (seeded w) Hc Hp Hav1).
  cbn [category backend store]. repeat split; assumption.
Qed.

(** Seeding the empty world twice leaves the four categories and the three
    products of the first seed. *)
Lemma seed_idempotent_witness :
  available 11 (backend empty_world) /\
  (let '(r1, w1) := seed empty_world in
   let '(r2, w2) := seed w1 in
   r2 = Return (SeedReply.mk "ok") /\
   List.map (fun d => Category.slug (body d)) (category w2)
   = ["electronics"; "home-kitchen"; "beauty"; "clothing"]%string /\
   List.map (fun d => Product.sku (body d)) (product (store (backend w2)))
   = [Some "HD-1001"; Some "CK-2002"; Some "GL-3003"]%string).
Proof.
  split; [exact I|].
  pose proof (seed_idempotent empty_world I) as H.
  destruct (seed empty_world) as [r1 w1] eqn:E1.
  destruct (seed w1) as [r2 w2] eqn:E2.
  destruct H as (_ & Hr2 & _ & _ & Hc & Hs).
  split; [exact Hr2|]. rewrite Hc, Hs.
  vm_compute in E1. injection E1 as _ <-. split; reflexivity.
Defined.

Lemma list_categories_available (w : World) :
  available 1 (backend w) ->
  list_categories w
  = (Return (List.map serialize (category w)),
     mkWorld (category w)
             (mkDb (store (backend w)) (spend (budget (backend w))))).
Proof.
  intros Hav. unfold list_categories, wexcept_Exception, wbind,
    get_documents_category.
  rewrite wcall_available by exact Hav. reflexivity.
Qed.

(** X13.  After [seed] has run on a world without categories and products,
    [list_categories] returns the four categories of the source and
    [list_products] its three products, each list in the order of the
    source; and every seeded product belongs to a seeded category. *)
Theorem seed_then_list `{U : Py.Unicode} (w : World) :
  category w = [] ->
  product (store (backend w)) = [] ->
  available 10 (backend w) ->
  let w1 := snd (seed w) in
  (exists cats,
      fst (list_categories w1) = Return cats /\
      List.map body cats = categories) /\
  (exists ps,
      fst (list_products None None (backend w1)) = Return ps /\
      List.map body ps = sample) /\
  (forall p, In p sample ->
             exists c, In c categories /\
                       Category.slug c = Product.category_slug p).
Proof.
  intros Hc Hp Hav w1. subst w1.
  rewrite seed_returns by (eapply available_le; [|exact Hav]; lia).
  cbn [snd].
  assert (Hav1 : available 1 (backend (seeded w))).
  { destruct w as [c [s b]]. cbn [category backend store] in *. subst c.
    unfold seeded, available in *. cbn [backend store category budget] in *.
    rewrite Hp. cbn [product backend budget spend_many].
    destruct b as [[|[|[|[|[|[|[|[|[|[|k]]]]]]]]]]|]; cbn [spend];
      lia || exact I. }
  split; [|split].
  - rewrite list_categories_available by exact Hav1. cbn [fst].
    eexists. split; [reflexivity|].
    unfold seeded. cbv zeta. rewrite Hc. cbn [backend store product].
    rewrite Hp. cbn [category insert_many categories insert_one app List.map
                     body _id serialize].
    reflexivity.
  - unfold list_products, except_Exception, bind, get_documents_product.
    cbv zeta. rewrite call_available by exact Hav1.
    cbn [fst snd Py.truthy ret by_category_slug].
    eexists. split; [reflexivity|].
    unfold seeded. cbv zeta. rewrite Hc. cbn [backend store product].
    rewrite Hp. cbn [backend store product next_oid insert_many sample
                     insert_one app List.filter by_category_slug List.map
                     body _id serialize].
    reflexivity.
  - assert (Hall : List.forallb
                     (fun p => List.existsb
                                 (fun c => String.eqb (Category.slug c)
                                                      (Product.category_slug p))
                                 categories) sample = true) by reflexivity.
    rewrite forallb_forall in Hall. intros p Hin.
    specialize (Hall p Hin). apply existsb_exists in Hall.
    destruct Hall as (c & Hcin & Heq). exists c. split; [exact Hcin|].
    apply String.eqb_eq. exact Heq.
Qed.

Lemma seed_then_list_witness :
  let w1 := snd (seed empty_world) in
  List.map (fun d => Category.name (body d))
           match fst (list_categories w1) with Return l => l | Raise _ => [] end
  = ["Electronics"; "Home & Kitchen"; "Beauty"; "Clothing"]%string /\
  List.map (fun d => Product.title (body d))
           match fst (list_products (U := Py.ascii_text)
                 None None (backend w1)) with
           | Return l => l
           | Raise _ => []
           end
  = [Str "Wireless Headphones"; Str "Stainless Cookware Set";
     Str "Organic Face Serum"].
Proof.
  destruct (seed_then_list (U := Py.ascii_text) empty_world eq_refl eq_refl I)
    as ((cats & Hcats & _) & (ps & Hps & _) & _).
  cbv zeta. rewrite Hcats, Hps.
  vm_compute in Hcats. injection Hcats as <-.
  vm_compute in Hps. injection Hps as <-.
  split; reflexivity.
Defined.

(* ================================================================= *)
(** ** What every history keeps *)

Lemma sum_from_order_items (l : list CartItem.t) :
  forall acc,
    Py.sum_from order_line_total acc (List.map order_item l)
    = Py.sum_from line_total acc l.
Proof.
  induction l as [|i l IH]; intros acc; simpl; [reflexivity|].
  unfold order_line_total at 1, line_total at 1. cbn [order_item OrderItem.price
    OrderItem.quantity].
  destruct (Py.float_mul_int (CartItem.price i) (CartItem.quantity i));
    simpl; [apply IH | reflexivity].
Qed.

Lemma Forall_update_one {A} (P : Doc ObjectId.t A -> Prop) flt (fields : A)
  (c : Collection A) :
  Forall P c -> (forall i, P (mkDoc i fields)) ->
  Forall P (update_one flt fields c).
Proof.
  intros Hall Hnew. induction Hall as [|d c Hd Hc IH]; simpl; [constructor|].
  destruct (flt d); constructor; auto.
Qed.

Lemma Forall_delete_one {A} (P : Doc ObjectId.t A -> Prop) flt
  (c : Collection A) :
  Forall P c -> Forall P (delete_one flt c).
Proof.
  intros Hall. induction Hall as [|d c Hd Hc IH]; simpl; [constructor|].
  destruct (flt d); [exact Hc | constructor; assumption].
Qed.

Lemma store_sound_empty : store_sound empty_store.
Proof.
  split; [exact cart_wf_empty | | | | |]; simpl; repeat constructor.
Qed.

Lemma store_sound_put_cart (now : datetime) (c : Cart.t) (s0 : float)
  (s : Store) :
  Py.sum line_total (Cart.items c) = Return s0 ->
  store_sound s -> store_sound (put_cart (cart_data now c s0) s).
Proof.
  intros Hsum [Hwf Hsub Hord Hnd Hfresh [Hoids Hofresh]].
  assert (Hnew : forall i, cart_consistent (mkDoc i (cart_data now c s0)))
    by (intro i; exists s0; split; [exact Hsum | reflexivity]).
  split.
  - apply cart_wf_put_cart. exact Hwf.
  - unfold put_cart. destruct (find_one _ (cart s)); cbn [cart].
    + apply Forall_update_one; assumption.
    + unfold insert_one. apply Forall_app. split; [exact Hsub|].
      constructor; [apply Hnew | constructor].
  - rewrite order_put_cart. exact Hord.
  - unfold put_cart. destruct (find_one _ (cart s)); exact Hnd.
  - unfold put_cart. destruct (find_one _ (cart s)); cbn [product next_oid];
      [exact Hfresh | apply Forall_lt_succ; exact Hfresh].
  - rewrite order_put_cart. split; [exact Hoids|].
    unfold put_cart. destruct (find_one _ (cart s)); cbn [next_oid];
      [exact Hofresh | apply Forall_lt_succ; exact Hofresh].
Qed.

Lemma store_sound_add_order (o : Order.t) (s : Store) :
  order_consistent (mkDoc (next_oid s) o) ->
  store_sound s -> store_sound (add_order o s).
Proof.
  intros Ho [Hwf Hsub Hord Hnd Hfresh [Hoids Hofresh]].
  split; cbn [add_order cart order product next_oid].
  - apply cart_wf_add_order. exact Hwf.
  - exact Hsub.
  - unfold insert_one. apply Forall_app. split; [exact Hord|].
    constructor; [exact Ho | constructor].
  - exact Hnd.
  - apply Forall_lt_succ. exact Hfresh.
  - unfold insert_one, ids in *. rewrite map_app. cbn [List.map _id]. split.
    + apply NoDup_snoc; [exact Hoids | apply fresh_not_in; exact Hofresh].
    + apply Forall_app. split; [apply Forall_lt_succ; exact Hofresh|].
      constructor; [apply N.lt_succ_diag_r | constructor].
Qed.

Lemma store_sound_drop_cart (sid : string) (s : Store) :
  store_sound s -> store_sound (drop_cart sid s).
Proof.
  intros [Hwf Hsub Hord Hnd Hfresh Hoids].
  split; cbn [drop_cart cart order product next_oid]; try assumption.
  - apply cart_wf_drop_cart. exact Hwf.
  - apply Forall_delete_one. exact Hsub.
Qed.

Lemma store_sound_next (s : Store) :
  store_sound s ->
  store_sound (mkStore (product s) (cart s) (order s) (N.succ (next_oid s))).
Proof.
  intros [[Hids Hf Hsess] Hsub Hord Hnd Hfresh [Hoids Hofresh]].
  split; cbn [cart order product next_oid]; try assumption.
  - split; cbn [cart next_oid]; try assumption. apply Forall_lt_succ. exact Hf.
  - apply Forall_lt_succ. exact Hfresh.
  - split; [exact Hoids | apply Forall_lt_succ; exact Hofresh].
Qed.

Lemma store_sound_insert_product (fields : Product.t) (s : Store) :
  store_sound s ->
  store_sound (mkStore (insert_one (next_oid s) fields (product s)) (cart s)
                       (order s) (N.succ (next_oid s))).
Proof.
  intros [[Hids Hf Hsess] Hsub Hord Hnd Hfresh [Hoids Hofresh]].
  split; cbn [cart order product next_oid]; try assumption.
  - split; cbn [cart next_oid]; try assumption. apply Forall_lt_succ. exact Hf.
  - unfold insert_one, ids in *. rewrite map_app. cbn [List.map _id].
    apply NoDup_snoc; [exact Hnd | apply fresh_not_in; exact Hfresh].
  - unfold insert_one, ids in *. rewrite map_app. cbn [List.map _id].
    apply Forall_app. split; [apply Forall_lt_succ; exact Hfresh|].
    constructor; [apply N.lt_succ_diag_r | constructor].
  - split; [exact Hoids | apply Forall_lt_succ; exact Hofresh].
Qed.

Lemma create_or_update_cart_sound (now : datetime) (c : Cart.t) (db : Db) :
  store_sound (store db) ->
  store_sound (store (snd (create_or_update_cart now c db))).
Proof.
  intros Hs.
  destruct (create_or_update_cart_store now c db) as [-> | (s & Hsum & ->)];
    [exact Hs|].
  apply store_sound_put_cart; assumption.
Qed.

Lemma order_of_consistent (now : datetime) (payload : CheckoutPayload.t)
  (c : Doc ObjectId.t Cart.t) (i : ObjectId.t) :
  cart_consistent c -> Cart.items (body c) <> [] ->
  order_consistent (mkDoc i (order_of now payload (body c))).
Proof.
  intros (s & Hsum & Hsub) Hitems. unfold order_consistent, order_of.
  cbn [body Order.items Order.subtotal Order.tax Order.total Order.status].
  split; [|split; [|repeat split]].
  - destruct (Cart.items (body c)); [congruence | discriminate].
  - exists s. split; [|exact Hsub].
    unfold Py.sum. rewrite sum_from_order_items. exact Hsum.
Qed.

Lemma checkout_sound (now : datetime) (payload : CheckoutPayload.t) (db : Db) :
  store_sound (store db) ->
  store_sound (store (snd (checkout now payload db))).
Proof.
  intros Hs.
  destruct (checkout_store now payload db)
    as [-> | (c & Hfind & Hitems & Hstore)]; [exact Hs|].
  assert (Hc : cart_consistent c).
  { apply find_one_in in Hfind. destruct Hfind as [Hin _].
    pose proof (sound_subtotals _ Hs) as Hall.
    rewrite Forall_forall in Hall. apply Hall. exact Hin. }
  assert (Ho : store_sound (add_order (order_of now payload (body c)) (store db)))
    by (apply store_sound_add_order;
        [apply order_of_consistent; assumption | exact Hs]).
  destruct Hstore as [-> | ->]; [exact Ho|].
  apply store_sound_drop_cart. exact Ho.
Qed.

Lemma seed_sound :
  keeps (fun w => store_sound (store (backend w))) seed.
Proof.
  unfold seed. apply keeps_wexcept_Exception.
  apply keeps_wbind; [apply keeps_wcall; auto|]. intros n.
  apply keeps_wbind.
  { destruct (Nat.eqb n 0); [|apply keeps_wret].
    apply keeps_for_each. intros a. apply keeps_wcall.
    intros w H. cbn [fst snd backend store]. apply store_sound_next. exact H. }
  intros _. apply keeps_wbind; [apply keeps_call; auto|]. intros m.
  apply keeps_wbind; [|intros _; apply keeps_wret].
  destruct (Nat.eqb m 0); [|apply keeps_wret].
  apply keeps_for_each. intros a. apply keeps_call.
  intros c db H. cbn [fst snd backend store] in *.
  apply store_sound_insert_product. exact H.
Qed.

Lemma list_categories_sound :
  keeps (fun w => store_sound (store (backend w))) list_categories.
Proof.
  unfold list_categories. apply keeps_wexcept_Exception.
  apply keeps_wbind; [apply keeps_wcall; auto|].
  intros cats. apply keeps_wret.
Qed.

Lemma on_backend_store {A} (m : M A) (w : World) :
  store (backend (snd (on_backend m w))) = store (snd (m (backend w))).
Proof.
  unfold on_backend. destruct (m (backend w)). reflexivity.
Qed.

Lemma serve_sound `{U : Py.Unicode} (r : request) (w : World) :
  store_sound (store (backend w)) ->
  store_sound (store (backend (serve r w))).
Proof.
  intros Hs. destruct r; cbn [serve].
  - apply seed_sound. exact Hs.
  - apply list_categories_sound. exact Hs.
  - rewrite on_backend_store, list_products_store. exact Hs.
  - rewrite on_backend_store, get_product_store. exact Hs.
  - rewrite on_backend_store. apply create_or_update_cart_sound. exact Hs.
  - rewrite on_backend_store, get_cart_store. exact Hs.
  - rewrite on_backend_store. apply checkout_sound. exact Hs.
Qed.

Lemma serve_all_sound `{U : Py.Unicode} (h : list (option nat * request)) :
  forall w, store_sound (store (backend w)) ->
            store_sound (store (backend (serve_all h w))).
Proof.
  unfold serve_all. induction h as [|[b r] h IH]; intros w Hs; simpl.
  - exact Hs.
  - apply IH. apply serve_sound. exact Hs.
Qed.

(** X14.  Documents stay apart.  After any history of requests from the
    empty world, with any storage failures on the way, no two cart documents
    have the same [session_id] or the same [_id], and no two orders and no
    two products have the same [_id]. *)
Theorem history_documents_distinct `{U : Py.Unicode}
  (h : list (option nat * request)) :
  let s := store (backend (serve_all h empty_world)) in
  NoDup (sessions (cart s)) /\ NoDup (ids (cart s)) /\
  NoDup (ids (order s)) /\ NoDup (ids (product s)).
Proof.
  pose proof (serve_all_sound h empty_world store_sound_empty) as Hs.
  destruct (sound_carts _ Hs) as [Hids _ Hsess].
  cbv zeta. split; [exact Hsess|]. split; [exact Hids|].
  split; [exact (proj1 (sound_order_ids _ Hs)) | exact (sound_products _ Hs)].
Qed.

(** X15.  After any history of requests from the empty world, with any
    storage failures on the way, the subtotal of every stored cart is the
    rounded sum of the line totals of its own items. *)
Theorem history_cart_subtotals `{U : Py.Unicode}
  (h : list (option nat * request))
  (d : Doc ObjectId.t Cart.t) :
  In d (cart (store (backend (serve_all h empty_world)))) ->
  exists s, Py.sum line_total (Cart.items (body d)) = Return s /\
            Cart.subtotal (body d) = Py.round2 s.
Proof.
  pose proof (serve_all_sound h empty_world store_sound_empty) as Hs.
  pose proof (sound_subtotals _ Hs) as Hall. rewrite Forall_forall in Hall.
  intros Hin. exact (Hall d Hin).
Qed.

(** X16.  After any history of requests from the empty world, with any
    storage failures on the way, every stored order has at least one item,
    its subtotal is the rounded sum of the line totals of its own items, its
    tax is [round(subtotal * 0.08, 2)], its total is
    [round(subtotal + tax, 2)] and its status is "processing". *)
Theorem history_orders `{U : Py.Unicode} (h : list (option nat * request))
  (d : Doc ObjectId.t Order.t) :
  In d (order (store (backend (serve_all h empty_world)))) ->
  Order.items (body d) <> [] /\
  (exists s, Py.sum order_line_total (Order.items (body d)) = Return s /\
             Order.subtotal (body d) = Py.round2 s) /\
  Order.tax (body d)
  = Py.round2 (PrimFloat.mul (Order.subtotal (body d)) tax_rate) /\
  Order.total (body d)
  = Py.round2 (PrimFloat.add (Order.subtotal (body d)) (Order.tax (body d))) /\
  Order.status (body d) = "processing"%string.
Proof.
  pose proof (serve_all_sound h empty_world store_sound_empty) as Hs.
  pose proof (sound_orders _ Hs) as Hall. rewrite Forall_forall in Hall.
  intros Hin. exact (Hall d Hin).
Qed.

(** The cart of [s1] after [sample_cart] was posted, and the order after it
    was checked out. *)
Lemma history_cart_subtotals_witness :
  let h := [(None, PostCart 100%Z sample_cart)] in
  let d := mkDoc 0%N (Cart.mk "s1" [tea; cup] 25%float (Some 100%Z)) in
  In d (cart (store (backend (serve_all (U := Py.ascii_text)
        h empty_world)))) /\
  exists s, Py.sum line_total (Cart.items (body d)) = Return s /\
            Cart.subtotal (body d) = Py.round2 s.
Proof.
  cbv zeta.
  assert (Hin : In (mkDoc 0%N (Cart.mk "s1" [tea; cup] 25%float (Some 100%Z)))
                   (cart (store (backend
                      (serve_all (U := Py.ascii_text)
                                 [(None, PostCart 100%Z sample_cart)]
                                 empty_world)))))
    by (left; reflexivity).
  split; [exact Hin|].
  exact (history_cart_subtotals (U := Py.ascii_text) _ _ Hin).
Defined.

Lemma history_orders_witness :
  let h := [(None, PostCart 100%Z sample_cart);
            (Some 1, Seed);
            (None, PostCheckout 200%Z sample_payload)] in
  exists d,
    order (store (backend (serve_all (U := Py.ascii_text)
          h empty_world))) = [d] /\
    amounts d = (25%float, 2%float, 27%float) /\
    Order.tax (body d)
    = Py.round2 (PrimFloat.mul (Order.subtotal (body d)) tax_rate).
Proof.
  cbv zeta.
  destruct (order (store (backend (serve_all _ empty_world)))) as [|d l] eqn:E;
    [vm_compute in E; discriminate|].
  assert (Hl : l = []) by (vm_compute in E; injection E as _ <-; reflexivity).
  subst l. exists d. split; [reflexivity|]. split.
  - vm_compute in E. injection E as <-. reflexivity.
  - apply (history_orders (U := Py.ascii_text)
             [(None, PostCart 100%Z sample_cart); (Some 1, Seed);
              (None, PostCheckout 200%Z sample_payload)] d).
    rewrite E. left. reflexivity.
Defined.

(* ================================================================= *)
(** ** The first cart of a session *)

(** X17.  The first post for a session inserts: when the session has no
    cart, [create_or_update_cart] adds one document at the end of the cart
    collection, under the next identifier, with the submitted items, the
    recomputed subtotal and the time of the call; every other cart document
    stays, and [get_cart] then returns the new document. *)
Theorem create_or_update_cart_inserts
  (now : datetime) (c : Cart.t) (db : Db) (s : float) :
  available 3 db ->
  find_one (by_session_id (Cart.session_id c)) (cart (store db)) = None ->
  Py.sum line_total (Cart.items c) = Return s ->
  let fields :=
    Cart.mk (Cart.session_id c) (Cart.items c) (Py.round2 s) (Some now) in
  let '(r, db1) := create_or_update_cart now c db in
  r = Return (CartReply.mk "ok" (Py.round2 s)) /\
  cart (store db1) = cart (store db) ++ [mkDoc (next_oid (store db)) fields] /\
  next_oid (store db1) = N.succ (next_oid (store db)) /\
  product (store db1) = product (store db) /\
  order (store db1) = order (store db) /\
  fst (get_cart (Cart.session_id c) db1)
  = Return (StoredCart (mkDoc (ObjectId.str (next_oid (store db))) fields)).
Proof.
  intros Hav Hfind Hsum fields.
  rewrite (create_or_update_cart_returns now c db s)
    by (exact Hsum || budget_cases db).
  split; [reflexivity|].
  pose proof (find_one_put_cart (cart_data now c s) (store db)) as Hput.
  cbn [cart_data Cart.session_id] in Hput.
  rewrite get_cart_available by budget_cases db.
  cbn [fst store]. rewrite Hput.
  unfold put_cart. cbn [cart_data Cart.session_id]. rewrite Hfind.
  cbn [cart next_oid product order]. repeat split.
Qed.

Lemma create_or_update_cart_inserts_witness :
  available 3 sample_db /\
  (let '(r, db1) :=
     create_or_update_cart 150%Z (Cart.mk "s2" [cup] 0%float None) sample_db in
   r = Return (CartReply.mk "ok" 5%float) /\
   cart (store db1)
   = cart (store sample_db)
     ++ [mkDoc 1%N (Cart.mk "s2" [cup] 5%float (Some 150%Z))]).
Proof.
  split; [exact I|].
  pose proof (create_or_update_cart_inserts 150%Z
                (Cart.mk "s2" [cup] 0%float None) sample_db 5%float
                I eq_refl eq_refl) as H.
  cbv zeta in H.
  destruct (create_or_update_cart 150%Z _ sample_db) as [r db1].
  destruct H as (Hr & Hc & _). split; [exact Hr | exact Hc].
Defined.

(* ================================================================= *)
(** ** The catalog holds seed data only *)

Lemma firstn_S_cons {A} (a : A) (l : list A) (j : nat) :
  a :: List.firstn j l = List.firstn (S j) (a :: l).
Proof. reflexivity. Qed.

Lemma create_document_category_cases (a : Category.t) (w : World) :
  create_document_category a w = (Raise PyMongoError, w) \/
  create_document_category a w
  = (Return (ObjectId.str (next_oid (store (backend w)))),
     mkWorld (insert_one (next_oid (store (backend w))) a (category w))
             (mkDb (mkStore (product (store (backend w)))
                            (cart (store (backend w)))
                            (order (store (backend w)))
                            (N.succ (next_oid (store (backend w)))))
                   (spend (budget (backend w))))).
Proof.
  unfold create_document_category.
  match goal with
  | |- context [wcall ?op w] => destruct (wcall_cases op w) as [-> | ->]
  end; [left | right]; reflexivity.
Qed.

Lemma create_document_product_cases (a : Product.t) (w : World) :
  on_backend (create_document_product a) w = (Raise PyMongoError, w) \/
  on_backend (create_document_product a) w
  = (Return (ObjectId.str (next_oid (store (backend w)))),
     mkWorld (category w)
             (mkDb (mkStore (insert_one (next_oid (store (backend w))) a
                                        (product (store (backend w))))
                            (cart (store (backend w)))
                            (order (store (backend w)))
                            (N.succ (next_oid (store (backend w)))))
                   (spend (budget (backend w))))).
Proof.
  unfold on_backend, create_document_product.
  match goal with
  | |- context [call ?op (backend w)] =>
      destruct (call_cases op (backend w)) as [-> | ->]
  end; [left; destruct w | right]; reflexivity.
Qed.

Lemma for_each_category_bodies (l : list Category.t) :
  forall w,
    exists j,
      List.map body (category (snd (for_each create_document_category l w)))
      = List.map body (category w) ++ List.firstn j l.
Proof.
  induction l as [|a l IH]; intros w; cbn [for_each].
  - exists 0. cbn. rewrite app_nil_r. reflexivity.
  - unfold wbind.
    destruct (create_document_category_cases a w) as [-> | ->].
    + exists 0. cbn. rewrite app_nil_r. reflexivity.
    + match goal with
      | |- context [for_each _ l ?w1] => destruct (IH w1) as [j Hj]
      end.
      exists (S j). rewrite Hj. cbn [category]. unfold insert_one.
      rewrite map_app, <- app_assoc. reflexivity.
Qed.

Lemma for_each_product_bodies (l : list Product.t) :
  forall w,
    exists j,
      List.map body
        (product (store (backend
           (snd (for_each (fun p => on_backend (create_document_product p))
                          l w)))))
      = List.map body (product (store (backend w))) ++ List.firstn j l.
Proof.
  induction l as [|a l IH]; intros w; cbn [for_each].
  - exists 0. cbn. rewrite app_nil_r. reflexivity.
  - unfold wbind.
    destruct (create_document_product_cases a w) as [-> | ->].
    + exists 0. cbn. rewrite app_nil_r. reflexivity.
    + match goal with
      | |- context [for_each _ l ?w1] => destruct (IH w1) as [j Hj]
      end.
      exists (S j). rewrite Hj. cbn [backend store product]. unfold insert_one.
      rewrite map_app, <- app_assoc. reflexivity.
Qed.

Lemma length_zero_nil {A} (l : list A) : Nat.eqb (List.length l) 0 = true -> l = [].
Proof. destruct l; [reflexivity | discriminate]. Qed.

Lemma seed_products_part_keeps_category (C : Collection Category.t) :
  keeps (fun w => category w = C) seed_products_part.
Proof.
  unfold seed_products_part.
  apply keeps_wbind; [apply keeps_on_backend; auto|]. intros m.
  apply keeps_wbind; [|intros _; apply keeps_wret].
  destruct (Nat.eqb m 0); [|apply keeps_wret].
  apply keeps_for_each. intros a. apply keeps_on_backend. auto.
Qed.

Lemma seed_products_part_bodies (w : World) :
  (exists j, List.map body (product (store (backend w)))
             = List.firstn j sample) ->
  exists j, List.map body
              (product (store (backend (snd (seed_products_part w)))))
            = List.firstn j sample.
Proof.
  intros Hj. unfold seed_products_part, wbind at 1, on_backend at 1,
    product_count_documents.
  destruct (call_cases (fun s => (List.length (product s), s)) (backend w))
    as [-> | ->]; cbn [fst snd]; [exact Hj|].
  destruct (Nat.eqb (List.length (product (store (backend w)))) 0) eqn:En.
  - apply length_zero_nil in En. unfold wbind.
    match goal with
    | |- context [for_each ?f sample ?w1] =>
        destruct (for_each_product_bodies sample w1) as [j Hb];
        destruct (for_each f sample w1) as [[u|e] w2]
    end; unfold wret; cbn [snd] in *; exists j; rewrite Hb;
      cbn [backend store]; rewrite En; reflexivity.
  - exact Hj.
Qed.

Lemma seed_keeps_seed_data : keeps seed_data_only seed.
Proof.
  intros w [Hk Hj].
  change seed with
    (wexcept_Exception
       (wbind category_count_documents (fun n =>
        wbind (if Nat.eqb n 0
               then for_each create_document_category categories
               else wret tt) (fun _ => seed_products_part)))).
  split.
  - revert Hk. generalize w. apply (keeps_wexcept_Exception
      (fun w => exists k, List.map body (category w) = List.firstn k categories)).
    clear. intros w Hk. unfold wbind at 1, category_count_documents.
    destruct (wcall_cases (fun c s => (List.length c, c, s)) w) as [-> | ->];
      cbn [fst snd]; [exact Hk|].
    destruct (Nat.eqb (List.length (category w)) 0) eqn:En.
    + apply length_zero_nil in En. unfold wbind.
      match goal with
      | |- context [for_each ?f categories ?w1] =>
          destruct (for_each_category_bodies categories w1) as [j Hb];
          destruct (for_each f categories w1) as [[u|e] w2]
      end; cbn [snd category] in *; rewrite En in Hb; cbn [List.map app] in Hb.
      * rewrite (seed_products_part_keeps_category (category w2) w2 eq_refl).
        exists j. exact Hb.
      * exists j. exact Hb.
    + unfold wbind, wret.
      match goal with
      | |- context [seed_products_part ?w1] =>
          pose proof (seed_products_part_keeps_category (category w1) w1 eq_refl)
            as Hc;
          destruct (seed_products_part w1) as [[u|e] w2]
      end; cbn [snd category] in *; rewrite Hc; exact Hk.
  - revert Hj. generalize w. apply (keeps_wexcept_Exception
      (fun w => exists j, List.map body (product (store (backend w)))
                          = List.firstn j sample)).
    clear. apply keeps_wbind; [apply keeps_wcall; auto|]. intros n.
    apply keeps_wbind.
    + destruct (Nat.eqb n 0); [|apply keeps_wret].
      apply keeps_for_each. intros a. apply keeps_wcall. auto.
    + intros _ w Hj. apply seed_products_part_bodies. exact Hj.
Qed.

Lemma product_put_cart (fields : Cart.t) (s : Store) :
  product (put_cart fields s) = product s.
Proof.
  unfold put_cart. destruct (find_one _ (cart s)); reflexivity.
Qed.

Lemma on_backend_keeps_seed_data {A} (m : M A) (w : World) :
  product (store (snd (m (backend w)))) = product (store (backend w)) ->
  seed_data_only w -> seed_data_only (snd (on_backend m w)).
Proof.
  destruct w as [c db]. unfold on_backend, seed_data_only.
  cbn [backend category]. destruct (m db) as [r db']. cbn [snd backend category].
  intros ->. trivial.
Qed.

Lemma serve_keeps_seed_data `{U : Py.Unicode} (r : request) (w : World) :
  seed_data_only w -> seed_data_only (serve r w).
Proof.
  intros Hw.
  destruct r as [| | cat q | pid | now c0 | sid | now payload]; cbn [serve].
  - apply seed_keeps_seed_data. exact Hw.
  - unfold list_categories, wexcept_Exception, wbind, get_documents_category.
    destruct (wcall_cases (fun c s => (c, c, s)) w) as [-> | ->];
      cbn [fst snd]; exact Hw.
  - apply on_backend_keeps_seed_data; [|exact Hw].
    rewrite list_products_store. reflexivity.
  - apply on_backend_keeps_seed_data; [|exact Hw].
    rewrite get_product_store. reflexivity.
  - apply on_backend_keeps_seed_data; [|exact Hw].
    destruct (create_or_update_cart_store now c0 (backend w))
      as [-> | (s & _ & ->)]; [reflexivity | apply product_put_cart].
  - apply on_backend_keeps_seed_data; [|exact Hw].
    rewrite get_cart_store. reflexivity.
  - apply on_backend_keeps_seed_data; [|exact Hw].
    destruct (checkout_store now payload (backend w))
      as [-> | (c1 & _ & _ & [-> | ->])]; reflexivity.
Qed.

(** X18.  The catalog holds seed data only.  After any history of requests
    from the empty world, with any storage failures on the way, the stored
    categories are the first categories of [seed] and the stored products
    are the first products of [seed], in its order: no request adds, changes
    or removes a category or a product, except [seed] filling an empty
    collection. *)
Theorem history_catalog_is_seed_data `{U : Py.Unicode}
  (h : list (option nat * request)) :
  let w := serve_all h empty_world in
  (exists k, List.map body (category w) = List.firstn k categories) /\
  (exists j, List.map body (product (store (backend w)))
             = List.firstn j sample).
Proof.
  assert (H : forall w, seed_data_only w -> seed_data_only (serve_all h w)).
  { unfold serve_all. induction h as [|[b r] h IH]; intros w Hw; simpl.
    - exact Hw.
    - apply IH. apply serve_keeps_seed_data.
      destruct Hw as [Hk Hj]. split; assumption. }
  apply H. split; exists 0; reflexivity.
Qed.

(* ================================================================= *)
(** ** Diagnostics *)

Lemma str_slice_spec (s : string) :
  forall k,
    (exists rest, s = (Diagnostics.str_slice k s ++ rest)%string) /\
    len (Diagnostics.str_slice k s) <= k /\
    (len s <= k -> Diagnostics.str_slice k s = s).
Proof.
  induction s as [|c s IH]; intros k; cbn [Diagnostics.str_slice len].
  - split; [exists EmptyString; reflexivity|]. split; [lia | reflexivity].
  - destruct (Diagnostics.is_continuation c) eqn:Ec.
    + destruct (IH k) as ([rest Hrest] & Hlen & Hall).
      cbn [len]. rewrite Ec.
      split; [exists rest; simpl; rewrite <- Hrest; reflexivity|].
      split; [exact Hlen|]. intros H. rewrite Hall by exact H. reflexivity.
    + destruct k as [|k].
      * split; [eexists; reflexivity|]. split; [simpl; lia | lia].
      * destruct (IH k) as ([rest Hrest] & Hlen & Hall).
        cbn [len]. rewrite Ec.
        split; [exists rest; simpl; rewrite <- Hrest; reflexivity|].
        split; [lia|]. intros H. rewrite Hall by lia. reflexivity.
Qed.

(** The cut is made between characters, not between bytes. *)
Example str_slice_characters :
  Diagnostics.str_slice 2 "éàx" = "éà"%string /\
  String.length "éà" = 4 /\ len "éà" = 2.
Proof. repeat split. Qed.

(** X20.  The diagnostics always report the backend as running and never
    list more than ten collections: with a handle whose listing answers,
    they give its first ten names; with one whose listing raises, they give
    no name and a status text that ends with at most the first fifty
    characters of the error text; without a handle they report
    "Not Connected" and neither URL nor name. *)
Theorem test_database_bounds
  (db : option Diagnostics.Handle) (url : option string) :
  let r := Diagnostics.test_database db url in
  Diagnostics.backend r = "✅ Running"%string /\
  List.length (Diagnostics.collections r) <= 10 /\
  (forall h names,
      db = Some h -> Diagnostics.list_collection_names h = inr names ->
      Diagnostics.collections r = List.firstn 10 names /\
      Diagnostics.database r = "✅ Connected & Working"%string /\
      Diagnostics.connection_status r = "Connected"%string) /\
  (forall h e,
      db = Some h -> Diagnostics.list_collection_names h = inl e ->
      Diagnostics.collections r = [] /\
      Diagnostics.connection_status r = "Connected"%string /\
      exists excerpt rest,
        Diagnostics.database r
        = ("⚠️  Connected but Error: " ++ excerpt)%string /\
        e = (excerpt ++ rest)%string /\
        len excerpt <= 50 /\
        (len e <= 50 -> excerpt = e)) /\
  (db = None ->
   r = Diagnostics.mkResponse "✅ Running" "⚠️  Available but not initialized"
                              None None "Not Connected" []).
Proof.
  intros r. subst r. unfold Diagnostics.test_database.
  destruct db as [h|].
  - destruct (Diagnostics.list_collection_names h) as [e|names] eqn:El;
      cbn [Diagnostics.backend Diagnostics.collections Diagnostics.database
           Diagnostics.connection_status].
    + split; [reflexivity|]. split; [cbn; lia|].
      split; [intros h' names Hh Hl; injection Hh as <-; congruence|].
      split; [|discriminate].
      intros h' e' Hh Hl. injection Hh as <-. rewrite El in Hl.
      injection Hl as <-.
      split; [reflexivity|]. split; [reflexivity|].
      destruct (str_slice_spec e 50) as ([rest Hrest] & Hlen & Hall).
      exists (Diagnostics.str_slice 50 e), rest. repeat split; assumption.
    + split; [reflexivity|]. split; [apply firstn_le_length|].
      split; [|split; [|discriminate]].
      * intros h' names' Hh Hl. injection Hh as <-. rewrite El in Hl.
        injection Hl as <-. repeat split.
      * intros h' e Hh Hl. injection Hh as <-. congruence.
  - cbn [Diagnostics.backend Diagnostics.collections].
    split; [reflexivity|]. split; [cbn; lia|].
    split; [discriminate|]. split; [discriminate | reflexivity].
Qed.

Lemma test_database_bounds_witness :
  let names :=
    ["a"; "b"; "c"; "d"; "e"; "f"; "g"; "h"; "i"; "j"; "k"; "l"]%string in
  Diagnostics.collections
    (Diagnostics.test_database
       (Some (Diagnostics.mkHandle None (inr names))) None)
  = ["a"; "b"; "c"; "d"; "e"; "f"; "g"; "h"; "i"; "j"]%string /\
  Diagnostics.database
    (Diagnostics.test_database
       (Some (Diagnostics.mkHandle None
                (inl "connection refused"%string))) None)
  = "⚠️  Connected but Error: connection refused"%string.
Proof.
  cbv zeta. split.
  - exact (proj1 (proj1 (proj2 (proj2
             (test_database_bounds
                (Some (Diagnostics.mkHandle None
                         (inr ["a"; "b"; "c"; "d"; "e"; "f"; "g"; "h"; "i";
                               "j"; "k"; "l"]%string))) None)))
             _ _ eq_refl eq_refl)).
  - destruct (proj1 (proj2 (proj2 (proj2
               (test_database_bounds
                  (Some (Diagnostics.mkHandle None
                           (inl "connection refused"%string))) None))))
               _ _ eq_refl eq_refl)
      as (_ & _ & excerpt & rest & Hd & _ & _ & Hall).
    rewrite Hd, Hall; [reflexivity | cbn; lia].
Defined.
